(** * The tool-execution and pagination engine of the Gong MCP server

    A shallow embedding of [executeApiTool], [getZodSchemaFromJsonSchema],
    [formatApiError], [acquireOAuth2Token] and the two request handlers
    (the generated TypeScript server), with the properties the
    specification states about them.

    Conventions of the embedding.
    - A JSON value is a [json]; a JavaScript expression that may be
      [undefined] is an [option json] ([None] is [undefined]).
    - An object is a finite map from property names to values.  Only own
      properties are modelled (nothing is inherited from a prototype), and
      the order of the keys is not kept.
    - Numbers are integers; the engine only tests them for zero and counts
      pages, and the expiry of a token is computed with the rounding of
      doubles.  Strings are sequences of 8-bit characters, one for each
      UTF-16 code unit of the text: the texts of the model are ASCII
      texts.
    - The file is an ES module, hence strict-mode code: assigning to a
      property of a primitive value throws a [TypeError].
    - Built-in and library functions whose results the engine only passes
      on ([encodeURIComponent], [String.prototype.replace],
      [URLSearchParams], [Buffer] base64, [JSON.stringify], and
      [jsonSchemaToZod] followed by [eval]) are fields of a [Runtime]
      record; every theorem holds for every runtime.  The validator that
      the libraries json-schema-to-zod and zod give for a schema is
      modelled in a section of its own; it is the validator of the
      runtime the examples run with.
    - The remote API is a script: the list of the answers the server gives
      to the successive requests, each a function of the request. *)

From stdpp Require Import gmap strings list pretty.
From Stdlib Require Import ZArith Lia.

#[local] Set Warnings "-register-all".
#[local] Open Scope Z_scope.

(** ** JSON values and the JavaScript operators the engine applies to them *)

Inductive json :=
| JNull
| JBool (b : bool)
| JNum (n : Z)
| JStr (s : string)
| JArr (xs : list json)
| JObj (kvs : gmap string json).

Abbreviation obj := (gmap string json).

(** An object literal. *)
Definition object (kvs : list (string * json)) : json := JObj (list_to_map kvs).

(** [ToBoolean]: the values that make [if (v)], [!v], [a || b] go one
    way or the other. *)
Definition truthy (v : json) : bool :=
  match v with
  | JNull => false
  | JBool b => b
  | JNum n => negb (n =? 0)
  | JStr s => negb (String.eqb s "")
  | JArr _ | JObj _ => true
  end.

Definition truthy_opt (o : option json) : bool := from_option truthy false o.

(** [a || b] *)
Definition js_or (a b : option json) : option json :=
  if truthy_opt a then a else b.

(** [a || null], a value that is never [undefined] *)
Definition or_null (a : option json) : json :=
  match js_or a (Some JNull) with Some v => v | None => JNull end.

(** [v.k] for a value [v] that is neither [null] nor [undefined]: the own
    property, [undefined] when there is none (in particular on every
    primitive and, for the names the engine reads, on every array). *)
Definition get (v : json) (k : string) : option json :=
  match v with
  | JObj o => o !! k
  | _ => None
  end.

(** [e?.k] *)
Definition get_opt (e : option json) (k : string) : option json :=
  match e with
  | None | Some JNull => None
  | Some v => get v k
  end.

(** [v === true || v === "true"] *)
Definition is_true_flag (e : option json) : bool :=
  match e with
  | Some (JBool true) => true
  | Some (JStr s) => String.eqb s "true"
  | _ => false
  end.

(** ** Exceptions *)

Record AxiosResponse := {
  status : Z;
  statusText : string;
  rdata : option json
}.

(** The fields of an [AxiosError] that [formatApiError] reads. *)
Record AxiosError := {
  response : option AxiosResponse;
  request : bool;
  code : option string;
  message : string
}.

(** What the [try] block can throw.  For a [TypeError] the model keeps a
    description of the failing operation; the wording of the message is
    the JavaScript engine's. *)
Inductive exn :=
| ZodError (msg : string)
| AxiosErr (e : AxiosError)
| TypeError (msg : string)
| Error (msg : string).

Inductive completion (A : Type) :=
| Normal (a : A)
| Throw (e : exn).
Arguments Normal {A} a.
Arguments Throw {A} e.

#[global] Instance completion_ret : MRet completion := @Normal.

(** Sequencing: a thrown exception skips the rest of the block. *)
#[global] Instance completion_bind : MBind completion := fun A B k c =>
  match c with
  | Normal a => k a
  | Throw e => Throw e
  end.

(** [v.k] where [v] may be [null]: reading a property of [null] throws. *)
Definition getProp (v : json) (k : string) : completion (option json) :=
  match v with
  | JNull => Throw (TypeError ("Cannot read properties of null (reading '" +:+ k +:+ "')"))
  | _ => Normal (get v k)
  end.

(** [target.k = v] in strict mode, as far as [JSON.stringify] can see the
    result: a property stored on an array is not one of its elements and
    is not serialised, so the array is left as it is. *)
Definition setProp (target : json) (k : string) (v : json) : completion json :=
  match target with
  | JObj o => Normal (JObj (<[k := v]> o))
  | JArr xs => Normal (JArr xs)
  | JNull => Throw (TypeError ("Cannot set properties of null (setting '" +:+ k +:+ "')"))
  | _ => Throw (TypeError ("Cannot create property '" +:+ k +:+ "' on a primitive value"))
  end.

(** The characters of a string, each as a one-character string. *)
Fixpoint chars (s : string) : list json :=
  match s with
  | EmptyString => []
  | String c s' => JStr (String c EmptyString) :: chars s'
  end.

(** [...e] inside an array literal: arrays and strings are iterable,
    nothing else a JSON document holds is. *)
Definition spread (what : string) (e : option json) : completion (list json) :=
  match e with
  | Some (JArr xs) => Normal xs
  | Some (JStr s) => Normal (chars s)
  | _ => Throw (TypeError (what +:+ " is not iterable"))
  end.

(** [{...v}] for a truthy [v]: a copy of the own enumerable properties. *)
Definition spread_object (v : json) : obj :=
  match v with
  | JObj o => o
  | JArr xs => list_to_map (imap (fun i x => (pretty i, x)) xs)
  | JStr s => list_to_map (imap (fun i x => (pretty i, x)) (chars s))
  | _ => ∅
  end.

(** ** The pagination engine: cursor probe, page counters, merge *)

(** [response.data?.records?.nextPageCursor || response.data?.nextPageCursor
     || response.data?.cursor || null] *)
Definition extractNextCursor (data : json) : json :=
  or_null (js_or (get_opt (get_opt (Some data) "records") "nextPageCursor")
          (js_or (get_opt (Some data) "nextPageCursor")
                 (get_opt (Some data) "cursor"))).

Record PaginationInfo := {
  hasMorePages : bool;
  totalPages : nat;
  currentPage : nat
}.

(** [{ hasMorePages: false, totalPages: 1, currentPage: 1 }] *)
Definition initialPaginationInfo : PaginationInfo :=
  {| hasMorePages := false; totalPages := 1; currentPage := 1 |}.

(** [paginationInfo.hasMorePages = hasMorePages;
     if (hasMorePages) { paginationInfo.totalPages++; paginationInfo.currentPage++; }] *)
Definition updatePaginationInfo (info : PaginationInfo) (more : bool) : PaginationInfo :=
  if more
  then {| hasMorePages := true;
          totalPages := S (totalPages info);
          currentPage := S (currentPage info) |}
  else {| hasMorePages := false;
          totalPages := totalPages info;
          currentPage := currentPage info |}.

(** The object [paginationInfo] as [JSON.stringify] shows it. *)
Definition paginationInfo_json (info : PaginationInfo) : json :=
  object [("hasMorePages", JBool (hasMorePages info));
          ("totalPages", JNum (Z.of_nat (totalPages info)));
          ("currentPage", JNum (Z.of_nat (currentPage info)))].

(** [data.k && Array.isArray(data.k)], for [data] that is not [null]:
    the items when it holds. *)
Definition arrayField (data : json) (k : string) : option (list json) :=
  match get data k with
  | Some (JArr xs) => Some xs
  | _ => None
  end.

(** [allData.k = [...allData.k, ...response.data.k];
     allData.nextPageCursor = nextCursor;] *)
Definition appendUnder (k : string) (allData : json) (items : list json)
    (nextCursor : json) : completion json :=
  old ← getProp allData k;
  olds ← spread ("allData." +:+ k) old;
  merged ← setProp allData k (JArr (olds ++ items));
  setProp merged "nextPageCursor" nextCursor.

(** [allData = [...allData, ...response.data];] *)
Definition concatPages (allData : json) (items : list json) : completion json :=
  olds ← spread "allData" (Some allData);
  Normal (JArr (olds ++ items)).

(** [allData.additionalPages = allData.additionalPages || [];
     allData.additionalPages.push(response.data);] *)
Definition pushAdditionalPage (allData data : json) : completion json :=
  old ← getProp allData "additionalPages";
  let pages := if truthy_opt old then from_option id JNull old else JArr [] in
  stored ← setProp allData "additionalPages" pages;
  match pages with
  | JArr ps => setProp stored "additionalPages" (JArr (ps ++ [data]))
  | _ => Throw (TypeError "allData.additionalPages.push is not a function")
  end.

(** The [else] branch of [if (!allData)]: merging a later page into the
    accumulated result, by the shape of the page. *)
Definition mergePage (allData data nextCursor : json) : completion json :=
  match data with
  | JNull => Throw (TypeError "Cannot read properties of null (reading 'records')")
  | _ =>
    match arrayField data "records" with
    | Some items => appendUnder "records" allData items nextCursor
    | None =>
    match arrayField data "calls" with
    | Some items => appendUnder "calls" allData items nextCursor
    | None =>
    match arrayField data "users" with
    | Some items => appendUnder "users" allData items nextCursor
    | None =>
    match arrayField data "results" with
    | Some items => appendUnder "results" allData items nextCursor
    | None =>
    match data with
    | JArr items => concatPages allData items
    | _ => pushAdditionalPage allData data
    end end end end end
  end.

(** [if (!allData) { allData = response.data; } else { ...merge... }] *)
Definition accumulate (allData data nextCursor : json) : completion json :=
  if truthy allData then mergePage allData data nextCursor else Normal data.

(** The argument of the debug message when another page follows,
    [nextCursor?.substring(0, 20)]: only a string has [substring]. *)
Definition logNextCursor (shouldPaginate : bool) (nextCursor : json) : completion unit :=
  if shouldPaginate && truthy nextCursor
  then match nextCursor with
       | JStr _ => Normal tt
       | _ => Throw (TypeError "nextCursor?.substring is not a function")
       end
  else Normal tt.

(** [allData._paginationInfo = paginationInfo;] *)
Definition attachPaginationInfo (allData : json) (info : PaginationInfo) : completion json :=
  setProp allData "_paginationInfo" (paginationInfo_json info).

(** ** Tool definitions, requests and the runtime *)

Record ExecutionParameter := {
  p_name : string;
  p_in : string
}.

Record McpToolDefinition := {
  name : string;
  description : string;
  inputSchema : json;
  method : string;
  pathTemplate : string;
  executionParameters : list ExecutionParameter;
  requestBodyContentType : option string;
  securityRequirements : list json
}.

(** The fields of the [AxiosRequestConfig] the engine fills in. *)
Record AxiosRequestConfig := {
  req_method : string;
  req_url : string;
  req_headers : gmap string string;
  req_data : option json
}.

(** How [await axios(config)] settles: with [response.data], or rejected. *)
Inductive AxiosResult :=
| Resolved (data : json)
| Rejected (e : AxiosError).

(** The remote API: its answer to the first request, to the second, ... *)
Definition Upstream := list (AxiosRequestConfig -> AxiosResult).

(** A server that answers with the given body whatever the request. *)
Definition page (body : json) : AxiosRequestConfig -> AxiosResult :=
  fun _ => Resolved body.

(** The rejection of a request the script has no answer for: the server
    does not respond. *)
Definition noResponse : AxiosError :=
  {| response := None; request := true;
     code := Some "ECONNABORTED"; message := "timeout exceeded" |}.

(** What [zodSchema.parse(toolArgs)] does: returns the parsed object or
    throws a [ZodError].  Every schema of the tool table has type
    [object], so the parsed value is an object. *)
Inductive ParseResult :=
| Parsed (value : obj)
| Invalid (msg : string).

Definition ZodSchema := obj -> ParseResult.

(** [z.object({}).passthrough()]: no declared property, unknown keys kept. *)
Definition passthrough : ZodSchema := fun toolArgs => Parsed toolArgs.

Record Runtime := {
  (** [encodeURIComponent(value)], the argument converted to a string *)
  encodeURIComponent : json -> string;
  (** [s.replace(pattern, replacement)] with a string pattern *)
  String_replace : string -> string -> string -> string;
  (** [new URLSearchParams(queryParams).toString()] *)
  URLSearchParams_toString : obj -> string;
  (** [Buffer.from(s).toString('base64')] *)
  Buffer_base64 : string -> string;
  (** [JSON.stringify(v)]; [None] when it throws *)
  JSON_stringify : json -> option string;
  (** [JSON.stringify(v, null, 2)] *)
  JSON_stringify_indented : json -> string;
  (** [eval(jsonSchemaToZod(jsonSchema))]; [None] when either throws or
      the value has no [parse] function *)
  jsonSchemaToZod : json -> option ZodSchema
}.

Record TextContent := {
  type_ : string;
  text : string
}.

Record CallToolResult := {
  content : list TextContent
}.

(** [{ content: [{ type: 'text', text: t }] }] *)
Definition textResult (t : string) : CallToolResult :=
  {| content := [{| type_ := "text"; text := t |}] |}.

Definition API_BASE_URL : string := "https://api.gong.io".

Definition string_truthy (o : option string) : bool :=
  match o with
  | Some s => negb (String.eqb s "")
  | None => false
  end.

Section Engine.

Context (rt : Runtime).

(** [getZodSchemaFromJsonSchema] *)
Definition getZodSchemaFromJsonSchema (jsonSchema : json) : ZodSchema :=
  match jsonSchema with
  | JObj _ | JArr _ =>
      match jsonSchemaToZod rt jsonSchema with
      | Some zodSchema => zodSchema
      | None => passthrough
      end
  | _ => passthrough
  end.

(** [formatApiError].  [length] and [substring] count UTF-16 code units,
    here the characters of an ASCII text. *)
Definition formatApiError (error : AxiosError) : string :=
  match response error with
  | Some resp =>
      let message :=
        "API Error: Status " +:+ pretty (status resp) +:+ " (" +:+
        (if String.eqb (statusText resp) "" then "Status text not available"
         else statusText resp) +:+ "). " in
      let clip (s : string) :=
        "Response: " +:+ String.substring 0 200 s +:+
        (if (200 <? Z.of_nat (String.length s)) then "..." else "") in
      match rdata resp with
      | Some (JStr responseData) => message +:+ clip responseData
      | responseData =>
          if truthy_opt responseData
          then match JSON_stringify rt (from_option id JNull responseData) with
               | Some jsonString => message +:+ clip jsonString
               | None => message +:+ "Response: [Could not serialize data]"
               end
          else message +:+ "No response body received."
      end
  | None =>
      if request error
      then "API Network Error: No response received from server." +:+
           (if string_truthy (code error)
            then " (Code: " +:+ default "" (code error) +:+ ")" else "")
      else "API request failed." +:+ "API Request Setup Error: " +:+ message error
  end.

Section Call.

Context (definition : McpToolDefinition) (env : gmap string string).
Context (validatedArgs : obj) (shouldPaginate : bool).

(** The URL after [// Replace path parameters]. *)
Definition replacePathParameters : string :=
  foldl (fun url param =>
           if String.eqb (p_in param) "path"
           then match validatedArgs !! p_name param with
                | Some value =>
                    String_replace rt url ("{" +:+ p_name param +:+ "}")
                                   (encodeURIComponent rt value)
                | None => url
                end
           else url)
        (API_BASE_URL +:+ pathTemplate definition)
        (executionParameters definition).

(** [definition.executionParameters.some(p => p.name === "cursor" && p.in === "query")] *)
Definition cursorIsQueryParameter : bool :=
  existsb (fun p => String.eqb (p_name p) "cursor" && String.eqb (p_in p) "query")
          (executionParameters definition).

(** The object [queryParams] when the URL is completed. *)
Definition buildQueryParams (currentCursor : json) : obj :=
  let queryParams :=
    foldl (fun (queryParams : obj) param =>
             if String.eqb (p_in param) "query"
             then match validatedArgs !! p_name param with
                  | Some value => <[p_name param := value]> queryParams
                  | None => queryParams
                  end
             else queryParams)
          ∅ (executionParameters definition) in
  if truthy currentCursor && cursorIsQueryParameter
  then <["cursor" := currentCursor]> queryParams
  else queryParams.

Definition buildUrl (currentCursor : json) : string :=
  let queryParams := buildQueryParams currentCursor in
  if Nat.eqb (size queryParams) 0
  then replacePathParameters
  else replacePathParameters +:+ "?" +:+ URLSearchParams_toString rt queryParams.

(** [config.data]: the copy of [validatedArgs.requestBody], with the
    cursor when paginating. *)
Definition buildRequestBody (currentCursor : json) : option json :=
  if string_truthy (requestBodyContentType definition)
  then match validatedArgs !! "requestBody" with
       | Some body =>
           if truthy body
           then let requestBody := spread_object body in
                Some (JObj (if truthy currentCursor && shouldPaginate
                            then <["cursor" := currentCursor]> requestBody
                            else requestBody))
           else None
       | None => None
       end
  else None.

(** The [Authorization] header, or the error thrown when a credential is
    missing. *)
Definition authorizationHeader : completion string :=
  let accessKey := default "" (env !! "GONG_ACCESS_KEY") in
  let secret := default "" (env !! "GONG_SECRET") in
  if String.eqb accessKey "" || String.eqb secret ""
  then Throw (Error "Missing Gong credentials in environment")
  else Normal ("Basic " +:+ Buffer_base64 rt (accessKey +:+ ":" +:+ secret)).

Definition buildConfig (currentCursor : json) (authHeader : string) : AxiosRequestConfig :=
  let headers : gmap string string :=
    <["Authorization" := authHeader]> (<["Accept" := "application/json"]> ∅) in
  {| req_method := method definition;
     req_url := buildUrl currentCursor;
     req_headers :=
       match requestBodyContentType definition with
       | Some contentType =>
           if string_truthy (Some contentType)
           then <["Content-Type" := contentType]> headers else headers
       | None => headers
       end;
     req_data := buildRequestBody currentCursor |}.

(** The [do { ... } while (currentCursor && shouldPaginate)] loop, one
    iteration per answer of the server; the requests issued are
    accumulated in [issued]. *)
Fixpoint paginate (upstream : Upstream) (allData currentCursor : json)
    (paginationInfo : PaginationInfo) (issued : list AxiosRequestConfig)
    : list AxiosRequestConfig * completion (json * PaginationInfo) :=
  match authorizationHeader with
  | Throw e => (issued, Throw e)
  | Normal authHeader =>
    let config := buildConfig currentCursor authHeader in
    match upstream with
    | [] => (issued ++ [config], Throw (AxiosErr noResponse))
    | respond :: upstream' =>
      match respond config with
      | Rejected e => (issued ++ [config], Throw (AxiosErr e))
      | Resolved data =>
        let nextCursor := extractNextCursor data in
        let hasMorePages := truthy nextCursor && shouldPaginate in
        let paginationInfo' := updatePaginationInfo paginationInfo hasMorePages in
        match accumulate allData data nextCursor with
        | Throw e => (issued ++ [config], Throw e)
        | Normal allData' =>
          match logNextCursor shouldPaginate nextCursor with
          | Throw e => (issued ++ [config], Throw e)
          | Normal _ =>
            if truthy nextCursor && shouldPaginate
            then paginate upstream' allData' nextCursor paginationInfo' (issued ++ [config])
            else (issued ++ [config], Normal (allData', paginationInfo'))
          end
        end
      end
    end
  end.

End Call.

(** [validatedArgs.requestBody.cursor || null] for a body operation,
    [validatedArgs.cursor || null] otherwise. *)
Definition initialCursor (definition : McpToolDefinition) (validatedArgs : obj) : json :=
  if string_truthy (requestBodyContentType definition)
     && truthy_opt (validatedArgs !! "requestBody")
  then or_null (get_opt (validatedArgs !! "requestBody") "cursor")
  else or_null (validatedArgs !! "cursor").

(** The body of the [try] block of [executeApiTool]: the requests issued
    and either the value handed to [JSON.stringify] or what was thrown. *)
Definition executeApiTool_try (definition : McpToolDefinition) (toolArgs : obj)
    (env : gmap string string) (upstream : Upstream)
    : list AxiosRequestConfig * completion json :=
  match getZodSchemaFromJsonSchema (inputSchema definition) toolArgs with
  | Invalid msg => ([], Throw (ZodError msg))
  | Parsed parsed =>
    let shouldPaginate := is_true_flag (toolArgs !! "paginate") in
    let validatedArgs := delete "paginate" parsed in
    let '(issued, outcome) :=
      paginate definition env validatedArgs shouldPaginate upstream JNull
               (initialCursor definition validatedArgs) initialPaginationInfo [] in
    (issued, '(allData, paginationInfo) ← outcome;
             attachPaginationInfo allData paginationInfo)
  end.

(** The [return] of the [try] block and the [catch] block. *)
Definition toCallToolResult (outcome : completion json) : CallToolResult :=
  match outcome with
  | Normal allData => textResult (JSON_stringify_indented rt allData)
  | Throw (ZodError msg) => textResult ("Validation error: " +:+ msg)
  | Throw (AxiosErr e) => textResult (formatApiError e)
  | Throw (TypeError msg) | Throw (Error msg) =>
      textResult ("Unexpected error: " +:+ msg)
  end.

(** [executeApiTool], with the requests it issued. *)
Definition executeApiTool (definition : McpToolDefinition) (toolArgs : obj)
    (env : gmap string string) (upstream : Upstream)
    : list AxiosRequestConfig * CallToolResult :=
  let '(issued, outcome) := executeApiTool_try definition toolArgs env upstream in
  (issued, toCallToolResult outcome).

End Engine.

(** ** OAuth2 client credentials *)

Record TokenCacheEntry := {
  token : json;
  expiresAt : Z
}.

(** [acquireOAuth2Token] up to the token request: the configuration
    values read for a scheme. [process.env[`OAUTH_CLIENT_ID_SCHEMENAME`]]
    and its two siblings are template literals without a substitution. *)
Definition oauthClientIdVariable (schemeName : string) : string :=
  "OAUTH_CLIENT_ID_SCHEMENAME".
Definition oauthClientSecretVariable (schemeName : string) : string :=
  "OAUTH_CLIENT_SECRET_SCHEMENAME".
Definition oauthScopesVariable (schemeName : string) : string :=
  "OAUTH_SCOPES_SCHEMENAME".

(** Where [acquireOAuth2Token] stands before it contacts the token
    endpoint: it has returned [null], it has returned a cached token, or
    it is about to request a token. *)
Inductive OAuth2Step :=
| ReturnNull
| ReturnCached (cached : json)
| RequestToken (tokenUrl : json) (clientId clientSecret : string)
               (scopes : option string) (cacheKey : string).

Definition acquireOAuth2Token (schemeName : string) (scheme : json)
    (env : gmap string string) (cache : gmap string TokenCacheEntry) (now : Z)
    : OAuth2Step :=
  let clientId := env !! oauthClientIdVariable schemeName in
  let clientSecret := env !! oauthClientSecretVariable schemeName in
  let scopes := env !! oauthScopesVariable schemeName in
  if negb (string_truthy clientId) || negb (string_truthy clientSecret)
  then ReturnNull
  else
    let cacheKey := schemeName +:+ "_" +:+ default "" clientId in
    let cachedToken := cache !! cacheKey in
    if from_option (fun entry => now <? expiresAt entry) false cachedToken
    then ReturnCached (from_option token JNull cachedToken)
    else
      match scheme with
      | JNull => ReturnNull
      | _ =>
        let flows := get scheme "flows" in
        let clientCredentials := get_opt (get_opt flows "clientCredentials") "tokenUrl" in
        let password := get_opt (get_opt flows "password") "tokenUrl" in
        let request tokenUrl :=
          RequestToken tokenUrl (default "" clientId) (default "" clientSecret)
                       (if string_truthy scopes then scopes else None) cacheKey in
        if truthy_opt clientCredentials
        then request (from_option id JNull clientCredentials)
        else if truthy_opt password
        then request (from_option id JNull password)
        else ReturnNull
      end.

(** ** The validator of a compiled schema

    [jsonSchemaToZod] (package json-schema-to-zod) turns a JSON Schema
    into the source text of a schema of package zod, and [eval] turns
    that into the schema whose [parse] validates the arguments.  Both
    packages are libraries: their code is not among the sources of the
    repository.  This section gives the validator they produce, for the
    keywords the schemas of the tool table use: [type], [properties],
    [required], [additionalProperties], [items], [enum] and [format].
    An object schema with [properties] becomes [z.object({...})], which
    drops the keys it does not declare unless [additionalProperties]
    says otherwise; a property that is not listed in [required] is
    [.optional()]. *)

Definition schemaType (schema : obj) : string :=
  match schema !! "type" with
  | Some (JStr t) => t
  | _ => ""
  end.

(** [schema.required.includes(k)] *)
Definition isRequired (schema : obj) (k : string) : bool :=
  match schema !! "required" with
  | Some (JArr names) =>
      existsb (fun n => match n with JStr n => String.eqb n k | _ => false end) names
  | _ => false
  end.

(** Equality of a value with a literal of an [enum]. *)
Definition literal_eqb (a b : json) : bool :=
  match a, b with
  | JNull, JNull => true
  | JBool x, JBool y => Bool.eqb x y
  | JNum x, JNum y => x =? y
  | JStr x, JStr y => String.eqb x y
  | _, _ => false
  end.

Definition accepted (r : option json) : bool :=
  match r with
  | Some _ => true
  | None => false
  end.

(** Whether every entry of a map passes a test. *)
Definition map_all {A} (p : string -> A -> bool) (m : gmap string A) : bool :=
  forallb (fun entry => p entry.1 entry.2) (map_to_list m).

Record ZodNode := {
  asSchema : json -> option json;
  asProperties : gmap string (json -> option json)
}.

Section Zod.

(** The check of a string against a [format] ([.email()],
    [.datetime({ offset: true })], ...): regular expressions of zod. *)
Context (formatOk : string -> string -> bool).
(** The text of [error.message] of a [ZodError]: the list of issues. *)
Context (issues : json -> obj -> string).

(** The zod schema generated from a JSON Schema, by what its [parse]
    returns for a value: the parsed value, or [None] when it throws a
    [ZodError].  [asProperties] reads the same JSON object as the value
    of [properties]: the schema of every property. *)
Fixpoint zodNode (schema : json) : ZodNode :=
  match schema with
  | JObj s =>
      let nodes := zodNode <$> s in
      let child (k : string) : option (json -> option json) :=
        asSchema <$> nodes !! k in
      let additional := s !! "additionalProperties" in
      let catchall : json -> option json := default Some (child "additionalProperties") in
      {| asProperties := asSchema <$> nodes;
         asSchema := fun value =>
           if String.eqb (schemaType s) "object" then
             match value with
             | JObj o =>
                 match s !! "properties" with
                 | Some (JObj _) =>
                     (* z.object({ ... }), with .strict() or .catchall(...) *)
                     let shape := from_option asProperties ∅ (nodes !! "properties") in
                     let declared :=
                       map_all (fun k parse =>
                                  match o !! k with
                                  | Some v => accepted (parse v)
                                  | None => negb (isRequired s k)
                                  end) shape in
                     let undeclared (v : json) : option (option json) :=
                       match additional with
                       | None => Some None
                       | Some (JBool false) => None
                       | Some _ => Some <$> catchall v
                       end in
                     let others :=
                       map_all (fun k v =>
                                  match shape !! k with
                                  | Some _ => true
                                  | None => match undeclared v with
                                            | Some _ => true
                                            | None => false
                                            end
                                  end) o in
                     if declared && others
                     then Some (JObj (map_imap (fun k v =>
                                                  match shape !! k with
                                                  | Some parse => parse v
                                                  | None => mjoin (undeclared v)
                                                  end) o))
                     else None
                 | _ =>
                     (* z.record(...) *)
                     if map_all (fun _ v => accepted (catchall v)) o
                     then Some (JObj (map_imap (fun _ v => catchall v) o))
                     else None
                 end
             | _ => None
             end
           else if String.eqb (schemaType s) "array" then
             match value with
             | JArr xs =>
                 match child "items" with
                 | Some parse => JArr <$> mapM parse xs
                 | None => Some value
                 end
             | _ => None
             end
           else
             match s !! "enum" with
             | Some (JArr literals) =>
                 if existsb (literal_eqb value) literals then Some value else None
             | _ =>
                 if String.eqb (schemaType s) "string" then
                   match value with
                   | JStr v =>
                       match s !! "format" with
                       | Some (JStr format) =>
                           if formatOk format v then Some value else None
                       | _ => Some value
                       end
                   | _ => None
                   end
                 else if String.eqb (schemaType s) "number"
                         || String.eqb (schemaType s) "integer" then
                   match value with JNum _ => Some value | _ => None end
                 else if String.eqb (schemaType s) "boolean" then
                   match value with JBool _ => Some value | _ => None end
                 else if String.eqb (schemaType s) "null" then
                   match value with JNull => Some value | _ => None end
                 else Some value
             end |}
  | JBool false => {| asSchema := fun _ => None; asProperties := ∅ |}
  | _ => {| asSchema := Some; asProperties := ∅ |}
  end.

(** [schema.parse(value)] *)
Definition zodParse (schema value : json) : option json :=
  asSchema (zodNode schema) value.

(** [eval(jsonSchemaToZod(jsonSchema))], applied to the arguments of a
    call. *)
Definition zodSchemaOf (jsonSchema : json) : ZodSchema :=
  fun toolArgs =>
    match zodParse jsonSchema (JObj toolArgs) with
    | Some (JObj parsed) => Parsed parsed
    | _ => Invalid (issues jsonSchema toolArgs)
    end.

End Zod.

(** ** The tool table (three entries, the others follow) and example inputs *)

Definition str_schema : json := object [("type", JStr "string")].
Definition fmt_schema (format : string) : json :=
  object [("type", JStr "string"); ("format", JStr format)].
Definition str_array_schema (items : json) : json :=
  object [("type", JStr "array"); ("items", items)].
Definition paginate_schema : json :=
  object [("type", JStr "boolean");
          ("description", JStr "Whether to automatically fetch all pages")].
Definition basicAuthRequirement : json := object [("basicAuth", JArr [])].

Definition getv2callsbyid : McpToolDefinition :=
  {| name := "getv2callsbyid";
     description := "Retrieve a single call";
     inputSchema :=
       object [("type", JStr "object");
               ("properties", object [("id", str_schema)]);
               ("required", JArr [JStr "id"])];
     method := "get";
     pathTemplate := "/v2/calls/{id}";
     executionParameters := [{| p_name := "id"; p_in := "path" |}];
     requestBodyContentType := None;
     securityRequirements := [basicAuthRequirement] |}.

Definition filter_schema : json :=
  object [("type", JStr "object");
          ("properties",
           object [("fromDateTime", fmt_schema "date-time");
                   ("toDateTime", fmt_schema "date-time");
                   ("callIds", str_array_schema str_schema);
                   ("primaryUserIds", str_array_schema str_schema);
                   ("participantsEmails", str_array_schema (fmt_schema "email"))])].

Definition contentSelector_schema : json :=
  object [("type", JStr "object");
          ("properties",
           object [("context",
                    object [("type", JStr "string");
                            ("enum", JArr [JStr "None"; JStr "Extended"])]);
                   ("contextTiming",
                    str_array_schema
                      (object [("type", JStr "string");
                               ("enum", JArr [JStr "Now"; JStr "TimeOfCall"])]));
                   ("exposedFields",
                    object [("type", JStr "object");
                            ("additionalProperties",
                             object [("type", JStr "object")])])])].

Definition postv2callsextensive : McpToolDefinition :=
  {| name := "postv2callsextensive";
     description := "Filtered call list with rich payload";
     inputSchema :=
       object [("type", JStr "object");
               ("properties",
                object [("requestBody",
                         object [("type", JStr "object");
                                 ("required", JArr [JStr "filter"]);
                                 ("properties",
                                  object [("filter", filter_schema);
                                          ("contentSelector", contentSelector_schema);
                                          ("cursor", str_schema)]);
                                 ("description", JStr "The JSON request body.")]);
                        ("paginate", paginate_schema)]);
               ("required", JArr [JStr "requestBody"])];
     method := "post";
     pathTemplate := "/v2/calls/extensive";
     executionParameters := [];
     requestBodyContentType := Some "application/json";
     securityRequirements := [basicAuthRequirement] |}.

Definition getv2users : McpToolDefinition :=
  {| name := "getv2users";
     description := "List Gong users (100-row pages)";
     inputSchema :=
       object [("type", JStr "object");
               ("properties",
                object [("cursor", str_schema); ("paginate", paginate_schema)])];
     method := "get";
     pathTemplate := "/v2/users";
     executionParameters := [{| p_name := "cursor"; p_in := "query" |}];
     requestBodyContentType := None;
     securityRequirements := [basicAuthRequirement] |}.

(** A runtime for running the engine on the examples below.  Its string
    functions are stand-ins (the examples do not look at URLs or texts).
    Schemas compile to the validator of the section above; the formats
    of strings are not checked and the text of a validation error is a
    fixed one. *)
Definition exampleRuntime : Runtime :=
  {| encodeURIComponent := fun value => match value with JStr s => s | _ => "" end;
     String_replace := fun s _ _ => s;
     URLSearchParams_toString := fun _ => "";
     Buffer_base64 := fun s => s;
     JSON_stringify := fun _ => Some "";
     JSON_stringify_indented := fun _ => "";
     jsonSchemaToZod :=
       fun jsonSchema =>
         Some (zodSchemaOf (fun _ _ => true) (fun _ _ => "Invalid arguments") jsonSchema) |}.

Definition exampleEnv : gmap string string :=
  <["GONG_ACCESS_KEY" := "key"]> (<["GONG_SECRET" := "secret"]> ∅).

(** The cursor probe as the specification words it: the first of the
    three fields that is present, whatever its value. *)
Definition nextCursor_by_presence (data : json) : json :=
  match get_opt (get_opt (Some data) "records") "nextPageCursor" with
  | Some v => v
  | None =>
      match get_opt (Some data) "nextPageCursor" with
      | Some v => v
      | None => from_option id JNull (get_opt (Some data) "cursor")
      end
  end.

(** A page whose nested cursor field is present and empty, beside a
    top-level cursor. *)
Definition emptyNestedCursorPage : json :=
  object [("records", object [("nextPageCursor", JStr "")]);
          ("cursor", JStr "abc")].

(** The arguments of the examples: a filter, with and without
    auto-pagination. *)
Definition aprilFilter : json :=
  object [("fromDateTime", JStr "2025-04-01T00:00:00Z");
          ("toDateTime", JStr "2025-04-30T23:59:59Z")].

Definition aprilCalls (paginate : json) : obj :=
  <["paginate" := paginate]>
    (<["requestBody" := object [("filter", aprilFilter)]]> ∅).

(** The first request of a call: built from the parsed arguments without
    [paginate] and the cursor the caller gave, if any. *)
Definition firstConfig (rt : Runtime) (definition : McpToolDefinition)
    (toolArgs parsed : obj) (authHeader : string) : AxiosRequestConfig :=
  buildConfig rt definition (delete "paginate" parsed)
              (is_true_flag (toolArgs !! "paginate"))
              (initialCursor definition (delete "paginate" parsed)) authHeader.

(** The field a later page is merged under: the first of the four names
    that holds an array in that page, with its items. *)
Definition firstArrayField (data : json) : option (string * list json) :=
  match arrayField data "records" with
  | Some items => Some ("records", items)
  | None =>
  match arrayField data "calls" with
  | Some items => Some ("calls", items)
  | None =>
  match arrayField data "users" with
  | Some items => Some ("users", items)
  | None =>
  match arrayField data "results" with
  | Some items => Some ("results", items)
  | None => None
  end end end end.

(** A tool definition without the execution parameters of a given name. *)
Definition dropParameter (n : string) (definition : McpToolDefinition)
    : McpToolDefinition :=
  {| name := name definition;
     description := description definition;
     inputSchema := inputSchema definition;
     method := method definition;
     pathTemplate := pathTemplate definition;
     executionParameters :=
       filter (fun p => p_name p <> n) (executionParameters definition);
     requestBodyContentType := requestBodyContentType definition;
     securityRequirements := securityRequirements definition |}.

Definition callsPage : json :=
  object [("calls", JArr [JNum 2]); ("nextPageCursor", JStr "c2")].
Definition usersPage : json :=
  object [("users", JArr [JNum 11])].

(** An environment with the OAuth2 values of a scheme named [billing]
    and the values under the fixed names. *)
Definition oauthEnv : gmap string string :=
  <["OAUTH_CLIENT_ID_BILLING" := "billing-id"]>
    (<["OAUTH_CLIENT_SECRET_BILLING" := "billing-secret"]>
       (<["OAUTH_CLIENT_ID_SCHEMENAME" := "shared-id"]>
          (<["OAUTH_CLIENT_SECRET_SCHEMENAME" := "shared-secret"]> ∅))).

Definition clientCredentialsScheme : json :=
  object [("type", JStr "oauth2");
          ("flows",
           object [("clientCredentials",
                    object [("tokenUrl", JStr "https://auth.example/token")])])].

(** Three pages of a calls-shaped operation, with 2, 2 and 1 items. *)
Definition firstCalls : obj :=
  list_to_map [("calls", JArr [JStr "call-1"; JStr "call-2"]);
               ("nextPageCursor", JStr "c1")].
Definition secondCalls : obj :=
  list_to_map [("calls", JArr [JStr "call-3"; JStr "call-4"]);
               ("nextPageCursor", JStr "c2")].
Definition lastCalls : obj :=
  list_to_map [("calls", JArr [JStr "call-5"])].

(** A rejection with a response: HTTP 500. *)
Definition serverError : AxiosError :=
  {| response :=
       Some {| status := 500; statusText := "Internal Server Error";
               rdata := Some (object [("message", JStr "boom")]) |};
     request := true;
     code := Some "ERR_BAD_RESPONSE";
     message := "Request failed with status code 500" |}.

(** The text [{"message":"not found"}], each double quote written as the
    character of code 34. *)
Definition quoted (s : string) : string :=
  String (Ascii.ascii_of_nat 34) s +:+ String (Ascii.ascii_of_nat 34) EmptyString.
Definition notFoundText : string :=
  "{" +:+ quoted "message" +:+ ":" +:+ quoted "not found" +:+ "}".

(** The items of a page of a calls-shaped operation: an object with an
    array under [calls] and none under [records]. *)
Definition callsOf (p : obj) : option (list json) :=
  match arrayField (JObj p) "records" with
  | Some _ => None
  | None => arrayField (JObj p) "calls"
  end.

(** A trail of calls-shaped pages with all their items in page order:
    every page but the last carries a non-empty string cursor, the last
    carries none. *)
Inductive callsTrail : list obj -> list json -> Prop :=
| trail_last (p : obj) (c : list json) :
    callsOf p = Some c ->
    truthy (extractNextCursor (JObj p)) = false ->
    callsTrail [p] c
| trail_more (p : obj) (c : list json) (k : string) (ps : list obj) (cs : list json) :
    callsOf p = Some c ->
    extractNextCursor (JObj p) = JStr k -> k <> "" ->
    callsTrail ps cs ->
    callsTrail (p :: ps) (c ++ cs).

(** Arguments for [getv2callsbyid] with a property its schema does not
    declare: [paginate], or a note. *)
Definition callById (k : string) (v : json) : obj :=
  <[k := v]> (<["id" := JStr "42"]> ∅).

(** The properties of the accumulated result that merging can write. *)
Definition mergeKeys : list string :=
  ["records"; "calls"; "users"; "results"; "nextPageCursor"; "additionalPages"].

(** The opening of the text of a rejection that has a response. *)
Definition apiErrorHeader (resp : AxiosResponse) : string :=
  "API Error: Status " +:+ pretty (status resp) +:+ " (" +:+
  (if String.eqb (statusText resp) "" then "Status text not available"
   else statusText resp) +:+ "). ".

(** ** The rest of the tool table and the request handlers *)

Definition postv2callstranscript : McpToolDefinition :=
  {| name := "postv2callstranscript";
     description := "Download transcripts";
     inputSchema :=
       object [("type", JStr "object");
               ("properties",
                object [("requestBody",
                         object [("type", JStr "object");
                                 ("required", JArr [JStr "filter"]);
                                 ("properties",
                                  object [("filter", filter_schema);
                                          ("cursor", str_schema)]);
                                 ("description", JStr "The JSON request body.")]);
                        ("paginate", paginate_schema)]);
               ("required", JArr [JStr "requestBody"])];
     method := "post";
     pathTemplate := "/v2/calls/transcript";
     executionParameters := [];
     requestBodyContentType := Some "application/json";
     securityRequirements := [basicAuthRequirement] |}.

Definition getv2dataprivacydataforemailaddress : McpToolDefinition :=
  {| name := "getv2dataprivacydataforemailaddress";
     description := "Activities for an email address (GDPR helper)";
     inputSchema :=
       object [("type", JStr "object");
               ("properties",
                object [("emailAddress", fmt_schema "email");
                        ("cursor", str_schema);
                        ("paginate", paginate_schema)]);
               ("required", JArr [JStr "emailAddress"])];
     method := "get";
     pathTemplate := "/v2/data-privacy/data-for-email-address";
     executionParameters :=
       [{| p_name := "emailAddress"; p_in := "query" |};
        {| p_name := "cursor"; p_in := "query" |}];
     requestBodyContentType := None;
     securityRequirements := [basicAuthRequirement] |}.

Definition getv2askanythinggeneratebrief : McpToolDefinition :=
  {| name := "getv2askanythinggeneratebrief";
     description := "Generate account/deal brief";
     inputSchema :=
       object [("type", JStr "object");
               ("properties",
                object [("workspace-id", str_schema);
                        ("brief-name", str_schema);
                        ("entity-type",
                         object [("type", JStr "string");
                                 ("enum", JArr [JStr "Deal"; JStr "Account"])]);
                        ("crm-entity-id", str_schema);
                        ("period-type", str_schema);
                        ("from-date-time", fmt_schema "date-time");
                        ("to-date-time", fmt_schema "date-time")]);
               ("required",
                JArr [JStr "workspace-id"; JStr "brief-name"; JStr "entity-type";
                      JStr "crm-entity-id"; JStr "period-type"])];
     method := "get";
     pathTemplate := "/v2/askanything/generate-brief";
     executionParameters :=
       [{| p_name := "workspace-id"; p_in := "query" |};
        {| p_name := "brief-name"; p_in := "query" |};
        {| p_name := "entity-type"; p_in := "query" |};
        {| p_name := "crm-entity-id"; p_in := "query" |};
        {| p_name := "period-type"; p_in := "query" |};
        {| p_name := "from-date-time"; p_in := "query" |};
        {| p_name := "to-date-time"; p_in := "query" |}];
     requestBodyContentType := None;
     securityRequirements := [basicAuthRequirement] |}.

(** The array given to [new Map(...)]. *)
Definition toolDefinitionEntries : list (string * McpToolDefinition) :=
  [("getv2callsbyid", getv2callsbyid);
   ("postv2callsextensive", postv2callsextensive);
   ("postv2callstranscript", postv2callstranscript);
   ("getv2users", getv2users);
   ("getv2dataprivacydataforemailaddress", getv2dataprivacydataforemailaddress);
   ("getv2askanythinggeneratebrief", getv2askanythinggeneratebrief)].

(** A JavaScript [Map] with string keys: the entries in the order their
    keys were first set. *)
Fixpoint Map_set {V} (m : list (string * V)) (k : string) (v : V) : list (string * V) :=
  match m with
  | [] => [(k, v)]
  | (k', v') :: m' =>
      if String.eqb k' k then (k', v) :: m' else (k', v') :: Map_set m' k v
  end.

(** [new Map(entries)] *)
Definition Map_new {V} (entries : list (string * V)) : list (string * V) :=
  foldl (fun m entry => Map_set m entry.1 entry.2) [] entries.

(** [m.get(k)] *)
Fixpoint Map_get {V} (m : list (string * V)) (k : string) : option V :=
  match m with
  | [] => None
  | (k', v) :: m' => if String.eqb k' k then Some v else Map_get m' k
  end.

(** [Array.from(m.values())] *)
Definition Map_values {V} (m : list (string * V)) : list V := map snd m.

Definition toolDefinitionMap : list (string * McpToolDefinition) :=
  Map_new toolDefinitionEntries.

Record Tool := {
  tool_name : string;
  tool_description : string;
  tool_inputSchema : json
}.

(** The handler of [ListToolsRequestSchema], for a given table. *)
Definition listTools (table : list (string * McpToolDefinition)) : list Tool :=
  map (fun def => {| tool_name := name def;
                     tool_description := description def;
                     tool_inputSchema := inputSchema def |})
      (Map_values table).

(** The handler of [CallToolRequestSchema], for a given table:
    [request.params.arguments] may be absent. *)
Definition callTool (rt : Runtime) (table : list (string * McpToolDefinition))
    (toolName : string) (toolArgs : option obj)
    (env : gmap string string) (upstream : Upstream)
    : list AxiosRequestConfig * CallToolResult :=
  match Map_get table toolName with
  | None => ([], textResult ("Error: Unknown tool requested: " +:+ toolName))
  | Some toolDefinition =>
      executeApiTool rt toolDefinition (default ∅ toolArgs) env upstream
  end.

(** ** OAuth2 client credentials: the token request and the cache *)

(** The arithmetic of the source is that of IEEE 754 doubles.  For an
    exact integer result [z], the number an operation gives is the double
    nearest to it, ties to the even mantissa: [z] itself when its
    magnitude is below 2^53, else [z] rounded to 53 significant bits.
    (Results beyond the largest finite double are not modelled.) *)
Definition roundToDouble (z : Z) : Z :=
  let m := Z.abs z in
  if m <? 2 ^ 53 then z
  else
    let ulp := 2 ^ (Z.log2 m - 52) in
    let q := m / ulp in
    let r := m mod ulp in
    let q' := if (ulp <? 2 * r) || ((2 * r =? ulp) && Z.odd q) then q + 1 else q in
    Z.sgn z * (q' * ulp).

(** The request [acquireOAuth2Token] sends to the token endpoint. *)
Record TokenRequest := {
  tok_method : string;
  tok_url : json;
  tok_headers : gmap string string;
  tok_data : string
}.

(** What a call of [acquireOAuth2Token] leaves behind: the token cache,
    the requests sent to the token endpoint, and the value returned
    ([JNull] for [null]). *)
Record TokenOutcome := {
  cacheAfter : gmap string TokenCacheEntry;
  tokenRequests : list TokenRequest;
  returned : json
}.

Section TokenExchange.

Context (rt : Runtime).
(** [formData.toString()], from the pairs appended to [formData] *)
Context (formData_toString : list (string * string) -> string).
(** The number that a value other than a number is converted to by
    [expiresIn * 1000]; [None] when it is [NaN] *)
Context (ToNumber : json -> option Z).

Definition tokenRequest (tokenUrl : json) (clientId clientSecret : string)
    (scopes : option string) : TokenRequest :=
  let formData :=
    [("grant_type", "client_credentials")]
    ++ match scopes with
       | Some s => [("scope", s)]
       | None => []
       end in
  {| tok_method := "POST";
     tok_url := tokenUrl;
     tok_headers :=
       <["Authorization" :=
           "Basic " +:+ Buffer_base64 rt (clientId +:+ ":" +:+ clientSecret)]>
         (<["Content-Type" := "application/x-www-form-urlencoded"]> ∅);
     tok_data := formData_toString formData |}.

(** [now + (expiresIn * 1000) - 60000] on integers, each operation
    rounded to a double; [None] when it is [NaN]. *)
Definition tokenExpiresAt (now : Z) (expiresIn : json) : option Z :=
  let expiresAt (n : Z) :=
    roundToDouble (roundToDouble (now + roundToDouble (n * 1000)) - 60000) in
  match expiresIn with
  | JNum n => Some (expiresAt n)
  | v => expiresAt <$> ToNumber v
  end.

(** [global.__oauthTokenCache[cacheKey] = { token, expiresAt }].  An entry
    whose [expiresAt] is [NaN] is never served ([NaN > now] is false) and
    nothing else reads the cache, so storing it is the removal of the
    key. *)
Definition cacheToken (cache : gmap string TokenCacheEntry) (cacheKey : string)
    (tokenValue : json) (expiry : option Z) : gmap string TokenCacheEntry :=
  match expiry with
  | Some at_ => <[cacheKey := {| token := tokenValue; expiresAt := at_ |}]> cache
  | None => delete cacheKey cache
  end.

(** [acquireOAuth2Token] from the token request on; a rejected request is
    caught and gives [null]. *)
Definition requestOAuth2Token (step : OAuth2Step)
    (respond : TokenRequest -> AxiosResult)
    (cache : gmap string TokenCacheEntry) (now : Z) : TokenOutcome :=
  match step with
  | ReturnNull =>
      {| cacheAfter := cache; tokenRequests := []; returned := JNull |}
  | ReturnCached cached =>
      {| cacheAfter := cache; tokenRequests := []; returned := cached |}
  | RequestToken tokenUrl clientId clientSecret scopes cacheKey =>
      let config := tokenRequest tokenUrl clientId clientSecret scopes in
      match respond config with
      | Rejected _ =>
          {| cacheAfter := cache; tokenRequests := [config]; returned := JNull |}
      | Resolved data =>
          let access_token := get_opt (Some data) "access_token" in
          if truthy_opt access_token then
            let tokenValue := from_option id JNull access_token in
            let expiresIn :=
              from_option id JNull (js_or (get data "expires_in") (Some (JNum 3600))) in
            {| cacheAfter :=
                 cacheToken cache cacheKey tokenValue (tokenExpiresAt now expiresIn);
               tokenRequests := [config];
               returned := tokenValue |}
          else
            {| cacheAfter := cache; tokenRequests := [config]; returned := JNull |}
      end
  end.

(** One call of [acquireOAuth2Token(schemeName, scheme)] at time [now]. *)
Definition acquireOAuth2Token_call (schemeName : string) (scheme : json)
    (env : gmap string string) (respond : TokenRequest -> AxiosResult)
    (cache : gmap string TokenCacheEntry) (now : Z) : TokenOutcome :=
  requestOAuth2Token (acquireOAuth2Token schemeName scheme env cache now)
                     respond cache now.

End TokenExchange.

(** [cacheKey], the key of a scheme in the token cache:
    [`${schemeName}_${clientId}`]. *)
Definition oauthCacheKey (schemeName : string) (env : gmap string string) : string :=
  schemeName +:+ "_" +:+ default "" (env !! oauthClientIdVariable schemeName).


(** Further example inputs: a page whose cursor is a number, a first page
    with a property of its own, and a token endpoint that grants a token
    for two minutes. *)
Definition numericCursorPage : json :=
  object [("users", JArr [JNum 10]); ("cursor", JNum 7)].

Definition firstCallsWithRequestId : obj :=
  <["requestId" := JStr "r-1"]> firstCalls.

Definition exampleFormData (pairs : list (string * string)) : string :=
  String.concat "&" (map (fun pair => pair.1 +:+ "=" +:+ pair.2) pairs).

Definition tokenAnswer : json :=
  object [("access_token", JStr "tok-1"); ("expires_in", JNum 120)].

Definition tokenEndpoint : TokenRequest -> AxiosResult :=
  fun _ => Resolved tokenAnswer.





(** A page that holds no array under any of the four names, and a first
    page whose [additionalPages] is a string. *)
Definition summaryPage : json :=
  object [("summary", JStr "partial"); ("nextPageCursor", JStr "c3")].
Definition taggedFirstPage : json :=
  object [("calls", JArr [JNum 1]); ("additionalPages", JStr "none");
          ("nextPageCursor", JStr "c1")].


(** A first page of users that carries a cursor. *)
Definition usersFirstPage : json :=
  object [("users", JArr [JNum 10]); ("nextPageCursor", JStr "u1")].


(** The answers that the requests of a run received from the server. *)
Definition answers (upstream : Upstream) (requests : list AxiosRequestConfig)
    : list AxiosResult :=
  zip_with (fun respond config => respond config) upstream requests.

(** [!!nextCursor && shouldPaginate] for an answer: whether the loop
    counts another page after it. *)
Definition anotherPage (shouldPaginate : bool) (answer : AxiosResult) : bool :=
  match answer with
  | Resolved data => truthy (extractNextCursor data) && shouldPaginate
  | Rejected _ => false
  end.


(** The merged result of the three pages of calls. *)
Definition threeCallsResult : json :=
  JObj (<["_paginationInfo" :=
            paginationInfo_json
              {| hasMorePages := false; totalPages := 3; currentPage := 3 |}]>
          (<["nextPageCursor" := JNull]>
             (<["calls" := JArr [JStr "call-1"; JStr "call-2"; JStr "call-3";
                                 JStr "call-4"; JStr "call-5"]]> firstCalls))).


(** Whether a text is made of ASCII characters only.  For such a text
    the characters of the model are the UTF-16 code units that [length]
    and [substring] count in the source. *)
Definition asciiOnly (s : string) : bool :=
  forallb (fun c => (Ascii.nat_of_ascii c <? 128)%nat) (String.list_ascii_of_string s).

(** A rejection whose response body is a string of 250 characters. *)
Definition longBody : string := String.concat "" (List.repeat "0123456789" 25).

Definition badGateway : AxiosError :=
  {| response :=
       Some {| status := 502; statusText := "Bad Gateway";
               rdata := Some (JStr longBody) |};
     request := true;
     code := Some "ERR_BAD_RESPONSE";
     message := "Request failed with status code 502" |}.


(** ** Properties *)

Section EngineProperties.

Context (rt : Runtime).

Lemma paginate_step definition env validatedArgs shouldPaginate
    respond upstream allData currentCursor info issued authHeader data :
  authorizationHeader rt env = Normal authHeader ->
  respond (buildConfig rt definition validatedArgs shouldPaginate currentCursor authHeader)
    = Resolved data ->
  paginate rt definition env validatedArgs shouldPaginate (respond :: upstream)
           allData currentCursor info issued =
  let config := buildConfig rt definition validatedArgs shouldPaginate currentCursor authHeader in
  let nextCursor := extractNextCursor data in
  let info' := updatePaginationInfo info (truthy nextCursor && shouldPaginate) in
  match accumulate allData data nextCursor with
  | Throw e => (issued ++ [config], Throw e)
  | Normal allData' =>
      match logNextCursor shouldPaginate nextCursor with
      | Throw e => (issued ++ [config], Throw e)
      | Normal _ =>
          if truthy nextCursor && shouldPaginate
          then paginate rt definition env validatedArgs shouldPaginate upstream
                        allData' nextCursor info' (issued ++ [config])
          else (issued ++ [config], Normal (allData', info'))
      end
  end.
Proof.
  intros Hauth Hresp. cbn [paginate]. rewrite Hauth, Hresp. reflexivity.
Qed.

(** Runs one iteration of the loop on an answer given by [page]. *)
Ltac run_page Hauth :=
  rewrite (paginate_step _ _ _ _ _ _ _ _ _ _ _ _ Hauth eq_refl); cbv zeta.

Lemma paginate_rejected definition env validatedArgs shouldPaginate
    respond upstream allData currentCursor info issued authHeader e :
  authorizationHeader rt env = Normal authHeader ->
  respond (buildConfig rt definition validatedArgs shouldPaginate currentCursor authHeader)
    = Rejected e ->
  paginate rt definition env validatedArgs shouldPaginate (respond :: upstream)
           allData currentCursor info issued =
  (issued ++ [buildConfig rt definition validatedArgs shouldPaginate currentCursor authHeader],
   Throw (AxiosErr e)).
Proof.
  intros Hauth Hresp. cbn [paginate]. rewrite Hauth, Hresp. reflexivity.
Qed.

(** The requests issued by one call of the loop extend those issued
    before by at least one, unless a credential is missing. *)
Lemma paginate_issues_first definition env validatedArgs shouldPaginate
    upstream allData currentCursor info issued authHeader :
  authorizationHeader rt env = Normal authHeader ->
  exists more,
    fst (paginate rt definition env validatedArgs shouldPaginate upstream
                  allData currentCursor info issued)
    = issued ++ buildConfig rt definition validatedArgs shouldPaginate currentCursor authHeader
             :: more.
Proof.
  intros Hauth. revert allData currentCursor info issued.
  induction upstream as [|respond upstream IH]; intros allData currentCursor info issued.
  - cbn [paginate]. rewrite Hauth. exists []. reflexivity.
  - cbn [paginate]. rewrite Hauth.
    destruct (respond _) as [data|e]; [|exists []; reflexivity].
    destruct (accumulate _ _ _) as [allData'|e]; [|exists []; reflexivity].
    destruct (logNextCursor _ _) as [u|e]; [|exists []; reflexivity].
    destruct (truthy _ && _); [|exists []; reflexivity].
    destruct (IH allData' (extractNextCursor data)
                 (updatePaginationInfo info true) (issued ++ [buildConfig rt definition validatedArgs shouldPaginate currentCursor authHeader]))
      as [more Hmore].
    eexists. rewrite Hmore, <- app_assoc. reflexivity.
Qed.

(** Without auto-pagination the loop body runs once. *)
Lemma paginate_once definition env validatedArgs upstream allData currentCursor
    info issued authHeader :
  authorizationHeader rt env = Normal authHeader ->
  fst (paginate rt definition env validatedArgs false upstream
                allData currentCursor info issued)
  = issued ++ [buildConfig rt definition validatedArgs false currentCursor authHeader].
Proof.
  intros Hauth. destruct upstream as [|respond upstream]; cbn [paginate]; rewrite Hauth.
  - reflexivity.
  - destruct (respond _) as [data|e]; [|reflexivity].
    destruct (accumulate _ _ _) as [allData'|e]; [|reflexivity].
    destruct (logNextCursor _ _) as [u|e]; [|reflexivity].
    rewrite andb_false_r. reflexivity.
Qed.

(** A body that is neither an object nor an array carries no cursor. *)
Lemma extractNextCursor_primitive (data : json) :
  (forall o, data <> JObj o) -> extractNextCursor data = JNull.
Proof.
  intros Hobj. destruct data; try reflexivity. destruct (Hobj kvs). reflexivity.
Qed.

Lemma attach_primitive (data : json) (info : PaginationInfo) :
  (forall o, data <> JObj o) -> (forall xs, data <> JArr xs) ->
  exists msg, attachPaginationInfo data info = Throw (TypeError msg).
Proof.
  intros Hobj Harr. destruct data; try (eexists; reflexivity).
  - destruct (Harr xs). reflexivity.
  - destruct (Hobj kvs). reflexivity.
Qed.

(** C2, as amended: the cursor is the first of
    [response.records.nextPageCursor], [response.nextPageCursor] and
    [response.cursor] whose value is truthy (not [null], [false], [0] or
    the empty string), and [null] when none is; in particular a truthy
    [records.nextPageCursor] is selected whatever the top-level fields
    hold. *)
Theorem extractNextCursor_first_truthy (data : json) :
  let nested := get_opt (get_opt (Some data) "records") "nextPageCursor" in
  let top := get_opt (Some data) "nextPageCursor" in
  let cur := get_opt (Some data) "cursor" in
  extractNextCursor data =
    (if truthy_opt nested then from_option id JNull nested
     else if truthy_opt top then from_option id JNull top
     else if truthy_opt cur then from_option id JNull cur
     else JNull)
  /\ (forall v, nested = Some v -> truthy v = true -> extractNextCursor data = v).
Proof.
  intros nested top cur. unfold extractNextCursor. fold nested top cur. split.
  - unfold or_null, js_or.
    destruct nested as [n|] eqn:Hn; simpl.
    + destruct (truthy n) eqn:Tn; simpl; [rewrite Tn; reflexivity|].
      destruct top as [t|]; simpl.
      * destruct (truthy t) eqn:Tt; simpl; [rewrite Tt; reflexivity|].
        destruct cur as [c|]; simpl; [|reflexivity].
        destruct (truthy c) eqn:Tc; simpl; rewrite ?Tc; reflexivity.
      * destruct cur as [c|]; simpl; [|reflexivity].
        destruct (truthy c) eqn:Tc; simpl; rewrite ?Tc; reflexivity.
    + destruct top as [t|]; simpl.
      * destruct (truthy t) eqn:Tt; simpl; [rewrite Tt; reflexivity|].
        destruct cur as [c|]; simpl; [|reflexivity].
        destruct (truthy c) eqn:Tc; simpl; rewrite ?Tc; reflexivity.
      * destruct cur as [c|]; simpl; [|reflexivity].
        destruct (truthy c) eqn:Tc; simpl; rewrite ?Tc; reflexivity.
  - intros v Hv Tv. rewrite Hv. unfold or_null, js_or. simpl. rewrite Tv. simpl.
    rewrite Tv. reflexivity.
Qed.

Lemma executeApiTool_unfold definition toolArgs env upstream :
  executeApiTool rt definition toolArgs env upstream =
  (fst (executeApiTool_try rt definition toolArgs env upstream),
   toCallToolResult rt (snd (executeApiTool_try rt definition toolArgs env upstream))).
Proof.
  unfold executeApiTool. destruct (executeApiTool_try _ _ _ _ _). reflexivity.
Qed.

Lemma executeApiTool_try_parsed definition toolArgs env upstream parsed :
  getZodSchemaFromJsonSchema rt (inputSchema definition) toolArgs = Parsed parsed ->
  executeApiTool_try rt definition toolArgs env upstream =
  let run :=
    paginate rt definition env (delete "paginate" parsed)
             (is_true_flag (toolArgs !! "paginate")) upstream JNull
             (initialCursor definition (delete "paginate" parsed))
             initialPaginationInfo [] in
  (fst run, '(allData, info) ← snd run; attachPaginationInfo allData info).
Proof.
  intros Hparse. unfold executeApiTool_try. rewrite Hparse.
  cbv zeta. destruct (paginate _ _ _ _ _ _ _ _ _ _). reflexivity.
Qed.

(** The last iteration of a run whose accumulator is still empty: the
    page becomes the result. *)
Lemma paginate_only_page definition env validatedArgs shouldPaginate
    respond upstream currentCursor info issued authHeader data :
  authorizationHeader rt env = Normal authHeader ->
  respond (buildConfig rt definition validatedArgs shouldPaginate currentCursor authHeader)
    = Resolved data ->
  truthy (extractNextCursor data) && shouldPaginate = false ->
  paginate rt definition env validatedArgs shouldPaginate (respond :: upstream)
           JNull currentCursor info issued =
  (issued ++ [buildConfig rt definition validatedArgs shouldPaginate currentCursor authHeader],
   Normal (data, updatePaginationInfo info false)).
Proof.
  intros Hauth Hresp Hlast.
  rewrite (paginate_step _ _ _ _ _ _ _ _ _ _ _ _ Hauth Hresp). cbv zeta.
  unfold accumulate, logNextCursor. cbn [truthy].
  rewrite (andb_comm shouldPaginate), Hlast. reflexivity.
Qed.

(** C10: when the loop ends with an accumulated body that is neither
    an object nor an array (null, a string, a number, a boolean),
    attaching [_paginationInfo] throws and the caller receives the text
    [Unexpected error: ...] in place of the body; this is what happens,
    after one request, whenever the first answer of the server is such a
    body. *)
Theorem primitive_body_is_unexpected_error definition toolArgs parsed env upstream :
  getZodSchemaFromJsonSchema rt (inputSchema definition) toolArgs = Parsed parsed ->
  (forall allData info,
     snd (paginate rt definition env (delete "paginate" parsed)
                   (is_true_flag (toolArgs !! "paginate")) upstream JNull
                   (initialCursor definition (delete "paginate" parsed))
                   initialPaginationInfo []) = Normal (allData, info) ->
     (forall o, allData <> JObj o) -> (forall xs, allData <> JArr xs) ->
     exists msg,
       snd (executeApiTool_try rt definition toolArgs env upstream)
         = Throw (TypeError msg)
       /\ snd (executeApiTool rt definition toolArgs env upstream)
          = textResult ("Unexpected error: " +:+ msg))
  /\ (forall authHeader respond rest body,
        authorizationHeader rt env = Normal authHeader ->
        upstream = respond :: rest ->
        respond (firstConfig rt definition toolArgs parsed authHeader) = Resolved body ->
        (forall o, body <> JObj o) -> (forall xs, body <> JArr xs) ->
        exists msg,
          executeApiTool rt definition toolArgs env upstream =
          ([firstConfig rt definition toolArgs parsed authHeader],
           textResult ("Unexpected error: " +:+ msg))).
Proof.
  intros Hparse.
  rewrite executeApiTool_unfold, (executeApiTool_try_parsed _ _ _ _ _ Hparse). cbv zeta.
  cbn [fst snd]. split.
  - intros allData info Hrun Hobj Harr. rewrite Hrun. cbn [mbind completion_bind].
    destruct (attach_primitive allData info Hobj Harr) as [msg Hmsg].
    exists msg. rewrite Hmsg. split; reflexivity.
  - intros authHeader respond rest body Hauth -> Hresp Hobj Harr.
    unfold firstConfig in Hresp.
    rewrite (paginate_only_page _ _ _ _ _ _ _ _ _ _ _ Hauth Hresp).
    2:{ rewrite (extractNextCursor_primitive _ Hobj). reflexivity. }
    cbn [fst snd app]. cbn [mbind completion_bind].
    destruct (attach_primitive body (updatePaginationInfo initialPaginationInfo false)
                               Hobj Harr) as [msg Hmsg].
    exists msg. rewrite Hmsg. reflexivity.
Qed.

(** C3: without auto-pagination ([paginate] absent, [false], or anything
    but [true] and ["true"]) exactly one request is issued, whatever the
    server answers and whether or not the answer holds a cursor; and when
    the answer is a JSON object, the result is that object with
    [_paginationInfo] set, every other property unchanged, and
    [_paginationInfo.currentPage = 1].  (When the answer is an array, the
    text is that of the array: the property set on it is not one of its
    elements.) *)
Theorem one_request_without_paginate definition toolArgs parsed env authHeader upstream :
  getZodSchemaFromJsonSchema rt (inputSchema definition) toolArgs = Parsed parsed ->
  authorizationHeader rt env = Normal authHeader ->
  is_true_flag (toolArgs !! "paginate") = false ->
  let config := firstConfig rt definition toolArgs parsed authHeader in
  fst (executeApiTool rt definition toolArgs env upstream) = [config]
  /\ (forall respond rest body,
        upstream = respond :: rest ->
        respond config = Resolved (JObj body) ->
        let result := <["_paginationInfo" := paginationInfo_json initialPaginationInfo]> body in
        snd (executeApiTool_try rt definition toolArgs env upstream) = Normal (JObj result)
        /\ snd (executeApiTool rt definition toolArgs env upstream)
           = textResult (JSON_stringify_indented rt (JObj result))
        /\ (forall k, k <> "_paginationInfo" -> result !! k = body !! k)
        /\ get_opt (result !! "_paginationInfo") "currentPage" = Some (JNum 1)
        /\ get_opt (result !! "_paginationInfo") "totalPages" = Some (JNum 1)
        /\ get_opt (result !! "_paginationInfo") "hasMorePages" = Some (JBool false))
  /\ (forall respond rest items,
        upstream = respond :: rest ->
        respond config = Resolved (JArr items) ->
        snd (executeApiTool rt definition toolArgs env upstream)
        = textResult (JSON_stringify_indented rt (JArr items))).
Proof.
  intros Hparse Hauth Hflag config.
  rewrite executeApiTool_unfold, (executeApiTool_try_parsed _ _ _ _ _ Hparse).
  cbv zeta. cbn [fst snd]. split; [|split].
  - subst config. unfold firstConfig. rewrite Hflag.
    rewrite (paginate_once _ _ _ _ _ _ _ _ _ Hauth). reflexivity.
  - intros respond rest body -> Hresp.
    subst config. unfold firstConfig in Hresp.
    rewrite (paginate_only_page _ _ _ _ _ _ _ _ _ _ _ Hauth Hresp).
    2:{ rewrite Hflag. apply andb_false_r. }
    cbn [fst snd]. cbn [mbind completion_bind].
    unfold attachPaginationInfo, setProp. cbn [updatePaginationInfo].
    fold initialPaginationInfo.
    repeat split.
    + intros k Hk. rewrite lookup_insert_ne; [reflexivity|congruence].
    + rewrite lookup_insert_eq. reflexivity.
    + rewrite lookup_insert_eq. reflexivity.
    + rewrite lookup_insert_eq. reflexivity.
  - intros respond rest items -> Hresp.
    subst config. unfold firstConfig in Hresp.
    rewrite (paginate_only_page _ _ _ _ _ _ _ _ _ _ _ Hauth Hresp).
    2:{ rewrite Hflag. apply andb_false_r. }
    reflexivity.
Qed.

Lemma truthy_nonempty_string (k : string) : k <> "" -> truthy (JStr k) = true.
Proof.
  intros Hk. cbn [truthy]. apply negb_true_iff, String.eqb_neq, Hk.
Qed.

Lemma logNextCursor_string shouldPaginate (k : string) :
  logNextCursor shouldPaginate (JStr k) = Normal tt.
Proof. unfold logNextCursor. destruct (_ && _); reflexivity. Qed.

Lemma logNextCursor_falsy shouldPaginate (nextCursor : json) :
  truthy nextCursor = false -> logNextCursor shouldPaginate nextCursor = Normal tt.
Proof.
  intros Hf. unfold logNextCursor. rewrite Hf, andb_false_r. reflexivity.
Qed.

(** Merging a page under the first of its array fields, when the
    accumulator is an object that holds an array under the same name. *)
Lemma mergePage_first_array_field (acc : obj) (data nextCursor : json)
    (k : string) (items olds : list json) :
  data <> JNull ->
  firstArrayField data = Some (k, items) ->
  acc !! k = Some (JArr olds) ->
  mergePage (JObj acc) data nextCursor =
  Normal (JObj (<["nextPageCursor" := nextCursor]> (<[k := JArr (olds ++ items)]> acc))).
Proof.
  intros Hnull Hfirst Hacc.
  assert (Happend : appendUnder k (JObj acc) items nextCursor =
    Normal (JObj (<["nextPageCursor" := nextCursor]> (<[k := JArr (olds ++ items)]> acc)))).
  { unfold appendUnder. cbn [getProp get mbind completion_bind]. rewrite Hacc.
    reflexivity. }
  unfold firstArrayField in Hfirst. unfold mergePage.
  destruct data; try congruence;
    repeat match type of Hfirst with
      | context [match ?c with _ => _ end] => destruct c eqn:?
      end; try discriminate; injection Hfirst as <- <-; exact Happend.
Qed.

(** C1: with [paginate = true] and three pages of a calls-shaped
    operation holding 2, 2 and 1 items, the first two with a next cursor
    and the third without, three requests are issued and the result is
    the first page with [calls] replaced by the five items in page order,
    [nextPageCursor] set to [null], and [_paginationInfo] with
    [totalPages = 3] and [hasMorePages = false]. *)
Theorem three_calls_pages_merged definition toolArgs parsed env authHeader
    (p1 p2 p3 : obj) (c1 c2 c3 : list json) (k1 k2 : string) (rest : Upstream) :
  getZodSchemaFromJsonSchema rt (inputSchema definition) toolArgs = Parsed parsed ->
  authorizationHeader rt env = Normal authHeader ->
  is_true_flag (toolArgs !! "paginate") = true ->
  p1 !! "calls" = Some (JArr c1) -> length c1 = 2%nat ->
  p2 !! "calls" = Some (JArr c2) -> length c2 = 2%nat ->
  p3 !! "calls" = Some (JArr c3) -> length c3 = 1%nat ->
  arrayField (JObj p2) "records" = None ->
  arrayField (JObj p3) "records" = None ->
  extractNextCursor (JObj p1) = JStr k1 -> k1 <> "" ->
  extractNextCursor (JObj p2) = JStr k2 -> k2 <> "" ->
  extractNextCursor (JObj p3) = JNull ->
  let upstream := page (JObj p1) :: page (JObj p2) :: page (JObj p3) :: rest in
  let info := {| hasMorePages := false; totalPages := 3; currentPage := 3 |} in
  let merged : obj :=
    <["_paginationInfo" := paginationInfo_json info]>
      (<["nextPageCursor" := JNull]> (<["calls" := JArr (c1 ++ c2 ++ c3)]> p1)) in
  snd (executeApiTool_try rt definition toolArgs env upstream) = Normal (JObj merged)
  /\ snd (executeApiTool rt definition toolArgs env upstream)
     = textResult (JSON_stringify_indented rt (JObj merged))
  /\ length (fst (executeApiTool rt definition toolArgs env upstream)) = 3%nat
  /\ merged !! "calls" = Some (JArr (c1 ++ c2 ++ c3))
  /\ length (c1 ++ c2 ++ c3) = 5%nat
  /\ get_opt (merged !! "_paginationInfo") "totalPages" = Some (JNum 3)
  /\ get_opt (merged !! "_paginationInfo") "hasMorePages" = Some (JBool false).
Proof.
  intros Hparse Hauth Hflag Hc1 L1 Hc2 L2 Hc3 L3 Hr2 Hr3 Hn1 Hk1 Hn2 Hk2 Hn3
         upstream info merged.
  assert (Hrun :
    paginate rt definition env (delete "paginate" parsed) true upstream JNull
             (initialCursor definition (delete "paginate" parsed))
             initialPaginationInfo [] =
    ([buildConfig rt definition (delete "paginate" parsed) true
                  (initialCursor definition (delete "paginate" parsed)) authHeader;
      buildConfig rt definition (delete "paginate" parsed) true (JStr k1) authHeader;
      buildConfig rt definition (delete "paginate" parsed) true (JStr k2) authHeader],
     Normal (JObj (<["nextPageCursor" := JNull]>
                     (<["calls" := JArr ((c1 ++ c2) ++ c3)]>
                        (<["nextPageCursor" := JStr k2]>
                           (<["calls" := JArr (c1 ++ c2)]> p1)))), info))).
  { subst upstream.
    run_page Hauth.
    rewrite Hn1, (truthy_nonempty_string _ Hk1), logNextCursor_string.
    cbn [accumulate truthy andb].
    run_page Hauth.
    rewrite Hn2, (truthy_nonempty_string _ Hk2), logNextCursor_string.
    cbn [accumulate truthy andb].
    rewrite (mergePage_first_array_field p1 (JObj p2) (JStr k2) "calls" c2 c1);
      [|discriminate| |exact Hc1].
    2:{ unfold firstArrayField. rewrite Hr2. unfold arrayField. cbn [get].
        rewrite Hc2. reflexivity. }
    run_page Hauth.
    rewrite Hn3. cbn [accumulate truthy andb].
    rewrite (mergePage_first_array_field _ (JObj p3) JNull "calls" c3 (c1 ++ c2));
      [|discriminate| |].
    2:{ unfold firstArrayField. rewrite Hr3. unfold arrayField. cbn [get].
        rewrite Hc3. reflexivity. }
    2:{ rewrite lookup_insert_ne by discriminate. apply lookup_insert_eq. }
    rewrite (logNextCursor_falsy _ JNull eq_refl). reflexivity. }
  assert (Hmerged :
    <["_paginationInfo" := paginationInfo_json info]>
      (<["nextPageCursor" := JNull]>
         (<["calls" := JArr ((c1 ++ c2) ++ c3)]>
            (<["nextPageCursor" := JStr k2]>
               (<["calls" := JArr (c1 ++ c2)]> p1)))) = merged).
  { subst merged. f_equal.
    rewrite (insert_insert_ne _ "calls" "nextPageCursor") by discriminate.
    rewrite !insert_insert_eq, <- app_assoc. reflexivity. }
  rewrite executeApiTool_unfold, (executeApiTool_try_parsed _ _ _ _ _ Hparse).
  cbv zeta. rewrite Hflag, Hrun. cbn [fst snd]. cbn [mbind completion_bind].
  unfold attachPaginationInfo, setProp. rewrite Hmerged.
  repeat split.
  - subst merged. rewrite !lookup_insert_ne by discriminate. apply lookup_insert_eq.
  - rewrite !length_app. lia.
  - subst merged. rewrite lookup_insert_eq. reflexivity.
  - subst merged. rewrite lookup_insert_eq. reflexivity.
Qed.

(** The loop keeps the two page counters equal, and leaves
    [hasMorePages] false when it returns. *)
Lemma paginate_counters definition env validatedArgs shouldPaginate upstream :
  forall allData currentCursor info issued allData' info',
    snd (paginate rt definition env validatedArgs shouldPaginate upstream
                  allData currentCursor info issued) = Normal (allData', info') ->
    totalPages info = currentPage info ->
    totalPages info' = currentPage info'
    /\ hasMorePages info' = false
    /\ (totalPages info <= totalPages info')%nat.
Proof.
  induction upstream as [|respond upstream IH];
    intros allData currentCursor info issued allData' info'; cbn [paginate].
  - destruct (authorizationHeader rt env); discriminate.
  - destruct (authorizationHeader rt env) as [authHeader|]; [|discriminate].
    destruct (respond _) as [data|e]; [|discriminate].
    destruct (accumulate _ _ _) as [merged|e]; [|discriminate].
    destruct (logNextCursor _ _) as [u|e]; [|discriminate].
    destruct (truthy _ && _).
    + intros Hrun Heq. apply IH in Hrun; [|cbn; congruence].
      cbn in Hrun. destruct Hrun as (H1 & H2 & H3). repeat split; [assumption..|lia].
    + cbn [snd]. intros [= <- <-] Heq. cbn. repeat split; [assumption|lia].
Qed.

(** The loop counts: both counters grow by one for every answer that
    carries a cursor while auto-pagination is on, and by nothing else. *)
Lemma paginate_increments definition env validatedArgs shouldPaginate upstream :
  forall allData currentCursor info issued allData' info',
    snd (paginate rt definition env validatedArgs shouldPaginate upstream
                  allData currentCursor info issued) = Normal (allData', info') ->
    exists configs,
      fst (paginate rt definition env validatedArgs shouldPaginate upstream
                    allData currentCursor info issued) = issued ++ configs
      /\ hasMorePages info' = false
      /\ totalPages info'
         = (totalPages info
            + length (List.filter (anotherPage shouldPaginate) (answers upstream configs)))%nat
      /\ currentPage info'
         = (currentPage info
            + length (List.filter (anotherPage shouldPaginate) (answers upstream configs)))%nat.
Proof.
  induction upstream as [|respond upstream IH];
    intros allData currentCursor info issued allData' info'; cbn [paginate];
    destruct (authorizationHeader rt env) as [authHeader|e]; try discriminate.
  destruct (respond _) as [data|e] eqn:Hrespond; [|discriminate].
  destruct (accumulate _ _ _) as [merged|e]; [|discriminate].
  destruct (logNextCursor _ _) as [u|e]; [|discriminate].
  destruct (truthy (extractNextCursor data) && shouldPaginate) eqn:Hmore.
  - intros Hrun. apply IH in Hrun as (configs & Hfst & Hlast & Htotal & Hcurrent).
    exists (buildConfig rt definition validatedArgs shouldPaginate currentCursor authHeader
            :: configs).
    split; [rewrite Hfst, <- app_assoc; reflexivity|]. split; [exact Hlast|].
    cbn [answers zip_with List.filter]. fold (answers upstream configs).
    rewrite Hrespond. cbn [anotherPage]. rewrite Hmore. cbn [length].
    cbn [updatePaginationInfo totalPages currentPage] in Htotal, Hcurrent.
    rewrite Htotal, Hcurrent. split; lia.
  - cbn [fst snd]. intros [= <- <-].
    exists [buildConfig rt definition validatedArgs shouldPaginate currentCursor authHeader].
    split; [reflexivity|].
    cbn [answers zip_with List.filter].
    rewrite Hrespond. cbn [anotherPage]. rewrite Hmore.
    destruct upstream; cbn [zip_with List.filter length updatePaginationInfo
                              hasMorePages totalPages currentPage];
      repeat split; lia.
Qed.

(** C9: whenever the engine returns a result, the [_paginationInfo]
    attached to it has [currentPage = totalPages] (and [hasMorePages]
    false): both counters start at 1 and both are one more than the
    number of answers of the run that carried a cursor while
    auto-pagination was requested; when the result is an object the two
    fields read from it are that number. *)
Theorem counters_equal_at_return definition toolArgs env upstream (v : json) :
  snd (executeApiTool_try rt definition toolArgs env upstream) = Normal v ->
  let requests := fst (executeApiTool_try rt definition toolArgs env upstream) in
  let increments :=
    length (List.filter (anotherPage (is_true_flag (toolArgs !! "paginate")))
                        (answers upstream requests)) in
  exists allData,
    attachPaginationInfo allData
      {| hasMorePages := false;
         totalPages := 1 + increments; currentPage := 1 + increments |} = Normal v
    /\ forall o, v = JObj o ->
         get_opt (o !! "_paginationInfo") "totalPages"
         = Some (JNum (Z.of_nat (1 + increments)))
         /\ get_opt (o !! "_paginationInfo") "currentPage"
            = Some (JNum (Z.of_nat (1 + increments)))
         /\ get_opt (o !! "_paginationInfo") "hasMorePages" = Some (JBool false).
Proof.
  destruct (getZodSchemaFromJsonSchema rt (inputSchema definition) toolArgs)
    as [parsed|msg] eqn:Hparse.
  2:{ unfold executeApiTool_try. rewrite Hparse. discriminate. }
  rewrite (executeApiTool_try_parsed _ _ _ _ _ Hparse). cbv zeta. cbn [fst snd].
  destruct (snd (paginate _ _ _ _ _ _ _ _ _ _)) as [[allData info]|e] eqn:Hrun;
    [|discriminate].
  apply paginate_increments in Hrun.
  destruct Hrun as (configs & Hfst & Hlast & Htotal & Hcurrent).
  rewrite Hfst. cbn [app mbind completion_bind].
  destruct info as [more total current].
  cbn [hasMorePages totalPages currentPage initialPaginationInfo] in Hlast, Htotal, Hcurrent.
  subst more total current.
  intros Hattach. exists allData. split; [exact Hattach|].
  intros o ->. unfold attachPaginationInfo, setProp in Hattach.
  destruct allData; try discriminate. injection Hattach as <-.
  rewrite lookup_insert_eq. repeat split.
Qed.

(** A rejected request ends the loop with that rejection, whatever was
    accumulated before. *)
Lemma paginate_rejection_aborts definition env validatedArgs shouldPaginate upstream :
  forall allData currentCursor info issued i respond config e,
    upstream !! i = Some respond ->
    fst (paginate rt definition env validatedArgs shouldPaginate upstream
                  allData currentCursor info issued) !! (length issued + i)%nat
      = Some config ->
    respond config = Rejected e ->
    snd (paginate rt definition env validatedArgs shouldPaginate upstream
                  allData currentCursor info issued) = Throw (AxiosErr e).
Proof.
  induction upstream as [|respond0 upstream IH];
    intros allData currentCursor info issued i respond config e Hup Hissued Hrej.
  - discriminate.
  - destruct (authorizationHeader rt env) as [authHeader|err] eqn:Hauth.
    2:{ cbn [paginate] in Hissued. rewrite Hauth in Hissued. cbn [fst] in Hissued.
        apply lookup_lt_Some in Hissued. lia. }
    assert (Hshort : forall j, (issued ++ [buildConfig rt definition validatedArgs
              shouldPaginate currentCursor authHeader]) !! (length issued + S j)%nat = None).
    { intros j. apply lookup_ge_None_2. rewrite length_app. cbn. lia. }
    destruct i as [|j].
    + injection Hup as ->.
      destruct (paginate_issues_first definition env validatedArgs shouldPaginate
                  (respond :: upstream) allData currentCursor info issued authHeader Hauth)
        as [more Hmore].
      rewrite Hmore, lookup_app_r in Hissued by lia.
      replace (length issued + 0 - length issued)%nat with 0%nat in Hissued by lia.
      injection Hissued as <-.
      rewrite (paginate_rejected _ _ _ _ _ _ _ _ _ _ _ _ Hauth Hrej). reflexivity.
    + cbn [lookup list_lookup] in Hup.
      cbn [paginate] in Hissued |- *. rewrite Hauth in Hissued |- *.
      destruct (respond0 _) as [data|e0];
        [|cbn [fst] in Hissued; rewrite Hshort in Hissued; discriminate].
      destruct (accumulate _ _ _) as [merged|e0];
        [|cbn [fst] in Hissued; rewrite Hshort in Hissued; discriminate].
      destruct (logNextCursor _ _) as [u|e0];
        [|cbn [fst] in Hissued; rewrite Hshort in Hissued; discriminate].
      destruct (truthy _ && _);
        [|cbn [fst] in Hissued; rewrite Hshort in Hissued; discriminate].
      eapply IH; [exact Hup| |exact Hrej].
      rewrite length_app. cbn [length].
      replace (length issued + 1 + j)%nat with (length issued + S j)%nat by lia.
      exact Hissued.
Qed.

(** C7: the engine always returns one text content.  A validation error
    gives [Validation error: ...] and no request; when any request of the
    run is rejected, the result is the formatted text of that rejection
    alone; every other exception gives [Unexpected error: ...]. *)
Theorem failures_become_text definition toolArgs env upstream :
  let attempt := executeApiTool_try rt definition toolArgs env upstream in
  let result := executeApiTool rt definition toolArgs env upstream in
  (exists t, snd result = textResult t)
  /\ (forall msg,
        getZodSchemaFromJsonSchema rt (inputSchema definition) toolArgs = Invalid msg ->
        result = ([], textResult ("Validation error: " +:+ msg)))
  /\ (forall i respond config e,
        upstream !! i = Some respond ->
        fst result !! i = Some config ->
        respond config = Rejected e ->
        snd attempt = Throw (AxiosErr e)
        /\ snd result = textResult (formatApiError rt e))
  /\ (forall msg,
        snd attempt = Throw (TypeError msg) \/ snd attempt = Throw (Error msg) ->
        snd result = textResult ("Unexpected error: " +:+ msg)).
Proof.
  intros attempt result. subst attempt result. rewrite executeApiTool_unfold.
  cbn [fst snd]. split; [|split; [|split]].
  - destruct (snd (executeApiTool_try _ _ _ _ _)) as [v|[msg|e|msg|msg]];
      eexists; reflexivity.
  - intros msg Hparse. unfold executeApiTool_try. rewrite Hparse. reflexivity.
  - intros i respond config e.
    destruct (getZodSchemaFromJsonSchema rt (inputSchema definition) toolArgs)
      as [parsed|msg] eqn:Hparse.
    2:{ unfold executeApiTool_try. rewrite Hparse. cbn [fst]. discriminate. }
    rewrite (executeApiTool_try_parsed _ _ _ _ _ Hparse). cbv zeta. cbn [fst snd].
    intros Hup Hissued Hrej.
    rewrite (paginate_rejection_aborts _ _ _ _ _ _ _ _ [] i respond config e
               Hup Hissued Hrej).
    split; reflexivity.
  - intros msg [-> | ->]; reflexivity.
Qed.

(** Every request of a run is built from the same arguments, each with
    the cursor of its page. *)
Lemma paginate_configs definition env validatedArgs shouldPaginate upstream :
  forall allData currentCursor info issued config,
    config ∈ fst (paginate rt definition env validatedArgs shouldPaginate upstream
                           allData currentCursor info issued) ->
    config ∈ issued
    \/ exists cursor authHeader,
         config = buildConfig rt definition validatedArgs shouldPaginate cursor authHeader.
Proof.
  induction upstream as [|respond upstream IH];
    intros allData currentCursor info issued config; cbn [paginate];
    destruct (authorizationHeader rt env) as [authHeader|]; cbn [fst];
    try (left; assumption).
  - intros [Hin | ->%list_elem_of_singleton]%elem_of_app; [left; assumption|].
    right. eauto.
  - assert (Hend : config ∈ issued ++ [buildConfig rt definition validatedArgs
                      shouldPaginate currentCursor authHeader] ->
                   config ∈ issued
                   \/ exists cursor authHeader0,
                        config = buildConfig rt definition validatedArgs shouldPaginate
                                             cursor authHeader0).
    { intros [Hin | ->%list_elem_of_singleton]%elem_of_app; [left; assumption|].
      right. eauto. }
    destruct (respond _) as [data|e]; [|exact Hend].
    destruct (accumulate _ _ _) as [merged|e]; [|exact Hend].
    destruct (logNextCursor _ _) as [u|e]; [|exact Hend].
    destruct (truthy _ && _); [|exact Hend].
    intros Hin. apply IH in Hin. destruct Hin as [Hin | Hin]; [exact (Hend Hin)|].
    right. exact Hin.
Qed.

Lemma queryParams_only_arguments (validatedArgs : obj) (k : string) :
  validatedArgs !! k = None ->
  forall (params : list ExecutionParameter) (start : obj),
    start !! k = None ->
    foldl (fun (queryParams : obj) param =>
             if String.eqb (p_in param) "query"
             then match validatedArgs !! p_name param with
                  | Some value => <[p_name param := value]> queryParams
                  | None => queryParams
                  end
             else queryParams) start params !! k = None.
Proof.
  intros Hk. induction params as [|param params IH]; intros start Hstart; [exact Hstart|].
  cbn [foldl]. apply IH.
  destruct (String.eqb _ _); [|exact Hstart].
  destruct (validatedArgs !! p_name param) eqn:Hp; [|exact Hstart].
  rewrite lookup_insert_ne; [exact Hstart|]. intros Heq. rewrite Heq in Hp. congruence.
Qed.

Lemma buildQueryParams_without definition (validatedArgs : obj) currentCursor (k : string) :
  validatedArgs !! k = None -> k <> "cursor" ->
  buildQueryParams definition validatedArgs currentCursor !! k = None.
Proof.
  intros Hk Hcursor. unfold buildQueryParams.
  destruct (truthy _ && _).
  - rewrite lookup_insert_ne by congruence.
    apply queryParams_only_arguments; [exact Hk|apply lookup_empty].
  - apply queryParams_only_arguments; [exact Hk|apply lookup_empty].
Qed.

(** A parameter whose argument is absent contributes nothing to the URL. *)
Lemma foldl_filter_unbound {A} (f : A -> ExecutionParameter -> A) (n : string) :
  (forall a p, p_name p = n -> f a p = a) ->
  forall params a,
    foldl f a (filter (fun p => p_name p <> n) params) = foldl f a params.
Proof.
  intros Hf. induction params as [|p params IH]; intros a; [reflexivity|].
  rewrite filter_cons. destruct (decide (p_name p <> n)) as [Hne|Heq].
  - cbn [foldl]. apply IH.
  - cbn [foldl]. rewrite Hf; [apply IH|].
    destruct (decide (p_name p = n)); [assumption|contradiction].
Qed.

Lemma buildUrl_dropParameter definition (validatedArgs : obj) currentCursor (n : string) :
  validatedArgs !! n = None -> n <> "cursor" ->
  buildUrl rt (dropParameter n definition) validatedArgs currentCursor
  = buildUrl rt definition validatedArgs currentCursor.
Proof.
  intros Hn Hcursor.
  assert (Hpath : replacePathParameters rt (dropParameter n definition) validatedArgs
                  = replacePathParameters rt definition validatedArgs).
  { unfold replacePathParameters. cbn [executionParameters pathTemplate dropParameter].
    apply foldl_filter_unbound. intros url p ->. rewrite Hn.
    destruct (String.eqb _ _); reflexivity. }
  assert (Hsome : cursorIsQueryParameter (dropParameter n definition)
                  = cursorIsQueryParameter definition).
  { unfold cursorIsQueryParameter. cbn [executionParameters dropParameter].
    induction (executionParameters definition) as [|p params IH]; [reflexivity|].
    rewrite filter_cons. destruct (decide (p_name p <> n)) as [Hne|Heq].
    - cbn [existsb]. rewrite IH. reflexivity.
    - cbn [existsb]. rewrite IH.
      destruct (String.eqb (p_name p) "cursor") eqn:Hc; [|reflexivity].
      apply String.eqb_eq in Hc.
      destruct (decide (p_name p = n)) as [Hpn|Hpn]; [congruence|contradiction]. }
  assert (Hquery : buildQueryParams (dropParameter n definition) validatedArgs currentCursor
                   = buildQueryParams definition validatedArgs currentCursor).
  { unfold buildQueryParams. rewrite Hsome.
    cbn [executionParameters dropParameter].
    rewrite (foldl_filter_unbound _ n); [reflexivity|].
    intros q p ->. rewrite Hn. destruct (String.eqb _ _); reflexivity. }
  unfold buildUrl. rewrite Hpath, Hquery. reflexivity.
Qed.

Lemma buildRequestBody_property definition (validatedArgs : obj) shouldPaginate
    currentCursor (body : obj) (k : string) :
  k <> "cursor" ->
  buildRequestBody definition validatedArgs shouldPaginate currentCursor
    = Some (JObj body) ->
  exists requestBody,
    validatedArgs !! "requestBody" = Some requestBody
    /\ body !! k = spread_object requestBody !! k.
Proof.
  intros Hk. unfold buildRequestBody.
  destruct (string_truthy _); [|discriminate].
  destruct (validatedArgs !! "requestBody") as [requestBody|]; [|discriminate].
  destruct (truthy requestBody); [|discriminate].
  intros [= <-]. exists requestBody. split; [reflexivity|].
  destruct (truthy _ && _); [|reflexivity].
  rewrite lookup_insert_ne by congruence. reflexivity.
Qed.

(** C5: for arguments that pass validation, [paginate] decides
    auto-pagination as the boolean it stands for.  When the first answer
    carries a cursor: given as [true] or ["true"], a second request
    follows the first, with that cursor; given as [false] or ["false"],
    or absent, the first request is the only one.  The requests are
    built from the validated arguments without [paginate]: in every
    request issued no query parameter is named [paginate], execution
    parameters named [paginate] bind nothing in the URL, and the body
    has a [paginate] property only where the validated [requestBody]
    object itself has one. *)
Theorem paginate_flag_not_forwarded definition toolArgs parsed env authHeader
    respond upstream data (k : string) :
  getZodSchemaFromJsonSchema rt (inputSchema definition) toolArgs = Parsed parsed ->
  authorizationHeader rt env = Normal authHeader ->
  respond (firstConfig rt definition toolArgs parsed authHeader) = Resolved data ->
  extractNextCursor data = JStr k -> k <> "" ->
  let validatedArgs := delete "paginate" parsed in
  let requests := fst (executeApiTool rt definition toolArgs env (respond :: upstream)) in
  (toolArgs !! "paginate" = Some (JBool true)
   \/ toolArgs !! "paginate" = Some (JStr "true") ->
   exists more,
     requests
     = buildConfig rt definition validatedArgs true
                   (initialCursor definition validatedArgs) authHeader
       :: buildConfig rt definition validatedArgs true (JStr k) authHeader :: more)
  /\ (toolArgs !! "paginate" = Some (JBool false)
      \/ toolArgs !! "paginate" = Some (JStr "false")
      \/ toolArgs !! "paginate" = None ->
      requests
      = [buildConfig rt definition validatedArgs false
                     (initialCursor definition validatedArgs) authHeader])
  /\ validatedArgs !! "paginate" = None
  /\ forall config,
       config ∈ requests ->
       exists currentCursor authHeader',
         config = buildConfig rt definition validatedArgs
                              (is_true_flag (toolArgs !! "paginate"))
                              currentCursor authHeader'
         /\ buildQueryParams definition validatedArgs currentCursor !! "paginate" = None
         /\ req_url config
            = buildUrl rt (dropParameter "paginate" definition) validatedArgs currentCursor
         /\ forall body,
              req_data config = Some (JObj body) ->
              exists requestBody,
                validatedArgs !! "requestBody" = Some requestBody
                /\ body !! "paginate" = spread_object requestBody !! "paginate".
Proof.
  intros Hparse Hauth Hresp Hnext Hk validatedArgs requests.
  assert (Hstripped : validatedArgs !! "paginate" = None) by apply lookup_delete_eq.
  subst requests. rewrite executeApiTool_unfold, (executeApiTool_try_parsed _ _ _ _ _ Hparse).
  cbv zeta. cbn [fst]. fold validatedArgs. unfold firstConfig in Hresp. fold validatedArgs in Hresp.
  split; [|split; [|split]].
  - intros Hflag.
    assert (Htrue : is_true_flag (toolArgs !! "paginate") = true)
      by (destruct Hflag as [-> | ->]; reflexivity).
    rewrite Htrue in Hresp |- *.
    rewrite (paginate_step _ _ _ _ _ _ _ _ _ _ _ _ Hauth Hresp). cbv zeta.
    rewrite Hnext, (truthy_nonempty_string _ Hk), logNextCursor_string.
    cbn [accumulate truthy andb app].
    destruct (paginate_issues_first definition env validatedArgs true upstream data
                (JStr k) (updatePaginationInfo initialPaginationInfo true)
                [buildConfig rt definition validatedArgs true
                   (initialCursor definition validatedArgs) authHeader]
                authHeader Hauth) as [more Hmore].
    exists more. rewrite Hmore. reflexivity.
  - intros Hflag.
    assert (Hfalse : is_true_flag (toolArgs !! "paginate") = false)
      by (destruct Hflag as [-> | [-> | ->]]; reflexivity).
    rewrite Hfalse. rewrite (paginate_once _ _ _ _ _ _ _ _ _ Hauth). reflexivity.
  - exact Hstripped.
  - intros config Hin. apply paginate_configs in Hin.
    destruct Hin as [Hin | (currentCursor & authHeader' & ->)];
      [apply elem_of_nil in Hin; contradiction|].
    exists currentCursor, authHeader'. split; [reflexivity|]. split; [|split].
    + apply buildQueryParams_without; [exact Hstripped|discriminate].
    + cbn [req_url buildConfig]. symmetry.
      apply buildUrl_dropParameter; [exact Hstripped|discriminate].
    + intros body Hbody. cbn [req_data buildConfig] in Hbody.
      apply (buildRequestBody_property _ _ _ _ _ "paginate") in Hbody;
        [exact Hbody|discriminate].
Qed.





(** X2: a missing credential ends the call before any request is issued. *)
Theorem missing_credentials_no_request definition toolArgs parsed env upstream :
  getZodSchemaFromJsonSchema rt (inputSchema definition) toolArgs = Parsed parsed ->
  default "" (env !! "GONG_ACCESS_KEY") = "" \/ default "" (env !! "GONG_SECRET") = "" ->
  executeApiTool rt definition toolArgs env upstream =
  ([], textResult "Unexpected error: Missing Gong credentials in environment").
Proof.
  intros Hparse Hmissing.
  assert (Hauth : authorizationHeader rt env
                  = Throw (Error "Missing Gong credentials in environment")).
  { unfold authorizationHeader.
    destruct Hmissing as [-> | ->]; [reflexivity|].
    rewrite orb_true_r. reflexivity. }
  rewrite executeApiTool_unfold, (executeApiTool_try_parsed _ _ _ _ _ Hparse). cbv zeta.
  destruct upstream; cbn [paginate]; rewrite Hauth; reflexivity.
Qed.

Lemma accumulate_array_onto_object (acc : obj) (items : list json) (nextCursor : json) :
  accumulate (JObj acc) (JArr items) nextCursor
  = Throw (TypeError "allData is not iterable").
Proof. reflexivity. Qed.

(** X3: a later page that is a top-level array cannot be merged: the
    accumulator is the first page, an object, and spreading it throws.
    The call ends with an unexpected error after two requests. *)
Theorem array_page_after_object_page definition toolArgs parsed env authHeader
    (p1 : obj) (k1 : string) (items : list json) (rest : Upstream) :
  getZodSchemaFromJsonSchema rt (inputSchema definition) toolArgs = Parsed parsed ->
  authorizationHeader rt env = Normal authHeader ->
  is_true_flag (toolArgs !! "paginate") = true ->
  extractNextCursor (JObj p1) = JStr k1 -> k1 <> "" ->
  let run := executeApiTool rt definition toolArgs env
               (page (JObj p1) :: page (JArr items) :: rest) in
  snd run = textResult "Unexpected error: allData is not iterable"
  /\ length (fst run) = 2%nat.
Proof.
  intros Hparse Hauth Hflag Hn1 Hk1 run. subst run.
  rewrite executeApiTool_unfold, (executeApiTool_try_parsed _ _ _ _ _ Hparse). cbv zeta.
  rewrite Hflag.
  run_page Hauth.
  rewrite Hn1, (truthy_nonempty_string _ Hk1), logNextCursor_string.
  cbn [accumulate truthy andb].
  run_page Hauth.
  rewrite accumulate_array_onto_object. split; reflexivity.
Qed.

(** X4: the text of a rejection with a response whose body is structured
    and serialises to at most 200 characters. *)
Theorem formatApiError_with_response (resp : AxiosResponse) (error : AxiosError)
    (body : json) (jsonString : string) :
  response error = Some resp ->
  rdata resp = Some body ->
  (forall s, body <> JStr s) ->
  truthy body = true ->
  JSON_stringify rt body = Some jsonString ->
  (String.length jsonString <= 200)%nat ->
  statusText resp <> "" ->
  formatApiError rt error =
  ("API Error: Status " +:+ pretty (status resp) +:+ " (" +:+ statusText resp +:+ "). ")
  +:+ ("Response: " +:+ jsonString).
Proof.
  intros Hresp Hbody Hstr Htruthy Hjson Hlen Htext.
  assert (Hclip : String.substring 0 200 jsonString +:+
                  (if 200 <? Z.of_nat (String.length jsonString) then "..." else "")
                  = jsonString).
  { replace (200 <? Z.of_nat (String.length jsonString)) with false
      by (symmetry; apply Z.ltb_ge; lia).
    clear -Hlen. revert Hlen. generalize 200%nat as n.
    induction jsonString as [|c rest IH]; intros n Hlen.
    - destruct n; reflexivity.
    - destruct n; [cbn in Hlen; lia|].
      change (String c (String.substring 0 n rest +:+ "") = String c rest).
      f_equal. apply IH. cbn in Hlen. lia. }
  assert (Hstructured :
    match Some body with
    | Some (JStr responseData) => None
    | responseData =>
        if truthy_opt responseData
        then JSON_stringify rt (from_option id JNull responseData) else None
    end = Some jsonString).
  { destruct body; cbn [truthy_opt from_option id]; rewrite ?Htruthy; try exact Hjson.
    exfalso. eapply Hstr. reflexivity. }
  unfold formatApiError. rewrite Hresp, Hbody. cbv zeta.
  apply String.eqb_neq in Htext. rewrite Htext.
  destruct body; cbn [truthy_opt from_option id] in *; rewrite ?Htruthy in *;
    try discriminate; rewrite Hjson, Hclip; reflexivity.
Qed.

Lemma callsTrail_nonempty (ps : list obj) (items : list json) :
  callsTrail ps items -> (1 <= length ps)%nat.
Proof. intros [p c _ _ | p c k ps' cs _ _ _ _]; cbn; lia. Qed.

Lemma callsOf_first_array_field (p : obj) (c : list json) :
  callsOf p = Some c -> firstArrayField (JObj p) = Some ("calls", c).
Proof.
  unfold callsOf, firstArrayField.
  destruct (arrayField (JObj p) "records"); [discriminate|].
  intros ->. reflexivity.
Qed.

(** The loop on the later pages of a trail: the items are appended, in
    order, to the array the accumulator holds under [calls]. *)
Lemma paginate_calls_trail definition env validatedArgs authHeader (rest : Upstream)
    (ps : list obj) (items : list json) :
  authorizationHeader rt env = Normal authHeader ->
  callsTrail ps items ->
  forall (acc : obj) (done : list json) currentCursor info issued,
    acc !! "calls" = Some (JArr done) ->
    exists (acc' : obj) (configs : list AxiosRequestConfig),
      paginate rt definition env validatedArgs true
               (map (fun p => page (JObj p)) ps ++ rest)
               (JObj acc) currentCursor info issued
      = (issued ++ configs,
         Normal (JObj acc',
                 {| hasMorePages := false;
                    totalPages := totalPages info + length ps - 1;
                    currentPage := currentPage info + length ps - 1 |}))
      /\ length configs = length ps
      /\ acc' !! "calls" = Some (JArr (done ++ items)).
Proof.
  intros Hauth Htrail.
  induction Htrail as [p c Hc Hlast | p c k ps cs Hc Hnext Hk Htrail IH];
    intros acc done currentCursor info issued Hdone; cbn [map app].
  - run_page Hauth.
    rewrite Hlast, (logNextCursor_falsy _ _ Hlast). cbn [accumulate truthy andb].
    rewrite (mergePage_first_array_field acc (JObj p) _ "calls" c done);
      [|discriminate|apply callsOf_first_array_field, Hc|exact Hdone].
    eexists _, [_]. split; [|split].
    + cbn [updatePaginationInfo length].
      replace (totalPages info + 1 - 1)%nat with (totalPages info) by lia.
      replace (currentPage info + 1 - 1)%nat with (currentPage info) by lia.
      reflexivity.
    + reflexivity.
    + rewrite lookup_insert_ne by discriminate. apply lookup_insert_eq.
  - run_page Hauth.
    rewrite Hnext, (truthy_nonempty_string _ Hk), logNextCursor_string.
    cbn [accumulate truthy andb].
    rewrite (mergePage_first_array_field acc (JObj p) _ "calls" c done);
      [|discriminate|apply callsOf_first_array_field, Hc|exact Hdone].
    edestruct (IH (<["nextPageCursor" := JStr k]> (<["calls" := JArr (done ++ c)]> acc))
                  (done ++ c) (JStr k) (updatePaginationInfo info true))
      as (acc' & configs & Hrun & Hlen & Hcalls).
    { rewrite lookup_insert_ne by discriminate. apply lookup_insert_eq. }
    rewrite Hrun. pose proof (callsTrail_nonempty _ _ Htrail) as Hne.
    eexists acc', (_ :: configs). split; [|split].
    + rewrite <- app_assoc. cbn [app updatePaginationInfo totalPages currentPage length].
      replace (S (totalPages info) + length ps - 1)%nat
        with (totalPages info + S (length ps) - 1)%nat by lia.
      replace (S (currentPage info) + length ps - 1)%nat
        with (currentPage info + S (length ps) - 1)%nat by lia.
      reflexivity.
    + cbn [length]. rewrite Hlen. reflexivity.
    + rewrite Hcalls, <- app_assoc. reflexivity.
Qed.

(** X5, merging any number of calls-shaped pages: with [paginate = true],
    one request per page is issued and the result holds under [calls]
    the items of all pages, earlier pages first, and in
    [_paginationInfo] the number of pages with [hasMorePages] false. *)
Theorem calls_pages_merged_in_order definition toolArgs parsed env authHeader
    (ps : list obj) (items : list json) (rest : Upstream) :
  getZodSchemaFromJsonSchema rt (inputSchema definition) toolArgs = Parsed parsed ->
  authorizationHeader rt env = Normal authHeader ->
  is_true_flag (toolArgs !! "paginate") = true ->
  callsTrail ps items ->
  let run := executeApiTool_try rt definition toolArgs env
               (map (fun p => page (JObj p)) ps ++ rest) in
  length (fst run) = length ps
  /\ exists result : obj,
       snd run = Normal (JObj result)
       /\ result !! "calls" = Some (JArr items)
       /\ result !! "_paginationInfo"
          = Some (paginationInfo_json
                    {| hasMorePages := false;
                       totalPages := length ps; currentPage := length ps |}).
Proof.
  intros Hparse Hauth Hflag Htrail run. subst run.
  rewrite (executeApiTool_try_parsed _ _ _ _ _ Hparse). cbv zeta. rewrite Hflag.
  destruct Htrail as [p c Hc Hlast | p c k ps cs Hc Hnext Hk Htrail]; cbn [map app].
  - run_page Hauth.
    rewrite Hlast, (logNextCursor_falsy _ _ Hlast). cbn [accumulate truthy andb fst snd].
    split; [reflexivity|]. eexists. split; [reflexivity|]. split.
    + rewrite lookup_insert_ne by discriminate.
      unfold callsOf, arrayField in Hc. cbn [get] in Hc.
      destruct (match p !! "records" with Some (JArr xs) => Some xs | _ => None end);
        [discriminate|].
      destruct (p !! "calls") as [[]|] eqn:Hp; try discriminate.
      injection Hc as ->. reflexivity.
    + apply lookup_insert_eq.
  - run_page Hauth.
    rewrite Hnext, (truthy_nonempty_string _ Hk), logNextCursor_string.
    cbn [accumulate truthy andb].
    assert (Hp : p !! "calls" = Some (JArr c)).
    { unfold callsOf, arrayField in Hc. cbn [get] in Hc.
      destruct (match p !! "records" with Some (JArr xs) => Some xs | _ => None end);
        [discriminate|].
      destruct (p !! "calls") as [[]|] eqn:Hp; try discriminate.
      injection Hc as ->. reflexivity. }
    destruct (paginate_calls_trail definition env (delete "paginate" parsed) authHeader
                rest ps cs Hauth Htrail p c (JStr k)
                (updatePaginationInfo initialPaginationInfo true)
                ([] ++ [buildConfig rt definition (delete "paginate" parsed) true
                          (initialCursor definition (delete "paginate" parsed)) authHeader])
                Hp)
      as (acc' & configs & Hrun & Hlen & Hcalls).
    rewrite Hrun. cbn [fst snd]. cbn [mbind completion_bind].
    pose proof (callsTrail_nonempty _ _ Htrail) as Hne.
    split; [rewrite !length_app; cbn [length]; lia|].
    eexists. split; [reflexivity|]. split.
    + rewrite lookup_insert_ne by discriminate. exact Hcalls.
    + rewrite lookup_insert_eq.
      cbn [updatePaginationInfo initialPaginationInfo totalPages currentPage length].
      replace (2 + length ps - 1)%nat with (S (length ps)) by lia.
      reflexivity.
Qed.

Lemma map_all_ext_in {A} (p q : string -> A -> bool) (m : gmap string A) :
  (forall k x, m !! k = Some x -> p k x = q k x) -> map_all p m = map_all q m.
Proof.
  intros Hext. unfold map_all.
  assert (Hin : forall entry,
             entry ∈ map_to_list m -> p entry.1 entry.2 = q entry.1 entry.2).
  { intros [k x] Hin. apply Hext, elem_of_map_to_list, Hin. }
  induction (map_to_list m) as [|entry l IH]; [reflexivity|].
  cbn [forallb]. rewrite (Hin entry) by apply list_elem_of_here.
  rewrite IH; [reflexivity|]. intros e He. apply Hin, list_elem_of_further, He.
Qed.

Lemma map_all_true {A} (p : string -> A -> bool) (m : gmap string A) :
  (forall k x, p k x = true) -> map_all p m = true.
Proof.
  intros Hp. unfold map_all. induction (map_to_list m) as [|entry l IH]; [reflexivity|].
  cbn [forallb]. rewrite Hp, IH. reflexivity.
Qed.

Lemma map_all_fmap {A B} (f : A -> B) (p : string -> B -> bool) (m : gmap string A) :
  map_all p (f <$> m) = map_all (fun k x => p k (f x)) m.
Proof.
  unfold map_all. rewrite map_to_list_fmap.
  induction (map_to_list m) as [|[k x] l IH]; [reflexivity|].
  cbn [fmap list_fmap forallb prod_map fst snd id]. f_equal. exact IH.
Qed.

(** What [parse] of a [z.object({ ... })] without [.strict()] or
    [.catchall(...)] returns: the declared properties that are present,
    each parsed by its own schema. *)
Lemma zodParse_object (formatOk : string -> string -> bool) (schema props o : obj) :
  schemaType schema = "object" ->
  schema !! "properties" = Some (JObj props) ->
  schema !! "additionalProperties" = None ->
  zodParse formatOk (JObj schema) (JObj o)
  = if map_all (fun k sub =>
                  match o !! k with
                  | Some v => accepted (zodParse formatOk sub v)
                  | None => negb (isRequired schema k)
                  end) props
    then Some (JObj (map_imap (fun k v => sub ← props !! k; zodParse formatOk sub v) o))
    else None.
Proof.
  intros Htype Hprops Hadditional. unfold zodParse at 1. cbn [zodNode asSchema].
  rewrite Htype, Hprops, Hadditional.
  change (String.eqb "object" "object") with true. cbv iota.
  rewrite lookup_fmap, Hprops.
  cbn [fmap option_fmap option_map from_option asProperties zodNode].
  rewrite !map_all_fmap.
  rewrite (map_all_true _ o) by (intros k x; destruct (_ !! k); reflexivity).
  rewrite andb_true_r.
  replace (map_imap
             (fun (k : string) (v : json) =>
                match (asSchema <$> (zodNode formatOk <$> props)) !! k with
                | Some parse => parse v
                | None => mjoin (Some None)
                end) o)
    with (map_imap (fun k v => sub ← props !! k; zodParse formatOk sub v) o);
    [reflexivity|].
  apply map_imap_ext. intros k. rewrite !lookup_fmap.
  destruct (o !! k), (props !! k); reflexivity.
Qed.

(** A property that the schema does not declare has no part in what
    [parse] does. *)
Lemma zodParse_undeclared (formatOk : string -> string -> bool) (schema props o : obj)
    (k : string) (v : json) :
  schemaType schema = "object" ->
  schema !! "properties" = Some (JObj props) ->
  schema !! "additionalProperties" = None ->
  props !! k = None ->
  o !! k = None ->
  zodParse formatOk (JObj schema) (JObj (<[k := v]> o))
  = zodParse formatOk (JObj schema) (JObj o).
Proof.
  intros Htype Hprops Hadditional Hk Ho.
  rewrite !(zodParse_object formatOk schema props) by assumption.
  rewrite (map_all_ext_in _ (fun k' sub =>
             match o !! k' with
             | Some v' => accepted (zodParse formatOk sub v')
             | None => negb (isRequired schema k')
             end) props).
  2:{ intros k' sub Hk'. rewrite lookup_insert_ne by congruence. reflexivity. }
  rewrite map_imap_insert_None by (rewrite Hk; reflexivity).
  rewrite delete_id by (rewrite map_lookup_imap, Ho; reflexivity). reflexivity.
Qed.

(** C6, as amended: for an operation whose input schema is a
    well-formed object schema ([type] object with [properties], no
    [additionalProperties]), compiled to its zod validator, a property of
    the arguments that the schema does not declare is stripped, not
    preserved: validation gives the normalized object that it gives
    without the property, that object does not contain it, and, for a
    property other than [paginate], the requests and the result of the
    call are those of the call without it. *)
Theorem undeclared_properties_stripped
    (formatOk : string -> string -> bool) (issues : json -> obj -> string)
    definition (schema props toolArgs : obj) (k : string) (v : json) env upstream :
  inputSchema definition = JObj schema ->
  schemaType schema = "object" ->
  schema !! "properties" = Some (JObj props) ->
  schema !! "additionalProperties" = None ->
  jsonSchemaToZod rt (JObj schema) = Some (zodSchemaOf formatOk issues (JObj schema)) ->
  props !! k = None ->
  toolArgs !! k = None ->
  let validate := getZodSchemaFromJsonSchema rt (inputSchema definition) in
  let withExtra := <[k := v]> toolArgs in
  (forall parsed, validate withExtra = Parsed parsed <-> validate toolArgs = Parsed parsed)
  /\ (forall parsed,
        validate withExtra = Parsed parsed ->
        parsed !! k = None /\ delete "paginate" parsed !! k = None)
  /\ (k <> "paginate" ->
      forall parsed,
        validate withExtra = Parsed parsed ->
        executeApiTool rt definition withExtra env upstream
        = executeApiTool rt definition toolArgs env upstream).
Proof.
  intros Hschema Htype Hprops Hadditional Hcompile Hk Hargs validate withExtra.
  assert (Hvalidate : forall args,
             validate args
             = match zodParse formatOk (JObj schema) (JObj args) with
               | Some (JObj parsed) => Parsed parsed
               | _ => Invalid (issues (JObj schema) args)
               end).
  { intros args. subst validate. unfold getZodSchemaFromJsonSchema.
    rewrite Hschema, Hcompile. reflexivity. }
  assert (Hsame : zodParse formatOk (JObj schema) (JObj withExtra)
                  = zodParse formatOk (JObj schema) (JObj toolArgs))
    by (apply (zodParse_undeclared formatOk schema props); assumption).
  assert (Hiff : forall parsed,
             validate withExtra = Parsed parsed <-> validate toolArgs = Parsed parsed).
  { intros parsed. rewrite !Hvalidate, Hsame.
    destruct (zodParse formatOk (JObj schema) (JObj toolArgs)) as [[| | | | |p]|];
      split; first [discriminate | intros Heq; exact Heq]. }
  assert (Hstripped : forall parsed, validate withExtra = Parsed parsed -> parsed !! k = None).
  { intros parsed Hparsed. apply Hiff in Hparsed. rewrite Hvalidate in Hparsed.
    rewrite (zodParse_object formatOk schema props) in Hparsed by assumption.
    destruct (map_all _ props); [|discriminate]. injection Hparsed as <-.
    rewrite map_lookup_imap, Hargs. reflexivity. }
  split; [exact Hiff|]. split.
  - intros parsed Hparsed. split; [apply Hstripped, Hparsed|].
    destruct (decide (k = "paginate")) as [->|Hne];
      [apply lookup_delete_eq|].
    rewrite lookup_delete_ne by congruence. apply Hstripped, Hparsed.
  - intros Hne parsed Hparsed.
    assert (Hplain : validate toolArgs = Parsed parsed) by (apply Hiff, Hparsed).
    subst validate. unfold executeApiTool, executeApiTool_try.
    rewrite Hparsed, Hplain. subst withExtra.
    rewrite lookup_insert_ne by congruence. reflexivity.
Qed.

(** Every request of a run is built with the same [Authorization]
    header. *)
Lemma paginate_configs_auth definition env validatedArgs shouldPaginate authHeader upstream :
  authorizationHeader rt env = Normal authHeader ->
  forall allData currentCursor info issued config,
    config ∈ fst (paginate rt definition env validatedArgs shouldPaginate upstream
                           allData currentCursor info issued) ->
    config ∈ issued
    \/ exists cursor,
         config = buildConfig rt definition validatedArgs shouldPaginate cursor authHeader.
Proof.
  intros Hauth.
  induction upstream as [|respond upstream IH];
    intros allData currentCursor info issued config; cbn [paginate];
    rewrite Hauth; cbn [fst].
  - intros [Hin | ->%list_elem_of_singleton]%elem_of_app; [left; assumption|].
    right. eauto.
  - assert (Hend : config ∈ issued ++ [buildConfig rt definition validatedArgs
                      shouldPaginate currentCursor authHeader] ->
                   config ∈ issued
                   \/ exists cursor,
                        config = buildConfig rt definition validatedArgs shouldPaginate
                                             cursor authHeader).
    { intros [Hin | ->%list_elem_of_singleton]%elem_of_app; [left; assumption|].
      right. eauto. }
    destruct (respond _) as [data|e]; [|exact Hend].
    destruct (accumulate _ _ _) as [merged|e]; [|exact Hend].
    destruct (logNextCursor _ _) as [u|e]; [|exact Hend].
    destruct (truthy _ && _); [|exact Hend].
    intros Hin. apply IH in Hin. destruct Hin as [Hin | Hin]; [exact (Hend Hin)|].
    right. exact Hin.
Qed.

(** X6: with both credentials configured, every request of a call is
    sent with the method of the operation, [Accept: application/json],
    the [Authorization] header [Basic base64(key:secret)], and a
    [Content-Type] header exactly when the operation declares a
    non-empty body content type. *)
Theorem every_request_is_authorized definition toolArgs parsed env upstream
    (accessKey secret : string) :
  getZodSchemaFromJsonSchema rt (inputSchema definition) toolArgs = Parsed parsed ->
  env !! "GONG_ACCESS_KEY" = Some accessKey -> accessKey <> "" ->
  env !! "GONG_SECRET" = Some secret -> secret <> "" ->
  forall config,
    config ∈ fst (executeApiTool rt definition toolArgs env upstream) ->
    req_method config = method definition
    /\ req_headers config !! "Accept" = Some "application/json"
    /\ req_headers config !! "Authorization"
       = Some ("Basic " +:+ Buffer_base64 rt (accessKey +:+ ":" +:+ secret))
    /\ req_headers config !! "Content-Type"
       = (if string_truthy (requestBodyContentType definition)
          then requestBodyContentType definition else None).
Proof.
  intros Hparse Hkey Hk Hsecret Hs config.
  assert (Hauth : authorizationHeader rt env
                  = Normal ("Basic " +:+ Buffer_base64 rt (accessKey +:+ ":" +:+ secret))).
  { unfold authorizationHeader. rewrite Hkey, Hsecret. cbn [from_option id].
    apply String.eqb_neq in Hk, Hs. rewrite Hk, Hs. reflexivity. }
  rewrite executeApiTool_unfold, (executeApiTool_try_parsed _ _ _ _ _ Hparse).
  cbv zeta. cbn [fst]. intros Hin.
  apply (paginate_configs_auth _ _ _ _ _ _ Hauth) in Hin.
  destruct Hin as [Hin | [cursor ->]]; [apply elem_of_nil in Hin; contradiction|].
  cbn [req_method req_headers buildConfig].
  split; [reflexivity|].
  destruct (requestBodyContentType definition) as [contentType|]; cbn [string_truthy];
    [destruct (negb (String.eqb contentType ""))|]; repeat split;
    repeat first [rewrite lookup_insert_eq
                 | rewrite lookup_insert_ne by discriminate
                 | rewrite lookup_empty]; reflexivity.
Qed.

(** A request that follows an answered one is built with the cursor of
    that answer, which is a non-empty string. *)
Lemma paginate_next_cursor definition env validatedArgs shouldPaginate authHeader upstream :
  authorizationHeader rt env = Normal authHeader ->
  forall allData currentCursor info issued i respond config data next,
    upstream !! i = Some respond ->
    fst (paginate rt definition env validatedArgs shouldPaginate upstream
                  allData currentCursor info issued) !! (length issued + i)%nat
      = Some config ->
    respond config = Resolved data ->
    fst (paginate rt definition env validatedArgs shouldPaginate upstream
                  allData currentCursor info issued) !! (length issued + S i)%nat
      = Some next ->
    shouldPaginate = true
    /\ (exists k, extractNextCursor data = JStr k /\ k <> "")
    /\ next = buildConfig rt definition validatedArgs shouldPaginate
                          (extractNextCursor data) authHeader.
Proof.
  intros Hauth.
  induction upstream as [|respond0 upstream IH];
    intros allData currentCursor info issued i respond config data next
           Hup Hconfig Hresp Hnext; [discriminate|].
  assert (Hshort : forall j, (issued ++ [buildConfig rt definition validatedArgs
            shouldPaginate currentCursor authHeader]) !! (length issued + S j)%nat = None).
  { intros j. apply lookup_ge_None_2. rewrite length_app. cbn. lia. }
  destruct i as [|j].
  - injection Hup as ->.
    destruct (paginate_issues_first definition env validatedArgs shouldPaginate
                (respond :: upstream) allData currentCursor info issued authHeader Hauth)
      as [more Hmore].
    rewrite Hmore, lookup_app_r in Hconfig by lia.
    replace (length issued + 0 - length issued)%nat with 0%nat in Hconfig by lia.
    injection Hconfig as <-. clear more Hmore.
    rewrite (paginate_step _ _ _ _ _ _ _ _ _ _ _ _ Hauth Hresp) in Hnext.
    cbv zeta in Hnext.
    destruct (accumulate _ _ _) as [merged|e0];
      [|cbn [fst] in Hnext; rewrite Hshort in Hnext; discriminate].
    destruct (logNextCursor _ _) as [u|e0] eqn:Hlog;
      [|cbn [fst] in Hnext; rewrite Hshort in Hnext; discriminate].
    destruct (truthy (extractNextCursor data) && shouldPaginate) eqn:Hmore;
      [|cbn [fst] in Hnext; rewrite Hshort in Hnext; discriminate].
    apply andb_prop in Hmore. destruct Hmore as [Htruthy ->].
    destruct (paginate_issues_first definition env validatedArgs true upstream merged
                (extractNextCursor data) (updatePaginationInfo info true)
                (issued ++ [buildConfig rt definition validatedArgs true currentCursor
                              authHeader]) authHeader Hauth) as [more Hmore].
    rewrite Hmore, lookup_app_r in Hnext by (rewrite length_app; cbn; lia).
    rewrite length_app in Hnext. cbn [length] in Hnext.
    replace (length issued + 1 - (length issued + 1))%nat with 0%nat in Hnext by lia.
    injection Hnext as <-.
    split; [reflexivity|]. split; [|reflexivity].
    unfold logNextCursor in Hlog. rewrite Htruthy in Hlog. cbn [andb] in Hlog.
    destruct (extractNextCursor data) as [| | |k| |]; try discriminate.
    exists k. split; [reflexivity|].
    intros ->. discriminate.
  - cbn [lookup list_lookup] in Hup.
    cbn [paginate] in Hconfig, Hnext. rewrite Hauth in Hconfig, Hnext.
    destruct (respond0 _) as [data0|e0];
      [|cbn [fst] in Hconfig; rewrite Hshort in Hconfig; discriminate].
    destruct (accumulate _ _ _) as [merged|e0];
      [|cbn [fst] in Hconfig; rewrite Hshort in Hconfig; discriminate].
    destruct (logNextCursor _ _) as [u|e0];
      [|cbn [fst] in Hconfig; rewrite Hshort in Hconfig; discriminate].
    destruct (truthy _ && _);
      [|cbn [fst] in Hconfig; rewrite Hshort in Hconfig; discriminate].
    apply (IH merged (extractNextCursor data0) (updatePaginationInfo info true)
              (issued ++ [buildConfig rt definition validatedArgs shouldPaginate
                            currentCursor authHeader]) j respond config data next);
      [exact Hup| |exact Hresp|].
    + rewrite length_app. cbn [length].
      replace (length issued + 1 + j)%nat with (length issued + S j)%nat by lia.
      exact Hconfig.
    + rewrite length_app. cbn [length].
      replace (length issued + 1 + S j)%nat with (length issued + S (S j))%nat by lia.
      exact Hnext.
Qed.

Lemma buildRequestBody_cursor definition (validatedArgs : obj) currentCursor (body : obj) :
  truthy currentCursor = true ->
  buildRequestBody definition validatedArgs true currentCursor = Some (JObj body) ->
  body !! "cursor" = Some currentCursor.
Proof.
  intros Htruthy. unfold buildRequestBody.
  destruct (string_truthy _); [|discriminate].
  destruct (validatedArgs !! "requestBody") as [requestBody|]; [|discriminate].
  destruct (truthy requestBody); [|discriminate].
  rewrite Htruthy. cbn [andb]. intros [= <-]. apply lookup_insert_eq.
Qed.

Lemma buildQueryParams_cursor definition (validatedArgs : obj) currentCursor :
  truthy currentCursor = true ->
  cursorIsQueryParameter definition = true ->
  buildQueryParams definition validatedArgs currentCursor !! "cursor" = Some currentCursor.
Proof.
  intros Htruthy Hquery. unfold buildQueryParams. rewrite Htruthy, Hquery.
  apply lookup_insert_eq.
Qed.

(** X7: in a call, a request that follows an answered request was made
    with auto-pagination on and carries the cursor extracted from that
    answer, a non-empty string: as the [cursor] property of the body when
    the request has a body, and as the [cursor] query parameter when the
    operation declares one. *)
Theorem next_request_carries_cursor definition toolArgs parsed env authHeader upstream
    (i : nat) respond config data next :
  getZodSchemaFromJsonSchema rt (inputSchema definition) toolArgs = Parsed parsed ->
  authorizationHeader rt env = Normal authHeader ->
  upstream !! i = Some respond ->
  fst (executeApiTool rt definition toolArgs env upstream) !! i = Some config ->
  respond config = Resolved data ->
  fst (executeApiTool rt definition toolArgs env upstream) !! S i = Some next ->
  let validatedArgs := delete "paginate" parsed in
  let cursor := extractNextCursor data in
  is_true_flag (toolArgs !! "paginate") = true
  /\ (exists k, cursor = JStr k /\ k <> "")
  /\ next = buildConfig rt definition validatedArgs true cursor authHeader
  /\ (forall body, req_data next = Some (JObj body) -> body !! "cursor" = Some cursor)
  /\ (cursorIsQueryParameter definition = true ->
      buildQueryParams definition validatedArgs cursor !! "cursor" = Some cursor).
Proof.
  intros Hparse Hauth Hup Hconfig Hresp Hnext validatedArgs cursor.
  rewrite executeApiTool_unfold, (executeApiTool_try_parsed _ _ _ _ _ Hparse)
    in Hconfig, Hnext.
  cbv zeta in Hconfig, Hnext. cbn [fst] in Hconfig, Hnext.
  destruct (paginate_next_cursor _ _ _ _ _ _ Hauth _ _ _ [] i respond config data next
              Hup Hconfig Hresp Hnext) as (Hflag & (k & Hk & Hne) & ->).
  subst validatedArgs cursor. rewrite Hflag.
  assert (Htruthy : truthy (extractNextCursor data) = true).
  { rewrite Hk. apply truthy_nonempty_string, Hne. }
  split; [reflexivity|]. split; [eauto|]. split; [reflexivity|]. split.
  - intros body Hbody. cbn [req_data buildConfig] in Hbody.
    eapply buildRequestBody_cursor; [exact Htruthy|exact Hbody].
  - intros Hquery. apply buildQueryParams_cursor; assumption.
Qed.

(** X8: with auto-pagination on, a first answer whose cursor is truthy
    but not a string (a number, [true], an array, an object) ends the
    call with an unexpected error after one request: the debug message
    calls [substring] on the cursor. *)
Theorem non_string_cursor_ends_the_call definition toolArgs parsed env authHeader
    respond upstream data :
  getZodSchemaFromJsonSchema rt (inputSchema definition) toolArgs = Parsed parsed ->
  authorizationHeader rt env = Normal authHeader ->
  is_true_flag (toolArgs !! "paginate") = true ->
  respond (firstConfig rt definition toolArgs parsed authHeader) = Resolved data ->
  truthy (extractNextCursor data) = true ->
  (forall k, extractNextCursor data <> JStr k) ->
  executeApiTool rt definition toolArgs env (respond :: upstream)
  = ([firstConfig rt definition toolArgs parsed authHeader],
     textResult "Unexpected error: nextCursor?.substring is not a function").
Proof.
  intros Hparse Hauth Hflag Hresp Htruthy Hstr.
  rewrite executeApiTool_unfold, (executeApiTool_try_parsed _ _ _ _ _ Hparse). cbv zeta.
  unfold firstConfig in *. rewrite Hflag in *.
  rewrite (paginate_step _ _ _ _ _ _ _ _ _ _ _ _ Hauth Hresp). cbv zeta.
  cbn [accumulate truthy]. unfold logNextCursor. rewrite Htruthy. cbn [andb].
  destruct (extractNextCursor data) as [| | |k| |]; try reflexivity.
  destruct (Hstr k). reflexivity.
Qed.

Lemma foldl_ext_in {A B} (f g : A -> B -> A) (l : list B) :
  (forall a b, b ∈ l -> f a b = g a b) ->
  forall a, foldl f a l = foldl g a l.
Proof.
  induction l as [|b l IH]; intros Hfg a; [reflexivity|].
  cbn [foldl]. rewrite Hfg by apply list_elem_of_here.
  apply IH. intros a' b' Hin. apply Hfg. apply list_elem_of_further, Hin.
Qed.

(** A request depends on the arguments only through the execution
    parameters of the operation and [requestBody]. *)
Lemma buildConfig_agree definition (args args' : obj) shouldPaginate currentCursor authHeader :
  (forall p, p ∈ executionParameters definition -> args !! p_name p = args' !! p_name p) ->
  args !! "requestBody" = args' !! "requestBody" ->
  buildConfig rt definition args shouldPaginate currentCursor authHeader
  = buildConfig rt definition args' shouldPaginate currentCursor authHeader.
Proof.
  intros Hparams Hbody.
  assert (Hpath : replacePathParameters rt definition args
                  = replacePathParameters rt definition args').
  { unfold replacePathParameters. apply foldl_ext_in.
    intros url p Hin. rewrite (Hparams p Hin). reflexivity. }
  assert (Hquery : forall cursor, buildQueryParams definition args cursor
                                  = buildQueryParams definition args' cursor).
  { intros cursor. unfold buildQueryParams.
    rewrite (foldl_ext_in _
               (fun (queryParams : obj) param =>
                  if String.eqb (p_in param) "query"
                  then match args' !! p_name param with
                       | Some value => <[p_name param := value]> queryParams
                       | None => queryParams
                       end
                  else queryParams)); [reflexivity|].
    intros q p Hin. rewrite (Hparams p Hin). reflexivity. }
  unfold buildConfig, buildUrl, buildRequestBody.
  rewrite Hpath, Hquery, Hbody. reflexivity.
Qed.

Lemma paginate_agree definition env (args args' : obj) shouldPaginate upstream :
  (forall p, p ∈ executionParameters definition -> args !! p_name p = args' !! p_name p) ->
  args !! "requestBody" = args' !! "requestBody" ->
  forall allData currentCursor info issued,
    paginate rt definition env args shouldPaginate upstream allData currentCursor info issued
    = paginate rt definition env args' shouldPaginate upstream allData currentCursor
               info issued.
Proof.
  intros Hparams Hbody.
  induction upstream as [|respond upstream IH]; intros allData currentCursor info issued;
    cbn [paginate]; destruct (authorizationHeader rt env) as [authHeader|e];
    try reflexivity;
    rewrite (buildConfig_agree definition args args' shouldPaginate currentCursor authHeader
               Hparams Hbody); [reflexivity|].
  destruct (respond _) as [data|e]; [|reflexivity].
  destruct (accumulate _ _ _) as [merged|e]; [|reflexivity].
  destruct (logNextCursor _ _) as [u|e]; [|reflexivity].
  destruct (truthy _ && _); [|reflexivity].
  apply IH.
Qed.

(** X9: arguments that are neither execution parameters of the
    operation, nor [requestBody], nor [cursor], nor [paginate] have no
    effect on a call: two argument objects whose validated forms agree
    on those give the same requests and the same result. *)
Theorem other_arguments_have_no_effect definition toolArgs toolArgs' parsed parsed'
    env upstream :
  getZodSchemaFromJsonSchema rt (inputSchema definition) toolArgs = Parsed parsed ->
  getZodSchemaFromJsonSchema rt (inputSchema definition) toolArgs' = Parsed parsed' ->
  is_true_flag (toolArgs !! "paginate") = is_true_flag (toolArgs' !! "paginate") ->
  (forall p, p ∈ executionParameters definition ->
             p_name p <> "paginate" -> parsed !! p_name p = parsed' !! p_name p) ->
  parsed !! "requestBody" = parsed' !! "requestBody" ->
  parsed !! "cursor" = parsed' !! "cursor" ->
  executeApiTool rt definition toolArgs env upstream
  = executeApiTool rt definition toolArgs' env upstream.
Proof.
  intros Hparse Hparse' Hflag Hparams Hbody Hcursor.
  rewrite !executeApiTool_unfold.
  rewrite (executeApiTool_try_parsed _ _ _ _ _ Hparse),
          (executeApiTool_try_parsed _ _ _ _ _ Hparse').
  cbv zeta. rewrite Hflag.
  assert (Hinit : initialCursor definition (delete "paginate" parsed)
                  = initialCursor definition (delete "paginate" parsed')).
  { unfold initialCursor. rewrite !lookup_delete_ne by discriminate.
    rewrite Hbody, Hcursor. reflexivity. }
  rewrite Hinit.
  rewrite (paginate_agree definition env (delete "paginate" parsed)
             (delete "paginate" parsed')); [reflexivity| |].
  - intros p Hin. destruct (decide (p_name p = "paginate")) as [-> | Hne].
    + rewrite !lookup_delete_eq. reflexivity.
    + rewrite !lookup_delete_ne by congruence. apply Hparams; assumption.
  - rewrite !lookup_delete_ne by discriminate. exact Hbody.
Qed.

(** The number of requests issued grows with the page counter: one
    request per page. *)
Lemma paginate_request_count definition env validatedArgs shouldPaginate upstream :
  forall allData currentCursor info issued allData' info',
    snd (paginate rt definition env validatedArgs shouldPaginate upstream
                  allData currentCursor info issued) = Normal (allData', info') ->
    (length (fst (paginate rt definition env validatedArgs shouldPaginate upstream
                           allData currentCursor info issued)) + totalPages info
     = length issued + totalPages info' + 1)%nat.
Proof.
  induction upstream as [|respond upstream IH];
    intros allData currentCursor info issued allData' info'; cbn [paginate].
  - destruct (authorizationHeader rt env); discriminate.
  - destruct (authorizationHeader rt env) as [authHeader|]; [|discriminate].
    destruct (respond _) as [data|e]; [|discriminate].
    destruct (accumulate _ _ _) as [merged|e]; [|discriminate].
    destruct (logNextCursor _ _) as [u|e]; [|discriminate].
    destruct (truthy _ && _).
    + intros Hrun. apply IH in Hrun. rewrite length_app in Hrun.
      cbn [length updatePaginationInfo totalPages] in Hrun |- *. lia.
    + cbn [fst snd]. intros [= <- <-]. rewrite length_app.
      cbn [length updatePaginationInfo totalPages]. lia.
Qed.

(** X10: whenever a call returns a result, [_paginationInfo.totalPages]
    (and [currentPage]) is the number of HTTP requests the call issued. *)
Theorem totalPages_counts_requests definition toolArgs env upstream (v : json) :
  snd (executeApiTool_try rt definition toolArgs env upstream) = Normal v ->
  let requests := length (fst (executeApiTool rt definition toolArgs env upstream)) in
  (1 <= requests)%nat
  /\ (exists allData,
        attachPaginationInfo allData
          {| hasMorePages := false; totalPages := requests; currentPage := requests |}
        = Normal v)
  /\ forall o, v = JObj o ->
       o !! "_paginationInfo"
       = Some (paginationInfo_json
                 {| hasMorePages := false; totalPages := requests;
                    currentPage := requests |}).
Proof.
  destruct (getZodSchemaFromJsonSchema rt (inputSchema definition) toolArgs)
    as [parsed|msg] eqn:Hparse.
  2:{ unfold executeApiTool_try. rewrite Hparse. discriminate. }
  rewrite executeApiTool_unfold, (executeApiTool_try_parsed _ _ _ _ _ Hparse).
  cbv zeta. cbn [fst snd].
  destruct (snd (paginate _ _ _ _ _ _ _ _ _ _)) as [[allData info]|e] eqn:Hrun;
    [|discriminate].
  pose proof (paginate_counters _ _ _ _ _ _ _ _ _ _ _ Hrun eq_refl) as (Heq & Hmore & Hge).
  pose proof (paginate_request_count _ _ _ _ _ _ _ _ _ _ _ Hrun) as Hcount.
  cbn [length initialPaginationInfo totalPages] in Hcount, Hge.
  cbn [mbind completion_bind].
  destruct info as [more total current]. cbn in Heq, Hmore, Hge, Hcount. subst.
  replace (length _) with current by lia.
  intros Hattach. split; [exact Hge|]. split; [eauto|].
  intros o ->. unfold attachPaginationInfo, setProp in Hattach.
  destruct allData; try discriminate. injection Hattach as <-.
  apply lookup_insert_eq.
Qed.

Lemma appendUnder_frame (k : string) (acc : obj) items nextCursor merged :
  appendUnder k (JObj acc) items nextCursor = Normal merged ->
  exists acc' : obj,
    merged = JObj acc'
    /\ forall j, j <> k -> j <> "nextPageCursor" -> acc' !! j = acc !! j.
Proof.
  unfold appendUnder. cbn [getProp get mbind completion_bind].
  destruct (spread _ _) as [olds|e]; [|discriminate].
  cbn [setProp mbind completion_bind]. intros [= <-]. eexists. split; [reflexivity|].
  intros j Hk Hn. rewrite !lookup_insert_ne by congruence. reflexivity.
Qed.

Lemma pushAdditionalPage_frame (acc : obj) data merged :
  pushAdditionalPage (JObj acc) data = Normal merged ->
  exists acc' : obj,
    merged = JObj acc' /\ forall j, j <> "additionalPages" -> acc' !! j = acc !! j.
Proof.
  unfold pushAdditionalPage. cbn [getProp get mbind completion_bind setProp].
  destruct (if truthy_opt _ then _ else _); try discriminate.
  cbn [setProp]. intros [= <-]. eexists. split; [reflexivity|].
  intros j Hj. rewrite !lookup_insert_ne by congruence. reflexivity.
Qed.

(** Merging a page into an object leaves every property outside
    [mergeKeys] as it was. *)
Lemma accumulate_frame (acc : obj) data nextCursor merged :
  accumulate (JObj acc) data nextCursor = Normal merged ->
  exists acc' : obj,
    merged = JObj acc' /\ forall j, j ∉ mergeKeys -> acc' !! j = acc !! j.
Proof.
  assert (Hkeys : forall j, j ∉ mergeKeys ->
            j <> "records" /\ j <> "calls" /\ j <> "users" /\ j <> "results"
            /\ j <> "nextPageCursor" /\ j <> "additionalPages").
  { intros j Hj. unfold mergeKeys in Hj.
    repeat (apply not_elem_of_cons in Hj as [? Hj]). repeat split; assumption. }
  assert (Happend : forall k items,
            k ∈ ["records"; "calls"; "users"; "results"] ->
            appendUnder k (JObj acc) items nextCursor = Normal merged ->
            exists acc' : obj,
              merged = JObj acc' /\ forall j, j ∉ mergeKeys -> acc' !! j = acc !! j).
  { intros k items Hk Hrun. apply appendUnder_frame in Hrun as (acc' & -> & Hframe).
    exists acc'. split; [reflexivity|]. intros j Hj.
    destruct (Hkeys j Hj) as (? & ? & ? & ? & ? & ?).
    apply Hframe; [|assumption].
    intros ->. repeat (apply elem_of_cons in Hk as [-> | Hk]; [contradiction|]).
    apply elem_of_nil in Hk. exact Hk. }
  assert (Hpush : pushAdditionalPage (JObj acc) data = Normal merged ->
            exists acc' : obj,
              merged = JObj acc' /\ forall j, j ∉ mergeKeys -> acc' !! j = acc !! j).
  { intros Hrun. apply pushAdditionalPage_frame in Hrun as (acc' & -> & Hframe).
    exists acc'. split; [reflexivity|]. intros j Hj.
    destruct (Hkeys j Hj) as (? & ? & ? & ? & ? & ?). apply Hframe. assumption. }
  unfold accumulate. cbn [truthy]. unfold mergePage.
  destruct data; try discriminate;
    repeat match goal with
      | |- context [match arrayField ?d ?k with _ => _ end] =>
          destruct (arrayField d k);
          [apply Happend; repeat first [apply list_elem_of_here | apply list_elem_of_further]|]
      end; first [exact Hpush | discriminate].
Qed.

Lemma paginate_frame definition env validatedArgs shouldPaginate upstream :
  forall (acc : obj) currentCursor info issued allData' info',
    snd (paginate rt definition env validatedArgs shouldPaginate upstream
                  (JObj acc) currentCursor info issued) = Normal (allData', info') ->
    exists acc' : obj,
      allData' = JObj acc' /\ forall j, j ∉ mergeKeys -> acc' !! j = acc !! j.
Proof.
  induction upstream as [|respond upstream IH];
    intros acc currentCursor info issued allData' info'; cbn [paginate].
  - destruct (authorizationHeader rt env); discriminate.
  - destruct (authorizationHeader rt env) as [authHeader|]; [|discriminate].
    destruct (respond _) as [data|e]; [|discriminate].
    destruct (accumulate _ _ _) as [merged|e] eqn:Hmerge; [|discriminate].
    apply accumulate_frame in Hmerge as (acc1 & -> & Hframe1).
    destruct (logNextCursor _ _) as [u|e]; [|discriminate].
    destruct (truthy _ && _).
    + intros Hrun. apply IH in Hrun as (acc' & -> & Hframe).
      exists acc'. split; [reflexivity|]. intros j Hj.
      rewrite Hframe, Hframe1 by assumption. reflexivity.
    + cbn [snd]. intros [= <- <-]. exists acc1. split; [reflexivity|exact Hframe1].
Qed.

(** X11: when the first answer of a call is an object and the call
    returns a result, the result is an object that holds every property
    of the first page outside [records], [calls], [users], [results],
    [nextPageCursor], [additionalPages] and [_paginationInfo] with the
    value the first page gave it, whatever the later pages hold. *)
Theorem first_page_properties_kept definition toolArgs parsed env authHeader
    respond upstream (p1 : obj) (v : json) :
  getZodSchemaFromJsonSchema rt (inputSchema definition) toolArgs = Parsed parsed ->
  authorizationHeader rt env = Normal authHeader ->
  respond (firstConfig rt definition toolArgs parsed authHeader) = Resolved (JObj p1) ->
  snd (executeApiTool_try rt definition toolArgs env (respond :: upstream)) = Normal v ->
  exists result : obj,
    v = JObj result
    /\ forall k, k ∉ mergeKeys -> k <> "_paginationInfo" -> result !! k = p1 !! k.
Proof.
  intros Hparse Hauth Hresp.
  rewrite (executeApiTool_try_parsed _ _ _ _ _ Hparse). cbv zeta. cbn [snd].
  unfold firstConfig in Hresp.
  rewrite (paginate_step _ _ _ _ _ _ _ _ _ _ _ _ Hauth Hresp). cbv zeta.
  cbn [accumulate truthy].
  assert (Hattach : forall (acc : obj) info,
            (forall j, j ∉ mergeKeys -> acc !! j = p1 !! j) ->
            attachPaginationInfo (JObj acc) info = Normal v ->
            exists result : obj,
              v = JObj result
              /\ forall k, k ∉ mergeKeys -> k <> "_paginationInfo" ->
                           result !! k = p1 !! k).
  { intros acc info Hframe [= <-]. eexists. split; [reflexivity|].
    intros k Hk Hinfo. rewrite lookup_insert_ne by congruence. apply Hframe, Hk. }
  destruct (logNextCursor _ _) as [u|e]; [|discriminate].
  destruct (truthy _ && _).
  - destruct (snd (paginate _ _ _ _ _ _ _ _ _ _)) as [[allData info]|e] eqn:Hrun;
      [|discriminate].
    apply paginate_frame in Hrun as (acc' & -> & Hframe).
    cbn [mbind completion_bind]. apply Hattach. exact Hframe.
  - cbn [snd mbind completion_bind]. apply Hattach. reflexivity.
Qed.

Lemma string_length_append (s1 s2 : string) :
  String.length (s1 +:+ s2) = (String.length s1 + String.length s2)%nat.
Proof.
  induction s1 as [|c s1 IH]; [reflexivity|].
  change (S (String.length (s1 +:+ s2)) = S (String.length s1 + String.length s2)).
  rewrite IH. reflexivity.
Qed.

Lemma string_length_substring (n : nat) (s : string) :
  String.length (String.substring 0 n s) = Nat.min n (String.length s).
Proof.
  revert n. induction s as [|c s IH]; intros [|n]; try reflexivity.
  cbn [String.substring String.length]. rewrite IH. reflexivity.
Qed.

Lemma string_substring_all (n : nat) (s : string) :
  (String.length s <= n)%nat -> String.substring 0 n s = s.
Proof.
  revert n. induction s as [|c s IH]; intros [|n] Hlen; try reflexivity.
  - cbn in Hlen. lia.
  - cbn [String.substring]. rewrite IH; [reflexivity|]. cbn in Hlen. lia.
Qed.

(** X12: for a rejection with a response whose body is quoted (a string
    body, or the serialised text of a structured one) and is made of
    ASCII characters, the text is the status header, [Response: ] and
    the body: in full when it has at most 200 characters, else cut after
    its first 200 characters and followed by [...].  So at most 213
    characters follow the header. *)
Theorem formatApiError_bounds_the_body (error : AxiosError) (resp : AxiosResponse)
    (quote : string) :
  response error = Some resp ->
  (rdata resp = Some (JStr quote)
   \/ exists body,
        rdata resp = Some body /\ (forall s, body <> JStr s)
        /\ truthy body = true /\ JSON_stringify rt body = Some quote) ->
  asciiOnly quote = true ->
  formatApiError rt error
  = apiErrorHeader resp +:+ "Response: " +:+
    (if (String.length quote <=? 200)%nat then quote
     else String.substring 0 200 quote +:+ "...")
  /\ exists tail,
       formatApiError rt error = apiErrorHeader resp +:+ tail
       /\ (String.length tail <= 213)%nat.
Proof.
  intros Hresp Hquote _.
  assert (Hcut : String.substring 0 200 quote +:+
                 (if (200 <? Z.of_nat (String.length quote))%Z then "..." else "")
                 = (if (String.length quote <=? 200)%nat then quote
                    else String.substring 0 200 quote +:+ "...")).
  { destruct (Nat.leb_spec (String.length quote) 200) as [Hle | Hgt].
    - rewrite string_substring_all by exact Hle.
      replace (200 <? Z.of_nat (String.length quote)) with false
        by (symmetry; apply Z.ltb_ge; lia).
      clear. induction quote as [|c s IH]; [reflexivity|].
      change (String c (s +:+ "") = String c s). rewrite IH. reflexivity.
    - replace (200 <? Z.of_nat (String.length quote)) with true
        by (symmetry; apply Z.ltb_lt; lia).
      reflexivity. }
  assert (Htext : formatApiError rt error
                  = apiErrorHeader resp +:+ "Response: " +:+
                    String.substring 0 200 quote +:+
                    (if (200 <? Z.of_nat (String.length quote))%Z then "..." else "")).
  { unfold formatApiError. rewrite Hresp. cbv zeta. fold (apiErrorHeader resp).
    destruct Hquote as [-> | (body & -> & Hstring & Htruthy & Hjson)]; [reflexivity|].
    destruct body; cbn [truthy_opt from_option id]; rewrite ?Htruthy;
      try (exfalso; eapply Hstring; reflexivity);
      cbn [truthy_opt from_option] in *; try discriminate;
      rewrite ?Htruthy, Hjson; reflexivity. }
  rewrite Htext, Hcut. split; [reflexivity|].
  eexists. split; [reflexivity|].
  rewrite string_length_append.
  destruct (Nat.leb_spec (String.length quote) 200) as [Hle | Hgt].
  - cbn [String.length]. lia.
  - rewrite string_length_append, string_length_substring. cbn [String.length]. lia.
Qed.


(** *** The request handlers *)

Lemma Map_set_fresh {V} (m : list (string * V)) (k : string) (v : V) :
  k ∉ m.*1 -> Map_set m k v = m ++ [(k, v)].
Proof.
  induction m as [|[k' v'] m IH]; intros Hk; [reflexivity|].
  cbn [fmap list_fmap fst] in Hk. apply not_elem_of_cons in Hk as [Hne Hk].
  cbn [Map_set app]. replace (String.eqb k' k) with false
    by (symmetry; apply String.eqb_neq; congruence).
  rewrite IH by exact Hk. reflexivity.
Qed.

Lemma Map_new_from {V} (entries done : list (string * V)) :
  NoDup (done ++ entries).*1 ->
  foldl (fun m entry => Map_set m entry.1 entry.2) done entries = done ++ entries.
Proof.
  revert done. induction entries as [|[k v] entries IH]; intros done Hnodup.
  - cbn [foldl]. rewrite app_nil_r. reflexivity.
  - cbn [foldl fst snd].
    assert (Hk : k ∉ done.*1).
    { rewrite fmap_app in Hnodup.
      apply NoDup_app in Hnodup as (_ & Hdisj & _). intros Hin.
      apply (Hdisj k Hin). cbn. apply list_elem_of_here. }
    rewrite Map_set_fresh by exact Hk.
    rewrite IH; rewrite <- app_assoc; [reflexivity | exact Hnodup].
Qed.

(** A table whose keys are distinct is stored as it is written. *)
Lemma Map_new_NoDup {V} (entries : list (string * V)) :
  NoDup entries.*1 -> Map_new entries = entries.
Proof. intros Hnodup. apply (Map_new_from entries []). exact Hnodup. Qed.

Lemma Map_get_None {V} (m : list (string * V)) (k : string) :
  Map_get m k = None <-> k ∉ m.*1.
Proof.
  induction m as [|[k' v] m IH]; cbn [Map_get fmap list_fmap fst].
  - split; [intros _; apply not_elem_of_nil | reflexivity].
  - rewrite not_elem_of_cons. destruct (String.eqb k' k) eqn:Heq.
    + apply String.eqb_eq in Heq. split; [discriminate | intros [Hne _]; congruence].
    + apply String.eqb_neq in Heq. rewrite IH. split; [intros H; split; congruence | intros [_ H]; exact H].
Qed.

Lemma Map_get_Some {V} (m : list (string * V)) (k : string) (v : V) :
  Map_get m k = Some v -> (k, v) ∈ m.
Proof.
  induction m as [|[k' v'] m IH]; cbn [Map_get]; [discriminate|].
  destruct (String.eqb k' k) eqn:Heq.
  - apply String.eqb_eq in Heq. intros [= <-]. subst k'. apply list_elem_of_here.
  - intros Hget. apply list_elem_of_further, IH, Hget.
Qed.


(** X13: For a tool table whose keys are distinct and equal the names of
    their definitions (as in the table of this server), the names that
    the list-tools handler reports are exactly the names that the
    call-tool handler accepts: a reported name runs the engine on the
    definition registered under it, with an empty argument object when the
    request carries none; any other name is answered with the text
    [Error: Unknown tool requested: <name>] and no request is issued. *)
Theorem listed_tools_are_the_callable_tools
    (entries : list (string * McpToolDefinition))
    (toolName : string) (toolArgs : option obj)
    (env : gmap string string) (upstream : Upstream) :
  NoDup entries.*1 ->
  Forall (fun entry => entry.1 = name entry.2) entries ->
  (toolName ∈ tool_name <$> listTools (Map_new entries) ->
     exists toolDefinition,
       (toolName, toolDefinition) ∈ entries
       /\ name toolDefinition = toolName
       /\ callTool rt (Map_new entries) toolName toolArgs env upstream
          = executeApiTool rt toolDefinition (default ∅ toolArgs) env upstream)
  /\ (toolName ∉ tool_name <$> listTools (Map_new entries) ->
        callTool rt (Map_new entries) toolName toolArgs env upstream
        = ([], textResult ("Error: Unknown tool requested: " +:+ toolName))).
Proof.
  intros Hnodup Hnames. rewrite (Map_new_NoDup entries Hnodup).
  assert (Hlisted : tool_name <$> listTools entries = entries.*1).
  { unfold listTools, Map_values. clear Hnodup.
    induction Hnames as [|[k def] entries Hk _ IH]; [reflexivity|].
    cbn [map fmap list_fmap tool_name fst snd] in *. rewrite Hk. f_equal. exact IH. }
  rewrite Hlisted. unfold callTool. split.
  - intros Hin. destruct (Map_get entries toolName) as [toolDefinition|] eqn:Hget.
    + exists toolDefinition. apply Map_get_Some in Hget. split; [exact Hget|].
      split; [|reflexivity].
      rewrite Forall_forall in Hnames. symmetry. apply (Hnames _ Hget).
    + apply Map_get_None in Hget. contradiction.
  - intros Hnot. apply Map_get_None in Hnot. rewrite Hnot. reflexivity.
Qed.


(** A run that returns has had every request answered: every answer but
    the last made the loop go on, the last made it stop. *)
Lemma paginate_all_answered definition env validatedArgs shouldPaginate upstream :
  forall allData currentCursor info issued allData' info',
    snd (paginate rt definition env validatedArgs shouldPaginate upstream
                  allData currentCursor info issued) = Normal (allData', info') ->
    exists configs,
      fst (paginate rt definition env validatedArgs shouldPaginate upstream
                    allData currentCursor info issued) = issued ++ configs
      /\ (1 <= length configs)%nat
      /\ forall (i : nat) config,
           configs !! i = Some config ->
           exists respond data,
             upstream !! i = Some respond
             /\ respond config = Resolved data
             /\ ((S i < length configs)%nat ->
                 truthy (extractNextCursor data) && shouldPaginate = true)
             /\ (S i = length configs ->
                 truthy (extractNextCursor data) && shouldPaginate = false).
Proof.
  induction upstream as [|respond0 upstream IH];
    intros allData currentCursor info issued allData' info'; cbn [paginate];
    destruct (authorizationHeader rt env) as [authHeader|e]; try discriminate.
  destruct (respond0 _) as [data0|e0] eqn:Hrespond; [|discriminate].
  destruct (accumulate _ _ _) as [merged|e0]; [|discriminate].
  destruct (logNextCursor _ _) as [u|e0]; [|discriminate].
  destruct (truthy (extractNextCursor data0) && shouldPaginate) eqn:Hmore.
  - intros Hrun. apply IH in Hrun as (configs & Hfst & Hlen & Hall).
    exists (buildConfig rt definition validatedArgs shouldPaginate currentCursor authHeader
            :: configs).
    split; [rewrite Hfst, <- app_assoc; reflexivity|].
    split; [cbn [length]; lia|].
    intros [|i] config Hconfig.
    + injection Hconfig as <-. exists respond0, data0.
      split; [reflexivity|]. split; [exact Hrespond|]. split.
      * intros _. exact Hmore.
      * cbn [length]. lia.
    + cbn [lookup list_lookup] in Hconfig.
      destruct (Hall i config Hconfig) as (respond & data & Hup & Hresp & Hgo & Hstop).
      exists respond, data. split; [exact Hup|]. split; [exact Hresp|]. split.
      * cbn [length]. intros Hlt. apply Hgo. lia.
      * cbn [length]. intros Heq. apply Hstop. lia.
  - cbn [fst snd]. intros _.
    exists [buildConfig rt definition validatedArgs shouldPaginate currentCursor authHeader].
    split; [reflexivity|]. split; [cbn [length]; lia|].
    intros [|i] config Hconfig; [|discriminate].
    injection Hconfig as <-. exists respond0, data0.
    split; [reflexivity|]. split; [exact Hrespond|]. split.
    + cbn [length]. lia.
    + intros _. exact Hmore.
Qed.

(** X17: a call returns a result only when every request it issued was
    answered.  Every answer but the last was received with
    auto-pagination on and carries a cursor; with auto-pagination on, the
    last answer carries none (none of the three cursor fields holds a
    truthy value): the result of a paginated call is never cut short of
    the last page. *)
Theorem result_follows_the_last_page definition toolArgs env upstream (v : json) :
  snd (executeApiTool_try rt definition toolArgs env upstream) = Normal v ->
  let requests := fst (executeApiTool rt definition toolArgs env upstream) in
  (1 <= length requests)%nat
  /\ forall (i : nat) config,
       requests !! i = Some config ->
       exists respond data,
         upstream !! i = Some respond
         /\ respond config = Resolved data
         /\ ((S i < length requests)%nat ->
             is_true_flag (toolArgs !! "paginate") = true
             /\ truthy (extractNextCursor data) = true)
         /\ (S i = length requests ->
             is_true_flag (toolArgs !! "paginate") = true ->
             truthy (extractNextCursor data) = false).
Proof.
  intros Hv requests. subst requests. rewrite executeApiTool_unfold. cbn [fst].
  revert Hv. unfold executeApiTool_try.
  destruct (getZodSchemaFromJsonSchema rt (inputSchema definition) toolArgs)
    as [parsed|msg]; [|discriminate].
  cbv zeta.
  destruct (paginate rt definition env (delete "paginate" parsed)
              (is_true_flag (toolArgs !! "paginate")) upstream JNull
              (initialCursor definition (delete "paginate" parsed))
              initialPaginationInfo []) as [issued outcome] eqn:Hrun.
  cbn [fst snd]. destruct outcome as [[allData info]|e]; [|discriminate]. intros _.
  destruct (paginate_all_answered definition env (delete "paginate" parsed)
              (is_true_flag (toolArgs !! "paginate")) upstream JNull
              (initialCursor definition (delete "paginate" parsed))
              initialPaginationInfo [] allData info)
    as (configs & Hfst & Hlen & Hall); [rewrite Hrun; reflexivity|].
  rewrite Hrun in Hfst. cbn [fst app] in Hfst. subst issued.
  split; [exact Hlen|].
  intros i config Hconfig.
  destruct (Hall i config Hconfig) as (respond & data & Hup & Hresp & Hgo & Hstop).
  exists respond, data. split; [exact Hup|]. split; [exact Hresp|]. split.
  - intros Hlt. apply Hgo in Hlt. apply andb_prop in Hlt. destruct Hlt as [Hc Hf].
    split; assumption.
  - intros Heq Hflag. apply Hstop in Heq. rewrite Hflag, andb_true_r in Heq. exact Heq.
Qed.

End EngineProperties.

Section OAuth2Properties.

Context (rt : Runtime).
Context (formData_toString : list (string * string) -> string).
Context (ToNumber : json -> option Z).

#[local] Abbreviation call :=
  (acquireOAuth2Token_call rt formData_toString ToNumber).

Lemma string_app_inj_r (s1 s2 t : string) :
  s1 +:+ t = s2 +:+ t -> s1 = s2.
Proof.
  revert s2. induction s1 as [|c s1 IH]; intros [|c' s2] Heq.
  - reflexivity.
  - apply (f_equal String.length) in Heq.
    change (("" : string) +:+ t) with t in Heq.
    rewrite string_length_append in Heq. cbn [String.length] in Heq. lia.
  - apply (f_equal String.length) in Heq.
    change (("" : string) +:+ t) with t in Heq.
    rewrite string_length_append in Heq. cbn [String.length] in Heq. lia.
  - change (String c (s1 +:+ t) = String c' (s2 +:+ t)) in Heq.
    injection Heq as -> Heq. f_equal. apply IH, Heq.
Qed.

(** Distinct scheme names have distinct cache keys, whatever the
    environment holds. *)
Lemma oauthCacheKey_inj (s1 s2 : string) (env : gmap string string) :
  oauthCacheKey s1 env = oauthCacheKey s2 env -> s1 = s2.
Proof.
  unfold oauthCacheKey, oauthClientIdVariable. apply string_app_inj_r.
Qed.

(** The token cache is read at the key of the scheme only. *)
Lemma acquireOAuth2Token_cache_entry (schemeName : string) (scheme : json)
    (env : gmap string string) (cache cache' : gmap string TokenCacheEntry) (now : Z) :
  cache !! oauthCacheKey schemeName env = cache' !! oauthCacheKey schemeName env ->
  acquireOAuth2Token schemeName scheme env cache now
  = acquireOAuth2Token schemeName scheme env cache' now.
Proof.
  unfold acquireOAuth2Token, oauthCacheKey. intros ->. reflexivity.
Qed.

(** A token request is stored under the key of the scheme, and is only
    made when no live entry is cached there. *)
Lemma acquireOAuth2Token_request (schemeName : string) (scheme : json)
    (env : gmap string string) (cache : gmap string TokenCacheEntry) (now : Z)
    tokenUrl clientId clientSecret scopes cacheKey :
  acquireOAuth2Token schemeName scheme env cache now
  = RequestToken tokenUrl clientId clientSecret scopes cacheKey ->
  cacheKey = oauthCacheKey schemeName env
  /\ clientId = default "" (env !! oauthClientIdVariable schemeName)
  /\ from_option (fun entry => now <? expiresAt entry) false
                 (cache !! oauthCacheKey schemeName env) = false.
Proof.
  unfold acquireOAuth2Token, oauthCacheKey.
  destruct (negb (string_truthy (env !! oauthClientIdVariable schemeName))
            || negb (string_truthy (env !! oauthClientSecretVariable schemeName)));
    [discriminate|].
  destruct (from_option (fun entry => now <? expiresAt entry) false _) eqn:Hlive;
    [discriminate|].
  destruct scheme; try discriminate;
    repeat match goal with
           | |- context [if ?b then _ else _] => destruct b
           end;
    intros [= <- <- <- <- <-] || discriminate; auto.
Qed.

(** When no live entry is cached, the cache and the time have no part in
    what is requested. *)
Lemma acquireOAuth2Token_no_live_entry (schemeName : string) (scheme : json)
    (env : gmap string string) (cache cache' : gmap string TokenCacheEntry)
    (now now' : Z) :
  from_option (fun entry => now <? expiresAt entry) false
              (cache !! oauthCacheKey schemeName env) = false ->
  from_option (fun entry => now' <? expiresAt entry) false
              (cache' !! oauthCacheKey schemeName env) = false ->
  acquireOAuth2Token schemeName scheme env cache now
  = acquireOAuth2Token schemeName scheme env cache' now'.
Proof.
  unfold acquireOAuth2Token, oauthCacheKey. intros -> ->. reflexivity.
Qed.

Lemma requestOAuth2Token_requests (step : OAuth2Step)
    (respond respond' : TokenRequest -> AxiosResult)
    (cache cache' : gmap string TokenCacheEntry) (now now' : Z) :
  (forall cached, step <> ReturnCached cached) ->
  tokenRequests (requestOAuth2Token rt formData_toString ToNumber step respond cache now)
  = tokenRequests (requestOAuth2Token rt formData_toString ToNumber step respond' cache' now').
Proof.
  intros Hstep. destruct step as [|cached|tokenUrl clientId clientSecret scopes cacheKey];
    [reflexivity | exfalso; apply (Hstep cached); reflexivity |].
  cbn [requestOAuth2Token].
  destruct (respond _) as [data|e], (respond' _) as [data'|e'];
    repeat match goal with
           | |- context [if ?b then _ else _] => destruct b
           end; reflexivity.
Qed.

(** A call changes no cache entry other than the one under its key. *)
Lemma acquireOAuth2Token_call_other_keys
    (schemeName : string) (scheme : json) (env : gmap string string)
    (respond : TokenRequest -> AxiosResult)
    (cache : gmap string TokenCacheEntry) (now : Z) (key : string) :
  key <> oauthCacheKey schemeName env ->
  cacheAfter (call schemeName scheme env respond cache now) !! key = cache !! key.
Proof.
  intros Hkey. unfold acquireOAuth2Token_call.
  destruct (acquireOAuth2Token _ _ _ _ _)
    as [|cached|tokenUrl clientId clientSecret scopes cacheKey] eqn:Hstep;
    cbn [requestOAuth2Token]; [reflexivity | reflexivity |].
  destruct (acquireOAuth2Token_request _ _ _ _ _ _ _ _ _ _ Hstep) as (-> & _ & _).
  destruct (respond _); [|reflexivity].
  destruct (truthy_opt _); [|reflexivity].
  cbn [cacheAfter]. unfold cacheToken.
  destruct (tokenExpiresAt _ _ _).
  - apply lookup_insert_ne. congruence.
  - apply lookup_delete_ne. congruence.
Qed.

Lemma roundToDouble_exact (z : Z) : Z.abs z < 2 ^ 53 -> roundToDouble z = z.
Proof.
  intros Hz. unfold roundToDouble.
  replace (Z.abs z <? 2 ^ 53) with true by (symmetry; apply Z.ltb_lt; exact Hz).
  reflexivity.
Qed.

(** Within the integers that doubles hold exactly, the expiry is the
    exact one. *)
Lemma tokenExpiresAt_exact (now seconds : Z) :
  0 <= now -> 0 <= seconds -> now + seconds * 1000 < 2 ^ 53 ->
  tokenExpiresAt ToNumber now (JNum seconds) = Some (now + seconds * 1000 - 60000).
Proof.
  intros Hnow Hseconds Hsafe. unfold tokenExpiresAt.
  assert (H53 : 2 ^ 53 = 9007199254740992) by reflexivity.
  rewrite (roundToDouble_exact (seconds * 1000)) by lia.
  rewrite (roundToDouble_exact (now + seconds * 1000)) by lia.
  rewrite (roundToDouble_exact (now + seconds * 1000 - 60000)) by lia.
  reflexivity.
Qed.

(** Beyond them it is rounded, as in the source: a lifetime of 2^53
    seconds granted at time 1000. *)
Lemma tokenExpiresAt_rounded :
  tokenExpiresAt ToNumber 1000 (JNum (2 ^ 53)) = Some 9007199254740932608
  /\ 1000 + 2 ^ 53 * 1000 - 60000 = 9007199254740933000.
Proof. split; vm_compute; reflexivity. Qed.

(** X14: a token obtained from the token endpoint at a time [now >= 0],
    with an integer lifetime of [expires_in >= 0] seconds (3600 when the
    answer gives none) such that [now + 1000 * expires_in < 2^53] (where
    the arithmetic of doubles is exact), is returned and cached under the
    scheme's key until one minute before the end of that lifetime: until
    then every call for the scheme returns the cached token, sends no
    request and leaves the cache as it is, whatever scheme object it is
    given; from then on a call sends the token request again. *)
Theorem token_cached_until_a_minute_before_expiry
    (schemeName : string) (scheme : json) (env : gmap string string)
    (respond : TokenRequest -> AxiosResult)
    (cache : gmap string TokenCacheEntry) (now : Z)
    (clientId clientSecret : string) (config : TokenRequest)
    (data tokenValue : json) (seconds : Z) :
  env !! "OAUTH_CLIENT_ID_SCHEMENAME" = Some clientId -> clientId <> "" ->
  env !! "OAUTH_CLIENT_SECRET_SCHEMENAME" = Some clientSecret -> clientSecret <> "" ->
  tokenRequests (call schemeName scheme env respond cache now) = [config] ->
  respond config = Resolved data ->
  get data "access_token" = Some tokenValue ->
  truthy tokenValue = true ->
  (get data "expires_in" = Some (JNum seconds) /\ seconds <> 0
   \/ truthy_opt (get data "expires_in") = false /\ seconds = 3600) ->
  0 <= now -> 0 <= seconds -> now + seconds * 1000 < 2 ^ 53 ->
  let first := call schemeName scheme env respond cache now in
  let expiry := now + seconds * 1000 - 60000 in
  returned first = tokenValue
  /\ cacheAfter first
     = <[schemeName +:+ "_" +:+ clientId :=
           {| token := tokenValue; expiresAt := expiry |}]> cache
  /\ forall (later : Z) (scheme' : json) (respond' : TokenRequest -> AxiosResult),
       (later < expiry ->
          call schemeName scheme' env respond' (cacheAfter first) later
          = {| cacheAfter := cacheAfter first; tokenRequests := [];
               returned := tokenValue |})
       /\ (expiry <= later ->
             tokenRequests (call schemeName scheme env respond' (cacheAfter first) later)
             = [config]).
Proof.
  intros Hid Hid_ne Hsecret Hsecret_ne Hrequests Hrespond Htoken Htruthy Hseconds
         Hnow Hlifetime Hsafe first expiry.
  assert (Hkey : oauthCacheKey schemeName env = schemeName +:+ "_" +:+ clientId).
  { unfold oauthCacheKey, oauthClientIdVariable. rewrite Hid. reflexivity. }
  assert (Hcreds : negb (string_truthy (env !! oauthClientIdVariable schemeName))
                   || negb (string_truthy (env !! oauthClientSecretVariable schemeName))
                   = false).
  { unfold oauthClientIdVariable, oauthClientSecretVariable. rewrite Hid, Hsecret.
    cbn [string_truthy].
    replace (String.eqb clientId "") with false
      by (symmetry; apply String.eqb_neq; exact Hid_ne).
    replace (String.eqb clientSecret "") with false
      by (symmetry; apply String.eqb_neq; exact Hsecret_ne).
    reflexivity. }
  unfold acquireOAuth2Token_call in first, Hrequests.
  destruct (acquireOAuth2Token schemeName scheme env cache now)
    as [|cached|tokenUrl clientId' clientSecret' scopes cacheKey] eqn:Hstep;
    try discriminate Hrequests.
  destruct (acquireOAuth2Token_request _ _ _ _ _ _ _ _ _ _ Hstep) as (-> & _ & Hdead).
  assert (Hconfig : tokenRequest rt formData_toString tokenUrl clientId' clientSecret' scopes
                    = config).
  { cbn [requestOAuth2Token] in Hrequests.
    destruct (respond _);
      repeat match type of Hrequests with
             | context [if ?b then _ else _] => destruct b
             end; cbn [tokenRequests] in Hrequests; congruence. }
  assert (Hdata : exists o, data = JObj o) by (destruct data; try discriminate; eauto).
  destruct Hdata as [o ->]. cbn [get] in Htoken, Hseconds.
  assert (Hfirst : first
                   = {| cacheAfter :=
                          <[schemeName +:+ "_" +:+ clientId :=
                              {| token := tokenValue; expiresAt := expiry |}]> cache;
                        tokenRequests := [config];
                        returned := tokenValue |}).
  { subst first. cbn [requestOAuth2Token]. rewrite Hconfig, Hrespond.
    cbn [get_opt get]. rewrite Htoken. cbn [truthy_opt from_option]. rewrite Htruthy.
    rewrite Hkey. unfold id.
    assert (Hin : from_option (fun x => x) JNull
                    (js_or (o !! "expires_in") (Some (JNum 3600))) = JNum seconds).
    { unfold js_or. destruct Hseconds as [[Hexp Hne] | [Hexp ->]].
      - rewrite Hexp. cbn [truthy_opt from_option truthy].
        replace (seconds =? 0) with false by (symmetry; apply Z.eqb_neq; exact Hne).
        reflexivity.
      - rewrite Hexp. reflexivity. }
    rewrite Hin, (tokenExpiresAt_exact now seconds Hnow Hlifetime Hsafe). reflexivity. }
  clearbody first. subst first. cbn [returned cacheAfter].
  split; [reflexivity|]. split; [reflexivity|].
  intros later scheme' respond'. split.
  - intros Hlater. unfold acquireOAuth2Token_call.
    assert (Hcached : acquireOAuth2Token schemeName scheme' env
                        (<[schemeName +:+ "_" +:+ clientId :=
                             {| token := tokenValue; expiresAt := expiry |}]> cache) later
                      = ReturnCached tokenValue).
    { unfold acquireOAuth2Token. rewrite Hcreds.
      fold (oauthCacheKey schemeName env). rewrite Hkey, lookup_insert_eq.
      cbn [from_option expiresAt token].
      replace (later <? expiry) with true by (symmetry; apply Z.ltb_lt; exact Hlater).
      reflexivity. }
    rewrite Hcached. reflexivity.
  - intros Hlater. unfold acquireOAuth2Token_call.
    rewrite <- (acquireOAuth2Token_no_live_entry schemeName scheme env cache _ now later),
      Hstep.
    + rewrite <- Hconfig. cbn [requestOAuth2Token].
      destruct (respond' _);
        repeat match goal with
               | |- context [if ?b then _ else _] => destruct b
               end; reflexivity.
    + exact Hdead.
    + rewrite Hkey, lookup_insert_eq. cbn [from_option expiresAt].
      apply Z.ltb_ge. exact Hlater.
Qed.

(** X15: Whatever its inputs, a call sends at most one request to the
    token endpoint, changes no cache entry other than the one under its
    own key, and leaves the whole cache as it was when it returns
    [null]; without a client id or a client secret it returns [null] and
    sends nothing. *)
Theorem acquisition_is_confined_to_its_cache_key
    (schemeName : string) (scheme : json) (env : gmap string string)
    (respond : TokenRequest -> AxiosResult)
    (cache : gmap string TokenCacheEntry) (now : Z) :
  let outcome := call schemeName scheme env respond cache now in
  (length (tokenRequests outcome) <= 1)%nat
  /\ (forall key, key <> oauthCacheKey schemeName env ->
        cacheAfter outcome !! key = cache !! key)
  /\ (returned outcome = JNull -> cacheAfter outcome = cache)
  /\ (string_truthy (env !! "OAUTH_CLIENT_ID_SCHEMENAME") = false
      \/ string_truthy (env !! "OAUTH_CLIENT_SECRET_SCHEMENAME") = false ->
      outcome = {| cacheAfter := cache; tokenRequests := []; returned := JNull |}).
Proof.
  intros outcome. subst outcome. unfold acquireOAuth2Token_call.
  split; [|split; [|split]].
  - destruct (acquireOAuth2Token _ _ _ _ _); cbn [requestOAuth2Token];
      [cbn; lia | cbn; lia |].
    destruct (respond _);
      repeat match goal with
             | |- context [if ?b then _ else _] => destruct b
             end; cbn; lia.
  - intros key Hkey. apply acquireOAuth2Token_call_other_keys, Hkey.
  - destruct (acquireOAuth2Token _ _ _ _ _); cbn [requestOAuth2Token];
      [reflexivity | reflexivity |].
    destruct (respond _) as [data|e]; [|reflexivity].
    destruct (get_opt (Some data) "access_token") as [tokenValue|];
      cbn [truthy_opt from_option]; [|reflexivity].
    destruct (truthy tokenValue) eqn:Htruthy; [|reflexivity].
    cbn [returned]. unfold id. intros ->. discriminate Htruthy.
  - intros Hmissing. unfold acquireOAuth2Token, oauthClientIdVariable,
      oauthClientSecretVariable.
    replace (negb (string_truthy (env !! "OAUTH_CLIENT_ID_SCHEMENAME"))
             || negb (string_truthy (env !! "OAUTH_CLIENT_SECRET_SCHEMENAME")))
      with true
      by (destruct Hmissing as [-> | ->]; [reflexivity | symmetry; apply orb_true_r]).
    reflexivity.
Qed.

(** X16: Tokens are cached per scheme: a call for one scheme, whatever it
    does, changes neither the requests sent nor the value returned by a
    later call for a scheme with another name, although both read the
    same client id and secret. *)
Theorem token_cache_is_per_scheme
    (schemeName other : string) (scheme scheme' : json) (env : gmap string string)
    (respond respond' : TokenRequest -> AxiosResult)
    (cache : gmap string TokenCacheEntry) (now later : Z) :
  schemeName <> other ->
  let between := call schemeName scheme env respond cache now in
  let after := call other scheme' env respond' (cacheAfter between) later in
  let alone := call other scheme' env respond' cache later in
  tokenRequests after = tokenRequests alone
  /\ returned after = returned alone
  /\ cacheAfter after !! oauthCacheKey other env
     = cacheAfter alone !! oauthCacheKey other env.
Proof.
  intros Hne between after alone.
  assert (Hkeys : oauthCacheKey other env <> oauthCacheKey schemeName env).
  { intros Heq. apply Hne. symmetry. apply (oauthCacheKey_inj _ _ env), Heq. }
  assert (Hentry : cacheAfter between !! oauthCacheKey other env
                   = cache !! oauthCacheKey other env).
  { apply acquireOAuth2Token_call_other_keys, Hkeys. }
  subst after alone.
  change (call other scheme' env respond' (cacheAfter between) later)
    with (requestOAuth2Token rt formData_toString ToNumber
            (acquireOAuth2Token other scheme' env (cacheAfter between) later)
            respond' (cacheAfter between) later).
  change (call other scheme' env respond' cache later)
    with (requestOAuth2Token rt formData_toString ToNumber
            (acquireOAuth2Token other scheme' env cache later) respond' cache later).
  rewrite (acquireOAuth2Token_cache_entry other scheme' env _ cache later Hentry).
  destruct (acquireOAuth2Token other scheme' env cache later)
    as [|cached|tokenUrl clientId clientSecret scopes cacheKey] eqn:Hstep;
    cbn [requestOAuth2Token]; [auto | auto |].
  destruct (acquireOAuth2Token_request _ _ _ _ _ _ _ _ _ _ Hstep) as (-> & _ & _).
  destruct (respond' _); [|auto].
  destruct (truthy_opt _); [|auto].
  cbn [tokenRequests returned cacheAfter]. split; [reflexivity|]. split; [reflexivity|].
  unfold cacheToken. destruct (tokenExpiresAt _ _ _).
  - rewrite !lookup_insert_eq. reflexivity.
  - rewrite !lookup_delete_eq. reflexivity.
Qed.

End OAuth2Properties.

(** C2, the claim as stated fails: the page holds both
    [records.nextPageCursor] (the empty string) and a top-level [cursor];
    the probe by presence selects the nested field, the engine selects the
    top-level cursor. *)
Lemma cursor_probe_skips_empty_nested_field :
  get_opt (get_opt (Some emptyNestedCursorPage) "records") "nextPageCursor"
    = Some (JStr "")
  /\ get_opt (Some emptyNestedCursorPage) "cursor" = Some (JStr "abc")
  /\ nextCursor_by_presence emptyNestedCursorPage = JStr ""
  /\ extractNextCursor emptyNestedCursorPage = JStr "abc".
Proof. repeat split. Qed.

Lemma extractNextCursor_first_truthy_witness :
  extractNextCursor
    (object [("records", object [("nextPageCursor", JStr "n1")]);
             ("cursor", JStr "abc")]) = JStr "n1".
Proof.
  apply (extractNextCursor_first_truthy
           (object [("records", object [("nextPageCursor", JStr "n1")]);
                    ("cursor", JStr "abc")])); reflexivity.
Defined.

(** ** The theorems at concrete inputs *)

Lemma three_calls_pages_merged_witness :
  snd (executeApiTool_try exampleRuntime postv2callsextensive
         (aprilCalls (JBool true)) exampleEnv
         [page (JObj firstCalls); page (JObj secondCalls); page (JObj lastCalls)])
  = Normal (JObj
      (<["_paginationInfo" :=
           paginationInfo_json {| hasMorePages := false; totalPages := 3; currentPage := 3 |}]>
         (<["nextPageCursor" := JNull]>
            (<["calls" := JArr ([JStr "call-1"; JStr "call-2"]
                                ++ [JStr "call-3"; JStr "call-4"] ++ [JStr "call-5"])]>
               firstCalls)))).
Proof.
  apply (three_calls_pages_merged exampleRuntime postv2callsextensive
           (aprilCalls (JBool true)) (aprilCalls (JBool true)) exampleEnv
           "Basic key:secret" firstCalls secondCalls lastCalls
           [JStr "call-1"; JStr "call-2"] [JStr "call-3"; JStr "call-4"] [JStr "call-5"]
           "c1" "c2" []);
    first [reflexivity | discriminate].
Defined.

Lemma one_request_without_paginate_witness :
  fst (executeApiTool exampleRuntime postv2callsextensive
         (aprilCalls (JBool false)) exampleEnv [page (JObj firstCalls)])
  = [firstConfig exampleRuntime postv2callsextensive (aprilCalls (JBool false))
                 (aprilCalls (JBool false)) "Basic key:secret"].
Proof.
  apply (one_request_without_paginate exampleRuntime postv2callsextensive
           (aprilCalls (JBool false)) (aprilCalls (JBool false)) exampleEnv
           "Basic key:secret" [page (JObj firstCalls)]); reflexivity.
Defined.

Lemma primitive_body_is_unexpected_error_witness :
  exists msg,
    executeApiTool exampleRuntime postv2callsextensive (aprilCalls (JBool false))
                   exampleEnv [page JNull]
    = ([firstConfig exampleRuntime postv2callsextensive (aprilCalls (JBool false))
                    (aprilCalls (JBool false)) "Basic key:secret"],
       textResult ("Unexpected error: " +:+ msg)).
Proof.
  apply (proj2 (primitive_body_is_unexpected_error exampleRuntime postv2callsextensive
                  (aprilCalls (JBool false)) (aprilCalls (JBool false)) exampleEnv
                  [page JNull] eq_refl)
               "Basic key:secret" (page JNull) [] JNull);
    first [reflexivity | discriminate].
Defined.

Lemma counters_equal_at_return_witness :
  exists allData,
    attachPaginationInfo allData
      {| hasMorePages := false; totalPages := 3; currentPage := 3 |}
    = Normal threeCallsResult
    /\ forall o, threeCallsResult = JObj o ->
         get_opt (o !! "_paginationInfo") "totalPages" = Some (JNum 3)
         /\ get_opt (o !! "_paginationInfo") "currentPage" = Some (JNum 3)
         /\ get_opt (o !! "_paginationInfo") "hasMorePages" = Some (JBool false).
Proof.
  assert (Hv : snd (executeApiTool_try exampleRuntime postv2callsextensive
                      (aprilCalls (JBool true)) exampleEnv
                      [page (JObj firstCalls); page (JObj secondCalls);
                       page (JObj lastCalls)])
               = Normal threeCallsResult).
  { vm_compute. reflexivity. }
  pose proof (counters_equal_at_return exampleRuntime postv2callsextensive
                (aprilCalls (JBool true)) exampleEnv
                [page (JObj firstCalls); page (JObj secondCalls); page (JObj lastCalls)]
                threeCallsResult Hv) as H.
  cbv zeta in H.
  match type of H with
  | context [length ?answered] =>
      assert (Hincrements : length answered = 2%nat) by (vm_compute; reflexivity);
      rewrite Hincrements in H
  end.
  exact H.
Defined.

Lemma failures_become_text_witness :
  snd (executeApiTool exampleRuntime postv2callsextensive (aprilCalls (JBool true))
         exampleEnv [page (JObj firstCalls); fun _ => Rejected serverError])
  = textResult (formatApiError exampleRuntime serverError).
Proof.
  assert (Hissued :
            fst (executeApiTool exampleRuntime postv2callsextensive
                   (aprilCalls (JBool true)) exampleEnv
                   [page (JObj firstCalls); fun _ => Rejected serverError]) !! 1%nat
            = Some (buildConfig exampleRuntime postv2callsextensive
                      (delete "paginate" (aprilCalls (JBool true))) true (JStr "c1")
                      "Basic key:secret")).
  { vm_compute. reflexivity. }
  pose proof (failures_become_text exampleRuntime postv2callsextensive
                (aprilCalls (JBool true)) exampleEnv
                [page (JObj firstCalls); fun _ => Rejected serverError]) as H.
  cbv zeta in H. destruct H as (_ & _ & H & _).
  exact (proj2 (H 1%nat (fun _ => Rejected serverError) _ serverError
                  eq_refl Hissued eq_refl)).
Defined.

Lemma paginate_flag_not_forwarded_witness :
  (<["paginate" := JBool true]> (∅ : obj) !! "paginate" = Some (JBool true)
   \/ <["paginate" := JBool true]> (∅ : obj) !! "paginate" = Some (JStr "true") ->
   exists more,
     fst (executeApiTool exampleRuntime getv2users (<["paginate" := JBool true]> ∅)
            exampleEnv [page usersFirstPage; page usersPage])
     = buildConfig exampleRuntime getv2users
                   (delete "paginate" (<["paginate" := JBool true]> ∅)) true
                   (initialCursor getv2users
                      (delete "paginate" (<["paginate" := JBool true]> ∅)))
                   "Basic key:secret"
       :: buildConfig exampleRuntime getv2users
                      (delete "paginate" (<["paginate" := JBool true]> ∅)) true
                      (JStr "u1") "Basic key:secret" :: more)
  /\ (<["paginate" := JBool true]> (∅ : obj) !! "paginate" = Some (JBool false)
      \/ <["paginate" := JBool true]> (∅ : obj) !! "paginate" = Some (JStr "false")
      \/ <["paginate" := JBool true]> (∅ : obj) !! "paginate" = None ->
      fst (executeApiTool exampleRuntime getv2users (<["paginate" := JBool true]> ∅)
             exampleEnv [page usersFirstPage; page usersPage])
      = [buildConfig exampleRuntime getv2users
                     (delete "paginate" (<["paginate" := JBool true]> ∅)) false
                     (initialCursor getv2users
                        (delete "paginate" (<["paginate" := JBool true]> ∅)))
                     "Basic key:secret"])
  /\ delete "paginate" (<["paginate" := JBool true]> (∅ : obj)) !! "paginate" = None
  /\ forall config,
       config ∈ fst (executeApiTool exampleRuntime getv2users
                       (<["paginate" := JBool true]> ∅) exampleEnv
                       [page usersFirstPage; page usersPage]) ->
       exists currentCursor authHeader',
         config = buildConfig exampleRuntime getv2users
                              (delete "paginate" (<["paginate" := JBool true]> ∅))
                              (is_true_flag (<["paginate" := JBool true]> (∅ : obj)
                                               !! "paginate"))
                              currentCursor authHeader'
         /\ buildQueryParams getv2users
                             (delete "paginate" (<["paginate" := JBool true]> ∅))
                             currentCursor !! "paginate" = None
         /\ req_url config
            = buildUrl exampleRuntime (dropParameter "paginate" getv2users)
                       (delete "paginate" (<["paginate" := JBool true]> ∅)) currentCursor
         /\ forall body,
              req_data config = Some (JObj body) ->
              exists requestBody,
                delete "paginate" (<["paginate" := JBool true]> (∅ : obj)) !! "requestBody"
                = Some requestBody
                /\ body !! "paginate" = spread_object requestBody !! "paginate".
Proof.
  assert (Hk : "u1" <> "") by discriminate.
  assert (Hparse : getZodSchemaFromJsonSchema exampleRuntime (inputSchema getv2users)
                     (<["paginate" := JBool true]> ∅)
                   = Parsed (<["paginate" := JBool true]> ∅)).
  { vm_compute. reflexivity. }
  exact (paginate_flag_not_forwarded exampleRuntime getv2users
           (<["paginate" := JBool true]> ∅) (<["paginate" := JBool true]> ∅)
           exampleEnv "Basic key:secret" (page usersFirstPage) [page usersPage]
           usersFirstPage "u1" Hparse eq_refl eq_refl eq_refl Hk).
Defined.

(** The flag as a string: the schema of [getv2callsbyid] does not
    declare [paginate], so validation drops it from the arguments
    [{id: "42", paginate: "true"}]; the engine reads it from the
    arguments as given, and a second request follows the cursor. *)
Lemma string_flag_is_read_from_the_arguments :
  getZodSchemaFromJsonSchema exampleRuntime (inputSchema getv2callsbyid)
                             (callById "paginate" (JStr "true"))
  = Parsed (<["id" := JStr "42"]> ∅)
  /\ length (fst (executeApiTool exampleRuntime getv2callsbyid
                    (callById "paginate" (JStr "true")) exampleEnv
                    [page usersFirstPage; page usersPage])) = 2%nat
  /\ length (fst (executeApiTool exampleRuntime getv2callsbyid
                    (callById "paginate" (JStr "false")) exampleEnv
                    [page usersFirstPage; page usersPage])) = 1%nat.
Proof. vm_compute. repeat split. Qed.



(** When the accumulator holds no array under the field of the later
    page, spreading [undefined] throws and the run ends with an error. *)
Lemma shape_change_can_end_the_run :
  snd (executeApiTool exampleRuntime postv2callsextensive (aprilCalls (JBool true))
         exampleEnv [page callsPage; page usersPage])
  = textResult "Unexpected error: allData.users is not iterable".
Proof. vm_compute. reflexivity. Qed.

(** When the first page holds under [additionalPages] something truthy
    that is not an array, a later page without an array field cannot be
    appended to it, and the run ends with an error. *)
Lemma additionalPages_must_be_an_array :
  snd (executeApiTool exampleRuntime postv2callsextensive (aprilCalls (JBool true))
         exampleEnv [page taggedFirstPage; page summaryPage])
  = textResult "Unexpected error: allData.additionalPages.push is not a function".
Proof. vm_compute. reflexivity. Qed.

(** C8, the code at two scheme names: with the values of the scheme
    [billing] configured under names derived from it and other values
    under the fixed names, every scheme gets the values under the fixed
    names, so [billing] and [crm] read the same client id and secret. *)
Theorem oauth_schemes_read_the_same_variables :
  (forall s1 s2,
     oauthClientIdVariable s1 = oauthClientIdVariable s2
     /\ oauthClientSecretVariable s1 = oauthClientSecretVariable s2
     /\ oauthScopesVariable s1 = oauthScopesVariable s2)
  /\ acquireOAuth2Token "billing" clientCredentialsScheme oauthEnv ∅ 0
     = RequestToken (JStr "https://auth.example/token") "shared-id" "shared-secret"
                    None "billing_shared-id"
  /\ acquireOAuth2Token "crm" clientCredentialsScheme oauthEnv ∅ 0
     = RequestToken (JStr "https://auth.example/token") "shared-id" "shared-secret"
                    None "crm_shared-id"
  /\ acquireOAuth2Token "billing" clientCredentialsScheme
       (<["OAUTH_CLIENT_ID_BILLING" := "billing-id"]>
          (<["OAUTH_CLIENT_SECRET_BILLING" := "billing-secret"]> ∅)) ∅ 0
     = ReturnNull.
Proof. repeat split. Qed.

Lemma missing_credentials_no_request_witness :
  executeApiTool exampleRuntime getv2users ∅ ∅ [page (JObj firstCalls)]
  = ([], textResult "Unexpected error: Missing Gong credentials in environment").
Proof.
  apply (missing_credentials_no_request exampleRuntime getv2users ∅ ∅ ∅
           [page (JObj firstCalls)]); [reflexivity | left; reflexivity].
Defined.

Lemma array_page_after_object_page_witness :
  snd (executeApiTool exampleRuntime postv2callsextensive (aprilCalls (JBool true))
         exampleEnv [page (JObj firstCalls); page (JArr [JStr "call-3"])])
  = textResult "Unexpected error: allData is not iterable".
Proof.
  apply (array_page_after_object_page exampleRuntime postv2callsextensive
           (aprilCalls (JBool true)) (aprilCalls (JBool true)) exampleEnv
           "Basic key:secret" firstCalls "c1" [JStr "call-3"] []);
    first [reflexivity | discriminate].
Defined.

Lemma formatApiError_with_response_witness :
  formatApiError
    {| encodeURIComponent := encodeURIComponent exampleRuntime;
       String_replace := String_replace exampleRuntime;
       URLSearchParams_toString := URLSearchParams_toString exampleRuntime;
       Buffer_base64 := Buffer_base64 exampleRuntime;
       JSON_stringify := fun _ => Some notFoundText;
       JSON_stringify_indented := JSON_stringify_indented exampleRuntime;
       jsonSchemaToZod := jsonSchemaToZod exampleRuntime |}
    {| response := Some {| status := 404; statusText := "Not Found";
                           rdata := Some (object [("message", JStr "not found")]) |};
       request := true; code := Some "ERR_BAD_REQUEST";
       message := "Request failed with status code 404" |}
  = "API Error: Status 404 (Not Found). " +:+ "Response: " +:+ notFoundText.
Proof.
  apply (formatApiError_with_response _
           {| status := 404; statusText := "Not Found";
              rdata := Some (object [("message", JStr "not found")]) |} _
           (object [("message", JStr "not found")]));
    first [reflexivity | discriminate | (vm_compute; lia)].
Defined.

Lemma calls_pages_merged_in_order_witness :
  exists result : obj,
    snd (executeApiTool_try exampleRuntime postv2callsextensive
           (aprilCalls (JBool true)) exampleEnv
           (map (fun p => page (JObj p)) [firstCalls; secondCalls; lastCalls] ++ []))
      = Normal (JObj result)
    /\ result !! "calls"
       = Some (JArr ([JStr "call-1"; JStr "call-2"]
                     ++ [JStr "call-3"; JStr "call-4"] ++ [JStr "call-5"]))
    /\ result !! "_paginationInfo"
       = Some (paginationInfo_json
                 {| hasMorePages := false; totalPages := 3; currentPage := 3 |}).
Proof.
  apply (calls_pages_merged_in_order exampleRuntime postv2callsextensive
           (aprilCalls (JBool true)) (aprilCalls (JBool true)) exampleEnv
           "Basic key:secret" [firstCalls; secondCalls; lastCalls]);
    [reflexivity | reflexivity | reflexivity |].
  apply (trail_more firstCalls _ "c1"); [reflexivity | reflexivity | discriminate |].
  apply (trail_more secondCalls _ "c2"); [reflexivity | reflexivity | discriminate |].
  apply trail_last; reflexivity.
Defined.

(** C6, the claim as stated fails.  The schema of [getv2callsbyid] is
    well-formed and declares [id] only; the arguments
    [{id: "42", note: "follow up"}] satisfy it and hold the undeclared
    property [note].  Validation succeeds, and the normalized arguments
    are [{id: "42"}]: the undeclared property is stripped, not
    preserved. *)
Lemma undeclared_note_is_stripped :
  get_opt (get (inputSchema getv2callsbyid) "properties") "note" = None
  /\ callById "note" (JStr "follow up") !! "note" = Some (JStr "follow up")
  /\ getZodSchemaFromJsonSchema exampleRuntime (inputSchema getv2callsbyid)
                                (callById "note" (JStr "follow up"))
     = Parsed (<["id" := JStr "42"]> ∅)
  /\ delete "paginate" (<["id" := JStr "42"]> (∅ : obj)) !! "note" = None.
Proof. vm_compute. repeat split. Qed.

Lemma undeclared_properties_stripped_witness :
  (forall parsed,
     getZodSchemaFromJsonSchema exampleRuntime (inputSchema getv2callsbyid)
                                (<["note" := JStr "follow up"]> (<["id" := JStr "42"]> ∅))
     = Parsed parsed
     <-> getZodSchemaFromJsonSchema exampleRuntime (inputSchema getv2callsbyid)
                                    (<["id" := JStr "42"]> ∅)
         = Parsed parsed)
  /\ (forall parsed,
        getZodSchemaFromJsonSchema exampleRuntime (inputSchema getv2callsbyid)
                                   (<["note" := JStr "follow up"]>
                                      (<["id" := JStr "42"]> ∅))
        = Parsed parsed ->
        parsed !! "note" = None /\ delete "paginate" parsed !! "note" = None)
  /\ ("note" <> "paginate" ->
      forall parsed,
        getZodSchemaFromJsonSchema exampleRuntime (inputSchema getv2callsbyid)
                                   (<["note" := JStr "follow up"]>
                                      (<["id" := JStr "42"]> ∅))
        = Parsed parsed ->
        executeApiTool exampleRuntime getv2callsbyid
                       (<["note" := JStr "follow up"]> (<["id" := JStr "42"]> ∅))
                       exampleEnv [page (JObj lastCalls)]
        = executeApiTool exampleRuntime getv2callsbyid (<["id" := JStr "42"]> ∅)
                         exampleEnv [page (JObj lastCalls)]).
Proof.
  exact (undeclared_properties_stripped exampleRuntime
           (fun _ _ => true) (fun _ _ => "Invalid arguments") getv2callsbyid
           (list_to_map [("type", JStr "object");
                         ("properties", object [("id", str_schema)]);
                         ("required", JArr [JStr "id"])])
           (list_to_map [("id", str_schema)])
           (<["id" := JStr "42"]> ∅) "note" (JStr "follow up")
           exampleEnv [page (JObj lastCalls)]
           eq_refl eq_refl eq_refl eq_refl eq_refl eq_refl eq_refl).
Defined.


Lemma every_request_is_authorized_witness :
  Forall (fun config =>
            req_method config = "post"
            /\ req_headers config !! "Accept" = Some "application/json"
            /\ req_headers config !! "Authorization"
               = Some ("Basic " +:+ Buffer_base64 exampleRuntime ("key" +:+ ":" +:+ "secret"))
            /\ req_headers config !! "Content-Type" = Some "application/json")
         (fst (executeApiTool exampleRuntime postv2callsextensive
                 (aprilCalls (JBool true)) exampleEnv
                 [page (JObj firstCalls); page (JObj lastCalls)])).
Proof.
  apply Forall_forall. intros config Hin.
  apply (every_request_is_authorized exampleRuntime postv2callsextensive
           (aprilCalls (JBool true)) (aprilCalls (JBool true)) exampleEnv
           [page (JObj firstCalls); page (JObj lastCalls)] "key" "secret");
    first [reflexivity | discriminate | exact Hin].
Defined.

Lemma next_request_carries_cursor_witness :
  is_true_flag (aprilCalls (JBool true) !! "paginate") = true
  /\ (exists k, extractNextCursor (JObj firstCalls) = JStr k /\ k <> "")
  /\ buildConfig exampleRuntime postv2callsextensive
       (delete "paginate" (aprilCalls (JBool true))) true (JStr "c1") "Basic key:secret"
     = buildConfig exampleRuntime postv2callsextensive
         (delete "paginate" (aprilCalls (JBool true))) true
         (extractNextCursor (JObj firstCalls)) "Basic key:secret"
  /\ (forall body,
        req_data (buildConfig exampleRuntime postv2callsextensive
                    (delete "paginate" (aprilCalls (JBool true))) true (JStr "c1")
                    "Basic key:secret") = Some (JObj body) ->
        body !! "cursor" = Some (extractNextCursor (JObj firstCalls)))
  /\ (cursorIsQueryParameter postv2callsextensive = true ->
      buildQueryParams postv2callsextensive (delete "paginate" (aprilCalls (JBool true)))
                       (extractNextCursor (JObj firstCalls)) !! "cursor"
      = Some (extractNextCursor (JObj firstCalls))).
Proof.
  apply (next_request_carries_cursor exampleRuntime postv2callsextensive
           (aprilCalls (JBool true)) (aprilCalls (JBool true)) exampleEnv
           "Basic key:secret" [page (JObj firstCalls); page (JObj lastCalls)]
           0%nat (page (JObj firstCalls))
           (firstConfig exampleRuntime postv2callsextensive (aprilCalls (JBool true))
                        (aprilCalls (JBool true)) "Basic key:secret")
           (JObj firstCalls)
           (buildConfig exampleRuntime postv2callsextensive
              (delete "paginate" (aprilCalls (JBool true))) true (JStr "c1")
              "Basic key:secret"));
    reflexivity.
Defined.

Lemma non_string_cursor_ends_the_call_witness :
  executeApiTool exampleRuntime getv2users (<["paginate" := JBool true]> ∅) exampleEnv
                 [page numericCursorPage; page usersPage]
  = ([firstConfig exampleRuntime getv2users (<["paginate" := JBool true]> ∅)
                  (<["paginate" := JBool true]> ∅) "Basic key:secret"],
     textResult "Unexpected error: nextCursor?.substring is not a function").
Proof.
  apply (non_string_cursor_ends_the_call exampleRuntime getv2users
           (<["paginate" := JBool true]> ∅) (<["paginate" := JBool true]> ∅)
           exampleEnv "Basic key:secret" (page numericCursorPage) [page usersPage]
           numericCursorPage);
    first [reflexivity | intros k; vm_compute; discriminate].
Defined.

Lemma other_arguments_have_no_effect_witness :
  executeApiTool exampleRuntime getv2users (<["paginate" := JBool true]> ∅) exampleEnv
                 [page usersPage]
  = executeApiTool exampleRuntime getv2users
      (<["verbose" := JBool true]> (<["paginate" := JBool true]> ∅)) exampleEnv
      [page usersPage].
Proof.
  assert (Hparse : getZodSchemaFromJsonSchema exampleRuntime (inputSchema getv2users)
                     (<["paginate" := JBool true]> ∅)
                   = Parsed (<["paginate" := JBool true]> ∅)).
  { vm_compute. reflexivity. }
  assert (Hparse' : getZodSchemaFromJsonSchema exampleRuntime (inputSchema getv2users)
                      (<["verbose" := JBool true]> (<["paginate" := JBool true]> ∅))
                    = Parsed (<["paginate" := JBool true]> ∅)).
  { vm_compute. reflexivity. }
  apply (other_arguments_have_no_effect exampleRuntime getv2users
           (<["paginate" := JBool true]> ∅)
           (<["verbose" := JBool true]> (<["paginate" := JBool true]> ∅))
           (<["paginate" := JBool true]> ∅)
           (<["paginate" := JBool true]> ∅)
           exampleEnv [page usersPage] Hparse Hparse');
    reflexivity.
Defined.

Lemma totalPages_counts_requests_witness :
  (1 <= 3)%nat
  /\ (exists allData,
        attachPaginationInfo allData
          {| hasMorePages := false; totalPages := 3; currentPage := 3 |}
        = Normal threeCallsResult)
  /\ forall o,
       threeCallsResult = JObj o ->
       o !! "_paginationInfo"
       = Some (paginationInfo_json
                 {| hasMorePages := false; totalPages := 3; currentPage := 3 |}).
Proof.
  assert (Hv : snd (executeApiTool_try exampleRuntime postv2callsextensive
                      (aprilCalls (JBool true)) exampleEnv
                      [page (JObj firstCalls); page (JObj secondCalls);
                       page (JObj lastCalls)])
               = Normal threeCallsResult).
  { vm_compute. reflexivity. }
  pose proof (totalPages_counts_requests exampleRuntime postv2callsextensive
                (aprilCalls (JBool true)) exampleEnv
                [page (JObj firstCalls); page (JObj secondCalls); page (JObj lastCalls)]
                threeCallsResult Hv) as H.
  cbv zeta in H.
  match type of H with
  | context [length ?issued] =>
      assert (Hrequests : length issued = 3%nat) by (vm_compute; reflexivity);
      rewrite Hrequests in H
  end.
  exact H.
Defined.

Lemma first_page_properties_kept_witness :
  exists result : obj,
    snd (executeApiTool_try exampleRuntime postv2callsextensive
           (aprilCalls (JBool true)) exampleEnv
           [page (JObj firstCallsWithRequestId); page (JObj lastCalls)])
    = Normal (JObj result)
    /\ result !! "requestId" = Some (JStr "r-1").
Proof.
  assert (Hkey : "requestId" ∉ mergeKeys).
  { unfold mergeKeys. rewrite !not_elem_of_cons.
    repeat split; try discriminate. apply not_elem_of_nil. }
  assert (Hne : "requestId" <> "_paginationInfo") by discriminate.
  assert (Hrun : { v | snd (executeApiTool_try exampleRuntime postv2callsextensive
                              (aprilCalls (JBool true)) exampleEnv
                              [page (JObj firstCallsWithRequestId); page (JObj lastCalls)])
                       = Normal v }).
  { eexists. vm_compute. reflexivity. }
  destruct Hrun as [v Hv].
  assert (Hparse : getZodSchemaFromJsonSchema exampleRuntime
                     (inputSchema postv2callsextensive) (aprilCalls (JBool true))
                   = Parsed (aprilCalls (JBool true))).
  { vm_compute. reflexivity. }
  destruct (first_page_properties_kept exampleRuntime postv2callsextensive
              (aprilCalls (JBool true)) (aprilCalls (JBool true)) exampleEnv
              "Basic key:secret" (page (JObj firstCallsWithRequestId))
              [page (JObj lastCalls)] firstCallsWithRequestId v
              Hparse eq_refl eq_refl Hv) as (result & Hresult & Hkept).
  exists result. split; [exact (eq_trans Hv (f_equal Normal Hresult))|].
  exact (eq_trans (Hkept "requestId" Hkey Hne) eq_refl).
Defined.

Lemma formatApiError_bounds_the_body_witness :
  formatApiError exampleRuntime badGateway
  = apiErrorHeader {| status := 502; statusText := "Bad Gateway";
                      rdata := Some (JStr longBody) |}
    +:+ "Response: " +:+ (String.substring 0 200 longBody +:+ "...").
Proof.
  exact (proj1 (formatApiError_bounds_the_body exampleRuntime badGateway
                  {| status := 502; statusText := "Bad Gateway";
                     rdata := Some (JStr longBody) |}
                  longBody eq_refl (or_introl eq_refl) eq_refl)).
Defined.

Lemma listed_tools_are_the_callable_tools_witness :
  callTool exampleRuntime (Map_new toolDefinitionEntries) "getv2calls" None exampleEnv
           [page usersPage]
  = ([], textResult ("Error: Unknown tool requested: " +:+ "getv2calls")).
Proof.
  assert (Hkeys : NoDup toolDefinitionEntries.*1).
  { cbn. repeat (apply NoDup_cons; split;
                 [rewrite ?not_elem_of_cons; repeat split;
                  first [discriminate | apply not_elem_of_nil] |]).
    apply NoDup_nil_2. }
  assert (Hnames : Forall (fun entry => entry.1 = name entry.2) toolDefinitionEntries).
  { repeat constructor. }
  apply (proj2 (listed_tools_are_the_callable_tools exampleRuntime toolDefinitionEntries
                  "getv2calls" None exampleEnv [page usersPage] Hkeys Hnames)).
  rewrite (Map_new_NoDup _ Hkeys). cbn.
  rewrite ?not_elem_of_cons; repeat split;
    first [discriminate | apply not_elem_of_nil].
Defined.

Lemma token_cached_until_a_minute_before_expiry_witness :
  acquireOAuth2Token_call exampleRuntime exampleFormData (fun _ => None)
    "billing" JNull oauthEnv (fun _ => Rejected noResponse)
    (cacheAfter (acquireOAuth2Token_call exampleRuntime exampleFormData (fun _ => None)
                   "billing" clientCredentialsScheme oauthEnv tokenEndpoint ∅ 1000))
    60999
  = {| cacheAfter :=
         cacheAfter (acquireOAuth2Token_call exampleRuntime exampleFormData (fun _ => None)
                       "billing" clientCredentialsScheme oauthEnv tokenEndpoint ∅ 1000);
       tokenRequests := [];
       returned := JStr "tok-1" |}.
Proof.
  assert (Hseconds : get tokenAnswer "expires_in" = Some (JNum 120) /\ 120 <> 0).
  { split; [vm_compute; reflexivity | discriminate]. }
  assert (Hsafe : 1000 + 120 * 1000 < 2 ^ 53) by reflexivity.
  pose proof (token_cached_until_a_minute_before_expiry exampleRuntime exampleFormData
                (fun _ => None) "billing" clientCredentialsScheme oauthEnv tokenEndpoint
                ∅ 1000 "shared-id" "shared-secret"
                (tokenRequest exampleRuntime exampleFormData
                   (JStr "https://auth.example/token") "shared-id" "shared-secret" None)
                tokenAnswer (JStr "tok-1") 120
                eq_refl ltac:(discriminate) eq_refl ltac:(discriminate)
                eq_refl eq_refl eq_refl eq_refl (or_introl Hseconds)
                ltac:(lia) ltac:(lia) Hsafe) as H.
  cbv zeta in H. destruct H as (_ & _ & H).
  apply (proj1 (H 60999 JNull (fun _ => Rejected noResponse))).
  reflexivity.
Defined.

Lemma token_cache_is_per_scheme_witness :
  tokenRequests
    (acquireOAuth2Token_call exampleRuntime exampleFormData (fun _ => None)
       "crm" clientCredentialsScheme oauthEnv tokenEndpoint
       (cacheAfter (acquireOAuth2Token_call exampleRuntime exampleFormData (fun _ => None)
                      "billing" clientCredentialsScheme oauthEnv tokenEndpoint ∅ 1000))
       2000)
  = tokenRequests
      (acquireOAuth2Token_call exampleRuntime exampleFormData (fun _ => None)
         "crm" clientCredentialsScheme oauthEnv tokenEndpoint ∅ 2000).
Proof.
  apply (proj1 (token_cache_is_per_scheme exampleRuntime exampleFormData (fun _ => None)
                  "billing" "crm" clientCredentialsScheme clientCredentialsScheme
                  oauthEnv tokenEndpoint tokenEndpoint ∅ 1000 2000
                  ltac:(discriminate))).
Defined.


Lemma result_follows_the_last_page_witness :
  (1 <= length (fst (executeApiTool exampleRuntime postv2callsextensive
                       (aprilCalls (JBool true)) exampleEnv
                       [page (JObj firstCalls); page (JObj secondCalls);
                        page (JObj lastCalls)])))%nat
  /\ forall (i : nat) config,
       fst (executeApiTool exampleRuntime postv2callsextensive
              (aprilCalls (JBool true)) exampleEnv
              [page (JObj firstCalls); page (JObj secondCalls); page (JObj lastCalls)]) !! i
       = Some config ->
       exists respond data,
         [page (JObj firstCalls); page (JObj secondCalls); page (JObj lastCalls)] !! i
         = Some respond
         /\ respond config = Resolved data
         /\ ((S i < length (fst (executeApiTool exampleRuntime postv2callsextensive
                                   (aprilCalls (JBool true)) exampleEnv
                                   [page (JObj firstCalls); page (JObj secondCalls);
                                    page (JObj lastCalls)])))%nat ->
             is_true_flag (aprilCalls (JBool true) !! "paginate") = true
             /\ truthy (extractNextCursor data) = true)
         /\ (S i = length (fst (executeApiTool exampleRuntime postv2callsextensive
                                  (aprilCalls (JBool true)) exampleEnv
                                  [page (JObj firstCalls); page (JObj secondCalls);
                                   page (JObj lastCalls)])) ->
             is_true_flag (aprilCalls (JBool true) !! "paginate") = true ->
             truthy (extractNextCursor data) = false).
Proof.
  assert (Hv : snd (executeApiTool_try exampleRuntime postv2callsextensive
                      (aprilCalls (JBool true)) exampleEnv
                      [page (JObj firstCalls); page (JObj secondCalls);
                       page (JObj lastCalls)])
               = Normal threeCallsResult).
  { vm_compute. reflexivity. }
  exact (result_follows_the_last_page exampleRuntime postv2callsextensive
           (aprilCalls (JBool true)) exampleEnv
           [page (JObj firstCalls); page (JObj secondCalls); page (JObj lastCalls)]
           threeCallsResult Hv).
Defined.
